(** * ZK-AgentMesh: circuits and contracts

    A shallow embedding of the verification circuits
    (src/circuits/QueryProcessor.circom, ComplianceVerifier.circom,
    ZKAgentVerificationOrchestrator.circom) and of the Solidity contracts
    that gate registration, paid queries and governance
    (src/contracts/src/Counter.sol: ZKAgentVerificationCore,
    src/contracts/src/ZKAgentGovernance.sol: ZKAgentGovernance and
    ZKQueryProcessor).

    Circuits are modelled by their witness generators: every signal is a field
    element of the BN254 scalar field (circom's default prime), [<--] and [<==]
    compute the signal, and every constraint ([===], the constraint that [<==]
    adds, the assertions of circomlib's components) is checked, a failed check
    making witness generation fail ([None]). *)

From Stdlib Require Import ZArith List Lia Bool.
From Stdlib Require Strings.String.
Import ListNotations.
Open Scope Z_scope.

(** The error monad shared by both embeddings: a failed constraint of a
    witness generator, and a reverted Solidity call, are [None]. *)
Definition bind {A B} (m : option A) (k : A -> option B) : option B :=
  match m with Some a => k a | None => None end.
Notation "x <- m ;; k" := (bind m (fun x => k))
  (at level 61, m at next level, right associativity).

Module Circom.

(** ** The field *)

Definition p : Z :=
  21888242871839275222246405745257275088548364400416034343698204186575808495617.

Definition fadd (a b : Z) : Z := (a + b) mod p.
Definition fsub (a b : Z) : Z := (a - b) mod p.
Definition fmul (a b : Z) : Z := (a * b) mod p.

(** [a ** e] in the field, by square and multiply. *)
Fixpoint fpow_pos (a : Z) (e : positive) : Z :=
  match e with
  | xH => a mod p
  | xO e' => let r := fpow_pos a e' in fmul r r
  | xI e' => let r := fpow_pos a e' in fmul (fmul r r) a
  end.

(** [1 / a] in the field (circom computes the inverse; [a ** (p-2)] is it). *)
Definition finv (a : Z) : Z :=
  match p - 2 with Zpos e => fpow_pos a e | _ => 0 end.

(** circom's [\]: integer division of the representatives; division by 0 is
    a runtime error of the witness generator. *)
Definition fidiv (a b : Z) : option Z :=
  if b =? 0 then None else Some (a / b).


(** [a === b]. *)
Definition constrain (a b : Z) : option unit :=
  if a mod p =? b mod p then Some tt else None.

(** circom's [assert]. *)
Definition assert (b : bool) : option unit := if b then Some tt else None.

(** [for (i = 0; i < length xs; i++) ... f xs[i]]: every iteration must
    succeed. *)
Fixpoint forM {A B} (f : A -> option B) (xs : list A) : option (list B) :=
  match xs with
  | [] => Some []
  | x :: xs' => y <- f x ;; ys <- forM f xs' ;; Some (y :: ys)
  end.

(** ** circomlib components (circuits/bitify.circom, comparators.circom) *)

(** The loop of [Num2Bits(n)]:
<<
    for (var i = 0; i<n; i++) {
        out[i] <-- (in >> i) & 1;
        out[i] * (out[i] -1 ) === 0;
        lc1 += out[i] * e2;
        e2 = e2+e2;
    }
>>
    started at bit [i] with [k] iterations left; returns the bits and [lc1]. *)
Fixpoint Num2Bits_loop (x i : Z) (k : nat) (lc1 e2 : Z) : option (list Z * Z) :=
  match k with
  | O => Some ([], lc1)
  | S k' =>
      let b := Z.land (Z.shiftr x i) 1 in
      _ <- constrain (fmul b (fsub b 1)) 0 ;;
      r <- Num2Bits_loop x (i + 1) k' (fadd lc1 (fmul b e2)) (fadd e2 e2) ;;
      Some (b :: fst r, snd r)
  end.

(** [Num2Bits(n)]: the loop, then [lc1 === in]. *)
Definition Num2Bits (n : nat) (x : Z) : option (list Z) :=
  r <- Num2Bits_loop x 0 n 0 1 ;;
  _ <- constrain (snd r) x ;;
  Some (fst r).

(** [LessThan(n)]:
<<
    assert(n <= 252);
    n2b.in <== in[0]+ (1<<n) - in[1];
    out <== 1-n2b.out[n];
>> *)
Definition LessThan (n : nat) (in0 in1 : Z) : option Z :=
  _ <- assert (Nat.leb n 252) ;;
  bits <- Num2Bits (S n) (fsub (fadd in0 (2 ^ Z.of_nat n)) in1) ;;
  Some (fsub 1 (nth n bits 0)).

(** [GreaterEqThan(n)]: [lt.in[0] <== in[1]; lt.in[1] <== in[0]+1; lt.out ==> out]. *)
Definition GreaterEqThan (n : nat) (in0 in1 : Z) : option Z :=
  LessThan n in1 (fadd in0 1).

(** [IsZero()]: [inv <-- in!=0 ? 1/in : 0; out <== -in*inv +1; in*out === 0]. *)
Definition IsZero (x : Z) : option Z :=
  let inv := if negb (x mod p =? 0) then finv x else 0 in
  let out := fadd (fmul (fsub 0 x) inv) 1 in
  _ <- constrain (fmul x out) 0 ;;
  Some out.

(** [IsEqual()]: [isz.in <== in[1] - in[0]; isz.out ==> out]. *)
Definition IsEqual (in0 in1 : Z) : option Z := IsZero (fsub in1 in0).

(** ** Templates of src/circuits/QueryProcessor.circom *)

(** [AverageCalculator(n)]:
<<
    partialSum[0] <== 0;
    for (var i = 0; i < n; i++) { partialSum[i+1] <== partialSum[i] + values[i]; }
    sum <== partialSum[n];
    tempAverage <-- sum \ n;
    tempAverage * n === sum;
    average <== tempAverage;
>> *)
Definition AverageCalculator (values : list Z) : option Z :=
  let n := Z.of_nat (length values) in
  let sum := fold_left fadd values 0 in
  tempAverage <- fidiv sum n ;;
  _ <- constrain (fmul tempAverage n) sum ;;
  Some tempAverage.

(** The constraints [AverageCalculator(n)] emits, over all of its signals:
    [partialSum[0] === 0], [partialSum[i+1] === partialSum[i] + values[i]],
    [sum === partialSum[n]], [tempAverage * n === sum],
    [average === tempAverage]. [tempAverage] is assigned with [<--], so a
    prover may put any field element there; the constraints are all that
    bind it. *)
Fixpoint partial_sums_ok (prev : Z) (values partialSum : list Z) : bool :=
  match values, partialSum with
  | [], [] => true
  | v :: vs, s :: ss => (s =? fadd prev v) && partial_sums_ok s vs ss
  | _, _ => false
  end.

Definition AverageCalculator_sat (values partialSum : list Z)
    (sum tempAverage average : Z) : bool :=
  let n := Z.of_nat (length values) in
  match partialSum with
  | ps0 :: rest =>
      (ps0 =? 0) && partial_sums_ok ps0 values rest
      && (sum =? last partialSum 0)
      && (fmul tempAverage n =? sum mod p)
      && (average =? tempAverage)
  | [] => false
  end.

(** The product chain of [TrainingQualityVerifier]:
<<
    quality_products[0] <== 1;
    for (var i = 0; i < n_samples; i++) {
        quality_products[i + 1] <== quality_products[i] * sample_checks[i].out;
    }
    final_quality_product <== quality_products[n_samples];
>>
    i.e. the ProductReducer of the spec, from accumulator [acc]. *)
Fixpoint quality_products (acc : Z) (checks : list Z) : Z :=
  match checks with
  | [] => acc
  | c :: cs => quality_products (fmul acc c) cs
  end.

Definition ProductReducer (flags : list Z) : Z := quality_products 1 flags.

(** [IndexSelector(n)]:
<<
    for (var i = 0; i < n; i++) {
        equality_checks[i].in[0] <== index;
        equality_checks[i].in[1] <== i;
        products[i] <== equality_checks[i].out * values[i];
    }
    signal sum;
    sum <== 0;
    for (var i = 0; i < n; i++) { sum <== sum + products[i]; }
    selected_value <== sum;
>>
    [sum] is one signal, and circom assigns a signal at most once: when the
    compiler instantiates the template it rejects a second [<==] to the same
    signal (error T3001), whatever the inputs. An instance that is rejected
    has no witness generator, so it produces no output on any input. *)

(** One [<==] to a signal during instantiation: [assigned] tells whether the
    signal already holds a value; a second assignment is rejected. *)
Definition assign_once (assigned : bool) : option bool :=
  if assigned then None else Some true.

(** The assignments to [sum] that instantiating [IndexSelector(n)] performs:
    [sum <== 0], then [sum <== sum + products[i]] for [i] from 0 to [n - 1]. *)
Fixpoint sum_loop_assignments (assigned : bool) (k : nat) : option bool :=
  match k with
  | O => Some assigned
  | S k' => a <- assign_once assigned ;; sum_loop_assignments a k'
  end.

Definition IndexSelector_instantiates (n : nat) : bool :=
  match (a <- assign_once false ;; sum_loop_assignments a n) with
  | Some _ => true
  | None => false
  end.

Definition IndexSelector_products (values : list Z) (index : Z) : option (list Z) :=
  forM (fun iv => eq <- IsEqual index (fst iv) ;; Some (fmul eq (snd iv)))
       (combine (map Z.of_nat (seq 0 (length values))) values).

(** [IndexSelector(n)] on [values] (of length [n]): nothing when the
    instance is rejected; otherwise the products are computed and
    [selected_value] gets the value [sum] holds after its assignments in
    order. *)
Definition IndexSelector (values : list Z) (index : Z) : option Z :=
  if IndexSelector_instantiates (length values) then
    products <- IndexSelector_products values index ;;
    Some (fold_left fadd products 0)
  else None.

(** [TrainingQualityVerifier(n_samples, n_metrics)], with [Poseidon(k)]
    the hash [poseidon] on a list of [k] field elements. *)
Record TQInput := {
  training_samples : list Z;
  model_responses : list Z;
  quality_scores : list Z;
  training_seed : Z;
  model_weights_hash : Z;
  agent_id : Z;
  min_quality_threshold : Z;
  training_commitment_hash : Z;
  creator_address : Z
}.

Record TQOutput := {
  quality_verified : Z;
  average_quality : Z;
  training_proof_hash : Z;
  model_integrity_proof : Z
}.

Definition TrainingQualityVerifier (poseidon : list Z -> Z) (i : TQInput) : option TQOutput :=
  (* sample_checks[i] = GreaterEqThan(10)(quality_scores[i], min_quality_threshold) *)
  sample_checks <- forM (fun s => GreaterEqThan 10 s i.(min_quality_threshold))
                        i.(quality_scores) ;;
  (* avg_calculator = AverageCalculator(n_samples) *)
  average_quality <- AverageCalculator i.(quality_scores) ;;
  (* quality_check = GreaterEqThan(10)(average_quality, min_quality_threshold) *)
  quality_check <- GreaterEqThan 10 average_quality i.(min_quality_threshold) ;;
  let training_proof_hash :=
    poseidon [i.(agent_id); i.(training_seed); average_quality; i.(creator_address)] in
  let model_integrity_proof :=
    poseidon [i.(model_weights_hash); i.(training_seed); i.(agent_id)] in
  let final_quality_product := quality_products 1 sample_checks in
  Some {| quality_verified := fmul quality_check final_quality_product;
          average_quality := average_quality;
          training_proof_hash := training_proof_hash;
          model_integrity_proof := model_integrity_proof |}.

(** A Training-Quality input with fixed seed 7, weights hash 11, agent 1
    and creator 42. *)
Definition tq_example (scores : list Z) (thr commitment : Z) : TQInput :=
  {| training_samples := []; model_responses := []; quality_scores := scores;
     training_seed := 7; model_weights_hash := 11; agent_id := 1;
     min_quality_threshold := thr; training_commitment_hash := commitment;
     creator_address := 42 |}.

(** An order-sensitive stand-in for Poseidon, used only to run examples. *)
Definition example_hash (xs : list Z) : Z := fold_left (fun h x => fadd (fmul h 31) x) xs 0.

End Circom.

(** ** Solidity: common pieces *)

Module Sol.

Definition address := Z.
Definition bytes32 := Z.

Definition UINT256_MAX : Z := 2 ^ 256 - 1.

(** Solidity 0.8 checked arithmetic: overflow and underflow revert. *)
Definition checked_add (a b : Z) : option Z :=
  if a + b <=? UINT256_MAX then Some (a + b) else None.
Definition checked_sub (a b : Z) : option Z :=
  if b <=? a then Some (a - b) else None.
Definition checked_mul (a b : Z) : option Z :=
  if a * b <=? UINT256_MAX then Some (a * b) else None.

(** [require(cond, ...)]. *)
Definition require (b : bool) : option unit := if b then Some tt else None.

(** A [mapping(K => V)]: a total function (unset keys read as the default
    value); [m[k] = v] is [upd m k v]. *)
Definition upd {V} (m : Z -> V) (k : Z) (v : V) : Z -> V :=
  fun k' => if k' =? k then v else m k'.

(** [xs[i]] on a memory array: out of bounds reverts (panic 0x32). *)
Definition index (xs : list Z) (i : nat) : option Z := nth_error xs i.

(** [msg.sender], [msg.value], [block.timestamp] of a call. *)
Record Msg := { msg_sender : address; msg_value : Z; block_timestamp : Z }.

(** A transaction either commits its new state or reverts, leaving the state
    as it was; the boolean says whether it committed. *)
Definition exec {S} (r : option S) (s : S) : bool * S :=
  match r with Some s' => (true, s') | None => (false, s) end.

(** [ZKVerificationLib.Proof]: a Groth16 proof (a, b, c). *)
Record Proof := { pa : Z * Z; pb : (Z * Z) * (Z * Z); pc : Z * Z }.

(** [ZKVerificationLib.VerifyingKey]; the library is not part of the sources,
    its key is kept as the list of its field elements. *)
Definition VerifyingKey := list Z.

(** The payment token, an OpenZeppelin ERC20: balances and allowances. *)
Record Token := {
  balances : address -> Z;
  allowances : address -> address -> Z
}.

(** [ERC20._transfer(from, to, value)]: zero addresses and insufficient
    balance revert. *)
Definition erc20_transfer (t : Token) (from to value : Z) : option Token :=
  _ <- require (negb (from =? 0)) ;;
  _ <- require (negb (to =? 0)) ;;
  let fromBalance := t.(balances) from in
  _ <- require (value <=? fromBalance) ;;
  let b1 := upd t.(balances) from (fromBalance - value) in
  Some {| balances := upd b1 to (b1 to + value); allowances := t.(allowances) |}.

(** [ERC20.transferFrom(from, to, value)] called by [spender]: the allowance
    is spent (unless infinite), then the transfer. *)
Definition erc20_transferFrom (t : Token) (spender from to value : Z) : option Token :=
  let current := t.(allowances) from spender in
  t1 <- (if current =? UINT256_MAX then Some t
         else _ <- require (value <=? current) ;;
              Some {| balances := t.(balances);
                      allowances := upd t.(allowances) from
                                      (upd (t.(allowances) from) spender (current - value)) |}) ;;
  erc20_transfer t1 from to value.

End Sol.

(** ** ZKAgentVerificationCore (src/contracts/src/Counter.sol) *)

Module Core.
Import Sol.

Record Agent := {
  creator : address;
  metadataURI : String.string;
  registrationTime : Z;
  isActive : bool;
  totalVerifications : Z;
  lastVerificationTime : Z;
  verificationProofs : bytes32 -> bool
}.

Definition default_agent : Agent :=
  {| creator := 0; metadataURI := String.EmptyString; registrationTime := 0;
     isActive := false; totalVerifications := 0; lastVerificationTime := 0;
     verificationProofs := fun _ => false |}.

Record VerificationResult := {
  qualityVerified : bool;
  ethicsVerified : bool;
  complianceVerified : bool;
  capabilityVerified : bool;
  reputationScore : Z;
  timestamp : Z;
  masterProofHash : bytes32
}.

Inductive VerificationType :=
| TRAINING_QUALITY | ETHICS_COMPLIANCE | REGULATORY_COMPLIANCE
| CAPABILITY_VERIFICATION | REPUTATION_SCORING | INCENTIVE_ALIGNMENT
| DYNAMIC_ADAPTATION | PRIVACY_QUERY_PROCESSING.

Record CoreState := {
  agents : bytes32 -> Agent;
  verificationResults : bytes32 -> VerificationResult;
  verifyingKeys : VerificationType -> VerifyingKey;
  registeredAgents : list bytes32;
  totalRegisteredAgents : Z;
  verificationFee : Z;
  registrationFee : Z;
  (** [address(this).balance] *)
  eth_balance : Z
}.

(** [registerAgent(agentId, metadataURI)] (payable). *)
Definition registerAgent (m : Msg) (s : CoreState) (agentId : bytes32)
    (metadataURI : String.string) : option CoreState :=
  _ <- require (s.(registrationFee) <=? m.(msg_value)) ;;
  _ <- require ((s.(agents) agentId).(creator) =? 0) ;;
  let agent := s.(agents) agentId in
  let agent' := {| creator := m.(msg_sender);
                   metadataURI := metadataURI;
                   registrationTime := m.(block_timestamp);
                   isActive := true;
                   totalVerifications := agent.(totalVerifications);
                   lastVerificationTime := agent.(lastVerificationTime);
                   verificationProofs := agent.(verificationProofs) |} in
  total <- checked_add s.(totalRegisteredAgents) 1 ;;
  Some {| agents := upd s.(agents) agentId agent';
          verificationResults := s.(verificationResults);
          verifyingKeys := s.(verifyingKeys);
          registeredAgents := s.(registeredAgents) ++ [agentId];
          totalRegisteredAgents := total;
          verificationFee := s.(verificationFee);
          registrationFee := s.(registrationFee);
          eth_balance := s.(eth_balance) + m.(msg_value) |}.

(** [isAgentFullyVerified(agentId)]. *)
Definition isAgentFullyVerified (s : CoreState) (agentId : bytes32) : bool :=
  let result := s.(verificationResults) agentId in
  result.(qualityVerified) && result.(ethicsVerified) &&
  result.(complianceVerified) && result.(capabilityVerified).

End Core.

(** ** ZKQueryProcessor (src/contracts/src/ZKAgentGovernance.sol) *)

Module QP.
Import Sol.

Record QueryRequest := {
  agentId : bytes32;
  requester : address;
  queryType : Z;
  paymentAmount : Z;
  timestamp : Z;
  processed : bool;
  responseCommitment : bytes32
}.

Record AgentCapabilities := {
  supportedQueryTypes : Z -> bool;
  basePrice : Z;
  complexityMultiplier : Z;
  acceptingQueries : bool
}.

Definition FEE_DENOMINATOR : Z := 10000.

(** The contract's storage, with the state of the contracts it calls: the
    verification core ([verificationContract]) and the payment token. *)
Record QPState := {
  queries : bytes32 -> QueryRequest;
  agentCapabilities : bytes32 -> AgentCapabilities;
  platformFeePercent : Z;
  owner : address;
  (** [address(this)] *)
  this : address;
  verificationContract : Core.CoreState;
  paymentToken : Token
}.

Definition with_queries (s : QPState) (q : bytes32 -> QueryRequest) : QPState :=
  {| queries := q; agentCapabilities := s.(agentCapabilities);
     platformFeePercent := s.(platformFeePercent); owner := s.(owner); this := s.(this);
     verificationContract := s.(verificationContract); paymentToken := s.(paymentToken) |}.

Definition with_token (s : QPState) (t : Token) : QPState :=
  {| queries := s.(queries); agentCapabilities := s.(agentCapabilities);
     platformFeePercent := s.(platformFeePercent); owner := s.(owner); this := s.(this);
     verificationContract := s.(verificationContract); paymentToken := t |}.

Section Contract.

(** [ZKVerificationLib.verifyProof(vk, proof, publicInputs)]; the library is
    not part of the sources, so it is a parameter of the contract. *)
Variable verifyProof : VerifyingKey -> Proof -> list Z -> bool.

(** [keccak256(abi.encodePacked(agentId, msg.sender, queryType, queryHash,
    block.timestamp))], the query id. *)
Variable query_id : bytes32 -> address -> Z -> bytes32 -> Z -> bytes32.

(** [for (uint256 i = 0; i < 100; i++) supportedQueryTypes[i] = false;],
    from [i] with [k] iterations left. *)
Fixpoint clear_loop (i : Z) (k : nat) (f : Z -> bool) : Z -> bool :=
  match k with
  | O => f
  | S k' => clear_loop (i + 1) k' (upd f i false)
  end.

(** [setAgentCapabilities(agentId, supportedQueryTypes, basePrice,
    complexityMultiplier)]. *)
Definition setAgentCapabilities (m : Msg) (s : QPState) (agentId : bytes32)
    (supportedQueryTypes' : list Z) (basePrice' complexityMultiplier' : Z) : option QPState :=
  _ <- require (Core.isAgentFullyVerified s.(verificationContract) agentId) ;;
  let capabilities := s.(agentCapabilities) agentId in
  (* Clear existing capabilities *)
  let cleared := clear_loop 0 100 capabilities.(supportedQueryTypes) in
  (* Set new capabilities *)
  let types := fold_left (fun f t => upd f t true) supportedQueryTypes' cleared in
  let capabilities' := {| supportedQueryTypes := types;
                          basePrice := basePrice';
                          complexityMultiplier := complexityMultiplier';
                          acceptingQueries := true |} in
  Some {| queries := s.(queries);
          agentCapabilities := upd s.(agentCapabilities) agentId capabilities';
          platformFeePercent := s.(platformFeePercent); owner := s.(owner); this := s.(this);
          verificationContract := s.(verificationContract); paymentToken := s.(paymentToken) |}.

(** [calculateQueryPayment(agentId, queryType, estimatedComplexity)]. *)
Definition calculateQueryPayment (s : QPState) (agentId' : bytes32) (queryType' : Z)
    (estimatedComplexity : Z) : option Z :=
  let capabilities := s.(agentCapabilities) agentId' in
  let basePayment := capabilities.(basePrice) in
  adj <- checked_mul estimatedComplexity capabilities.(complexityMultiplier) ;;
  checked_add basePayment (adj / 1000).

(** [submitQuery(agentId, queryType, paymentAmount, queryHash)]. *)
Definition submitQuery (m : Msg) (s : QPState) (agentId' : bytes32) (queryType' paymentAmount' : Z)
    (queryHash : bytes32) : option QPState :=
  _ <- require (Core.isAgentFullyVerified s.(verificationContract) agentId') ;;
  _ <- require ((s.(agentCapabilities) agentId').(supportedQueryTypes) queryType') ;;
  _ <- require ((s.(agentCapabilities) agentId').(acceptingQueries)) ;;
  expectedPayment <- calculateQueryPayment s agentId' queryType' 500 ;;
  _ <- require (expectedPayment <=? paymentAmount') ;;
  token' <- erc20_transferFrom s.(paymentToken) s.(this) m.(msg_sender) s.(this) paymentAmount' ;;
  let queryId := query_id agentId' m.(msg_sender) queryType' queryHash m.(block_timestamp) in
  let request := {| agentId := agentId'; requester := m.(msg_sender); queryType := queryType';
                    paymentAmount := paymentAmount'; timestamp := m.(block_timestamp);
                    processed := false; responseCommitment := 0 |} in
  Some (with_token (with_queries s (upd s.(queries) queryId request)) token').

(** [submitQueryProcessingProof(queryId, proof, publicInputs)]. [msg.sender]
    is read only by the [nonReentrant] guard, which lets this call through
    since no call is in progress. *)
Definition submitQueryProcessingProof (m : Msg) (s : QPState) (queryId : bytes32)
    (proof : Proof) (publicInputs : list Z) : option QPState :=
  let query := s.(queries) queryId in
  _ <- require (negb query.(processed)) ;;
  _ <- require (negb (query.(requester) =? 0)) ;;
  let isValid := verifyProof
    (Core.verifyingKeys s.(verificationContract) Core.PRIVACY_QUERY_PROCESSING)
    proof publicInputs in
  _ <- require isValid ;;
  responseCommitment' <- index publicInputs 1 ;;
  let query' := {| agentId := query.(agentId); requester := query.(requester);
                   queryType := query.(queryType); paymentAmount := query.(paymentAmount);
                   timestamp := query.(timestamp); processed := true;
                   responseCommitment := responseCommitment' |} in
  feeNumerator <- checked_mul query.(paymentAmount) s.(platformFeePercent) ;;
  let platformFee := feeNumerator / FEE_DENOMINATOR in
  agentPayment <- checked_sub query.(paymentAmount) platformFee ;;
  let agentCreator :=
    Core.creator (Core.agents s.(verificationContract) query.(agentId)) in
  token' <- erc20_transfer s.(paymentToken) s.(this) agentCreator agentPayment ;;
  Some (with_token (with_queries s (upd s.(queries) queryId query')) token').

(** [setPlatformFee(_platformFeePercent)] (onlyOwner). *)
Definition setPlatformFee (m : Msg) (s : QPState) (fee : Z) : option QPState :=
  _ <- require (m.(msg_sender) =? s.(owner)) ;;
  _ <- require (fee <=? 1000) ;;
  Some {| queries := s.(queries); agentCapabilities := s.(agentCapabilities);
          platformFeePercent := fee; owner := s.(owner); this := s.(this);
          verificationContract := s.(verificationContract); paymentToken := s.(paymentToken) |}.

(** [withdrawPlatformFees()] (onlyOwner): the contract's whole token balance
    goes to the owner. *)
Definition withdrawPlatformFees (m : Msg) (s : QPState) : option QPState :=
  _ <- require (m.(msg_sender) =? s.(owner)) ;;
  let balance := s.(paymentToken).(balances) s.(this) in
  token' <- erc20_transfer s.(paymentToken) s.(this) s.(owner) balance ;;
  Some (with_token s token').

(** The calls a transaction can make on the contract; [World] stands for the
    rest of the chain moving the verification core and the token to any
    state (registrations, verifications, token transfers). *)
Inductive Call :=
| SetAgentCapabilities (agentId' : bytes32) (types : list Z) (basePrice' multiplier : Z)
| SubmitQuery (agentId' : bytes32) (queryType' paymentAmount' : Z) (queryHash : bytes32)
| SubmitQueryProcessingProof (queryId : bytes32) (proof : Proof) (publicInputs : list Z)
| SetPlatformFee (fee : Z)
| WithdrawPlatformFees
| World (core : Core.CoreState) (token : Token).

Definition call (m : Msg) (s : QPState) (c : Call) : option QPState :=
  match c with
  | SetAgentCapabilities a ts bp mu => setAgentCapabilities m s a ts bp mu
  | SubmitQuery a qt pay qh => submitQuery m s a qt pay qh
  | SubmitQueryProcessingProof q pr pis => submitQueryProcessingProof m s q pr pis
  | SetPlatformFee fee => setPlatformFee m s fee
  | WithdrawPlatformFees => withdrawPlatformFees m s
  | World core token =>
      Some {| queries := s.(queries); agentCapabilities := s.(agentCapabilities);
              platformFeePercent := s.(platformFeePercent); owner := s.(owner);
              this := s.(this); verificationContract := core; paymentToken := token |}
  end.

(** Running a sequence of transactions; each commits or reverts. *)
Fixpoint run (s : QPState) (txs : list (Msg * Call)) : QPState :=
  match txs with
  | [] => s
  | (m, c) :: rest => run (snd (exec (call m s c) s)) rest
  end.

(** The query id a transaction creates, if it is a [submitQuery]. *)
Definition created_id (m : Msg) (c : Call) : option bytes32 :=
  match c with
  | SubmitQuery a qt _ qh => Some (query_id a m.(msg_sender) qt qh m.(block_timestamp))
  | _ => None
  end.

Definition settles (qid : bytes32) (c : Call) : bool :=
  match c with
  | SubmitQueryProcessingProof q _ _ => q =? qid
  | _ => false
  end.

(** Committed [submitQuery] calls that (re)create the request [qid]. *)
Fixpoint creations (qid : bytes32) (s : QPState) (txs : list (Msg * Call)) : nat :=
  match txs with
  | [] => O
  | (m, c) :: rest =>
      let (ok, s') := exec (call m s c) s in
      let here := match created_id m c with
                  | Some q => if ok && (q =? qid) then 1%nat else O
                  | None => O
                  end in
      (here + creations qid s' rest)%nat
  end.

(** Committed [submitQueryProcessingProof] calls for [qid]: each one pays
    the agent's creator out of the escrow. *)
Fixpoint releases (qid : bytes32) (s : QPState) (txs : list (Msg * Call)) : nat :=
  match txs with
  | [] => O
  | (m, c) :: rest =>
      let (ok, s') := exec (call m s c) s in
      ((if ok && settles qid c then 1 else 0) + releases qid s' rest)%nat
  end.

End Contract.

(** A request that exists and still holds its escrow. *)
Definition pending (s : QPState) (qid : bytes32) : nat :=
  let q := s.(queries) qid in
  if negb (q.(requester) =? 0) && negb q.(processed) then 1 else 0.

(** The platform fee and the creator paid when [qid] is settled from [s]. *)
Definition platform_fee (s : QPState) (qid : bytes32) : Z :=
  (s.(queries) qid).(paymentAmount) * s.(platformFeePercent) / FEE_DENOMINATOR.

Definition agent_creator (s : QPState) (qid : bytes32) : address :=
  Core.creator (Core.agents s.(verificationContract) (s.(queries) qid).(agentId)).

(** Example configuration: agent 1, created by address 42, verified in all
    four categories, supporting query type 150; query 77 from requester 5
    paying [pay], fully escrowed in the contract at address 1000. *)
Definition ex_core : Core.CoreState :=
  {| Core.agents := upd (fun _ => Core.default_agent) 1
       {| Core.creator := 42; Core.metadataURI := String.EmptyString;
          Core.registrationTime := 0; Core.isActive := true;
          Core.totalVerifications := 4; Core.lastVerificationTime := 0;
          Core.verificationProofs := fun _ => false |};
     Core.verificationResults := fun _ =>
       {| Core.qualityVerified := true; Core.ethicsVerified := true;
          Core.complianceVerified := true; Core.capabilityVerified := true;
          Core.reputationScore := 0; Core.timestamp := 0; Core.masterProofHash := 0 |};
     Core.verifyingKeys := fun _ => [];
     Core.registeredAgents := [1];
     Core.totalRegisteredAgents := 1;
     Core.verificationFee := 10;
     Core.registrationFee := 5;
     Core.eth_balance := 5 |}.

Definition empty_query : QueryRequest :=
  {| agentId := 0; requester := 0; queryType := 0; paymentAmount := 0;
     timestamp := 0; processed := false; responseCommitment := 0 |}.

Definition ex_qp (pay : Z) : QPState :=
  {| queries := upd (fun _ => empty_query) 77
       {| agentId := 1; requester := 5; queryType := 150; paymentAmount := pay;
          timestamp := 0; processed := false; responseCommitment := 0 |};
     agentCapabilities := fun _ =>
       {| supportedQueryTypes := fun q => q =? 150; basePrice := 10;
          complexityMultiplier := 5; acceptingQueries := true |};
     platformFeePercent := 250;
     owner := 9;
     this := 1000;
     verificationContract := ex_core;
     paymentToken := {| balances := upd (fun _ => 0) 1000 pay;
                        allowances := fun _ _ => 0 |} |}.

Definition ex_proof : Proof := {| pa := (1, 2); pb := ((3, 4), (5, 6)); pc := (7, 8) |}.

(** A verifier that accepts every proof: a valid processing proof. *)
Definition accept_all (_ : VerifyingKey) (_ : Proof) (_ : list Z) : bool := true.

Definition ex_msg (sender : address) : Msg :=
  {| msg_sender := sender; msg_value := 0; block_timestamp := 100 |}.

End QP.

(** ** The rest of ZKAgentVerificationCore (src/contracts/src/Counter.sol)

    The contract is [Ownable] (OpenZeppelin 4: [transferOwnership] and
    [renounceOwnership], both [onlyOwner]); its storage is [CoreState] with
    the owner beside it. Calls to non-payable functions carry no value:
    [msg_value] is read by the payable ones only. *)

Module CoreOps.
Import Sol Core.

Record System := { core : CoreState; core_owner : address }.

(** The position of a verification type in the enum: the key of the
    [verifyingKeys] mapping. *)
Definition verification_type_index (t : VerificationType) : nat :=
  match t with
  | TRAINING_QUALITY => 0 | ETHICS_COMPLIANCE => 1 | REGULATORY_COMPLIANCE => 2
  | CAPABILITY_VERIFICATION => 3 | REPUTATION_SCORING => 4 | INCENTIVE_ALIGNMENT => 5
  | DYNAMIC_ADAPTATION => 6 | PRIVACY_QUERY_PROCESSING => 7
  end.

Definition verification_type_eqb (a b : VerificationType) : bool :=
  Nat.eqb (verification_type_index a) (verification_type_index b).

Definition with_agents (s : CoreState) (a : bytes32 -> Agent) : CoreState :=
  {| agents := a; verificationResults := s.(verificationResults);
     verifyingKeys := s.(verifyingKeys); registeredAgents := s.(registeredAgents);
     totalRegisteredAgents := s.(totalRegisteredAgents);
     verificationFee := s.(verificationFee); registrationFee := s.(registrationFee);
     eth_balance := s.(eth_balance) |}.

(** [result.qualityVerified = true] and the like, by verification type. *)
Definition set_verified (t : VerificationType) (r : VerificationResult) : VerificationResult :=
  let q := r.(qualityVerified) in let e := r.(ethicsVerified) in
  let c := r.(complianceVerified) in let k := r.(capabilityVerified) in
  let '(q', e', c', k') :=
    match t with
    | TRAINING_QUALITY => (true, e, c, k)
    | ETHICS_COMPLIANCE => (q, true, c, k)
    | REGULATORY_COMPLIANCE => (q, e, true, k)
    | CAPABILITY_VERIFICATION => (q, e, c, true)
    | _ => (q, e, c, k)
    end in
  {| qualityVerified := q'; ethicsVerified := e'; complianceVerified := c';
     capabilityVerified := k'; reputationScore := r.(reputationScore);
     timestamp := r.(timestamp); masterProofHash := r.(masterProofHash) |}.

Definition with_timestamp (r : VerificationResult) (ts : Z) : VerificationResult :=
  {| qualityVerified := r.(qualityVerified); ethicsVerified := r.(ethicsVerified);
     complianceVerified := r.(complianceVerified); capabilityVerified := r.(capabilityVerified);
     reputationScore := r.(reputationScore); timestamp := ts;
     masterProofHash := r.(masterProofHash) |}.

Section Contract.

(** [ZKVerificationLib.verifyProof], not part of the sources. *)
Variable verifyProof : VerifyingKey -> Proof -> list Z -> bool.

(** [keccak256(abi.encodePacked(proof.a[0], ..., proof.c[1]))]. *)
Variable proof_hash : Proof -> bytes32.

(** [keccak256(abi.encodePacked(agentId, qualityVerified, ethicsVerified,
    complianceVerified, capabilityVerified, reputationScore,
    block.timestamp))]. *)
Variable master_hash : bytes32 -> bool -> bool -> bool -> bool -> Z -> Z -> bytes32.

(** Whether [payable(to).transfer(amount)] goes through: an account may
    refuse the payment, and then [transfer] reverts. *)
Variable accepts : address -> Z -> bool.

(** [_updateFullVerificationStatus(agentId, publicInputs)] on the stored
    result; [publicInputs[4]] is read only when it is in bounds. *)
Definition _updateFullVerificationStatus (m : Msg) (agentId : bytes32)
    (publicInputs : list Z) (r : VerificationResult) : VerificationResult :=
  let score := if Nat.ltb 4 (length publicInputs) then nth 4 publicInputs 0
               else r.(reputationScore) in
  {| qualityVerified := r.(qualityVerified); ethicsVerified := r.(ethicsVerified);
     complianceVerified := r.(complianceVerified); capabilityVerified := r.(capabilityVerified);
     reputationScore := score; timestamp := r.(timestamp);
     masterProofHash := master_hash agentId r.(qualityVerified) r.(ethicsVerified)
                          r.(complianceVerified) r.(capabilityVerified) score
                          m.(block_timestamp) |}.

(** [submitVerificationProof(agentId, verificationType, proof, publicInputs)]
    (payable, [agentExists(agentId)], [onlyAgentCreator(agentId)]). *)
Definition submitVerificationProof (m : Msg) (sys : System) (agentId : bytes32)
    (verificationType : VerificationType) (proof : Proof) (publicInputs : list Z)
    : option System :=
  let s := sys.(core) in
  let agent := s.(agents) agentId in
  _ <- require (negb (agent.(creator) =? 0)) ;;
  _ <- require (agent.(creator) =? m.(msg_sender)) ;;
  _ <- require (s.(verificationFee) <=? m.(msg_value)) ;;
  let isValid := verifyProof (s.(verifyingKeys) verificationType) proof publicInputs in
  _ <- require isValid ;;
  let proofHash := proof_hash proof in
  total <- checked_add agent.(totalVerifications) 1 ;;
  let agent' := {| creator := agent.(creator); metadataURI := agent.(metadataURI);
                   registrationTime := agent.(registrationTime); isActive := agent.(isActive);
                   totalVerifications := total;
                   lastVerificationTime := m.(block_timestamp);
                   verificationProofs := upd agent.(verificationProofs) proofHash true |} in
  let result := with_timestamp (set_verified verificationType
                                  (s.(verificationResults) agentId)) m.(block_timestamp) in
  let result' :=
    if result.(qualityVerified) && result.(ethicsVerified) &&
       result.(complianceVerified) && result.(capabilityVerified)
    then _updateFullVerificationStatus m agentId publicInputs result
    else result in
  Some {| core := {| agents := upd s.(agents) agentId agent';
                     verificationResults := upd s.(verificationResults) agentId result';
                     verifyingKeys := s.(verifyingKeys);
                     registeredAgents := s.(registeredAgents);
                     totalRegisteredAgents := s.(totalRegisteredAgents);
                     verificationFee := s.(verificationFee);
                     registrationFee := s.(registrationFee);
                     eth_balance := s.(eth_balance) + m.(msg_value) |};
          core_owner := sys.(core_owner) |}.

(** [onlyOwner]. *)
Definition onlyOwner (m : Msg) (sys : System) : option unit :=
  require (m.(msg_sender) =? sys.(core_owner)).

(** [setVerifyingKey(verificationType, vk)]. *)
Definition setVerifyingKey (m : Msg) (sys : System) (t : VerificationType) (vk : VerifyingKey)
    : option System :=
  _ <- onlyOwner m sys ;;
  let s := sys.(core) in
  Some {| core := {| agents := s.(agents); verificationResults := s.(verificationResults);
                     verifyingKeys := fun t' => if verification_type_eqb t' t then vk
                                                else s.(verifyingKeys) t';
                     registeredAgents := s.(registeredAgents);
                     totalRegisteredAgents := s.(totalRegisteredAgents);
                     verificationFee := s.(verificationFee);
                     registrationFee := s.(registrationFee);
                     eth_balance := s.(eth_balance) |};
          core_owner := sys.(core_owner) |}.

(** [setFees(_registrationFee, _verificationFee)]. *)
Definition setFees (m : Msg) (sys : System) (registrationFee' verificationFee' : Z)
    : option System :=
  _ <- onlyOwner m sys ;;
  let s := sys.(core) in
  Some {| core := {| agents := s.(agents); verificationResults := s.(verificationResults);
                     verifyingKeys := s.(verifyingKeys);
                     registeredAgents := s.(registeredAgents);
                     totalRegisteredAgents := s.(totalRegisteredAgents);
                     verificationFee := verificationFee';
                     registrationFee := registrationFee';
                     eth_balance := s.(eth_balance) |};
          core_owner := sys.(core_owner) |}.

(** [withdrawFees()]: [payable(owner()).transfer(address(this).balance)]. *)
Definition withdrawFees (m : Msg) (sys : System) : option System :=
  _ <- onlyOwner m sys ;;
  let s := sys.(core) in
  _ <- require (accepts sys.(core_owner) s.(eth_balance)) ;;
  Some {| core := {| agents := s.(agents); verificationResults := s.(verificationResults);
                     verifyingKeys := s.(verifyingKeys);
                     registeredAgents := s.(registeredAgents);
                     totalRegisteredAgents := s.(totalRegisteredAgents);
                     verificationFee := s.(verificationFee);
                     registrationFee := s.(registrationFee);
                     eth_balance := 0 |};
          core_owner := sys.(core_owner) |}.

(** [Ownable.transferOwnership(newOwner)] and [renounceOwnership()]. *)
Definition transferOwnership (m : Msg) (sys : System) (newOwner : address) : option System :=
  _ <- onlyOwner m sys ;;
  _ <- require (negb (newOwner =? 0)) ;;
  Some {| core := sys.(core); core_owner := newOwner |}.

Definition renounceOwnership (m : Msg) (sys : System) : option System :=
  _ <- onlyOwner m sys ;;
  Some {| core := sys.(core); core_owner := 0 |}.

(** The registry's bookkeeping: the counter is the length of the list, no
    agent is listed twice, and the listed agents are those with a creator. *)
Definition registry_ok (s : CoreState) : Prop :=
  s.(totalRegisteredAgents) = Z.of_nat (length s.(registeredAgents)) /\
  NoDup s.(registeredAgents) /\
  forall a, In a s.(registeredAgents) <-> (s.(agents) a).(creator) <> 0.

(** The verification core of [QP.ex_core] (agent 1 created by 42, fees 10
    and 5, a balance of 5) owned by address 9. *)
Definition ex_system : System := {| core := QP.ex_core; core_owner := 9 |}.

Inductive CoreCall :=
| RegisterAgent (agentId : bytes32) (metadataURI : String.string)
| SubmitVerificationProof (agentId : bytes32) (t : VerificationType) (proof : Proof)
    (publicInputs : list Z)
| SetVerifyingKey (t : VerificationType) (vk : VerifyingKey)
| SetFees (registrationFee' verificationFee' : Z)
| WithdrawFees
| TransferOwnership (newOwner : address)
| RenounceOwnership.

Definition core_call (m : Msg) (sys : System) (c : CoreCall) : option System :=
  match c with
  | RegisterAgent a uri =>
      s' <- registerAgent m sys.(core) a uri ;; Some {| core := s'; core_owner := sys.(core_owner) |}
  | SubmitVerificationProof a t pr pis => submitVerificationProof m sys a t pr pis
  | SetVerifyingKey t vk => setVerifyingKey m sys t vk
  | SetFees rf vf => setFees m sys rf vf
  | WithdrawFees => withdrawFees m sys
  | TransferOwnership o => transferOwnership m sys o
  | RenounceOwnership => renounceOwnership m sys
  end.

Fixpoint core_run (sys : System) (txs : list (Msg * CoreCall)) : System :=
  match txs with
  | [] => sys
  | (m, c) :: rest => core_run (snd (exec (core_call m sys c) sys)) rest
  end.

End Contract.

(** The four verification flags of a result, each one kept or set. *)
Definition flags_grow (r r' : VerificationResult) : Prop :=
  (qualityVerified r = true -> qualityVerified r' = true) /\
  (ethicsVerified r = true -> ethicsVerified r' = true) /\
  (complianceVerified r = true -> complianceVerified r' = true) /\
  (capabilityVerified r = true -> capabilityVerified r' = true).

End CoreOps.

(** ** ZKAgentGovernance (src/contracts/src/ZKAgentGovernance.sol; the same
    contract is in src/contracts/src/Counter.sol)

    The governance token is an OpenZeppelin ERC20 ([Token]); its [transfer]
    and [transferFrom] revert on failure and otherwise return [true], so the
    [require]s around them pass. The contract's references to the
    verification core and the reputation NFT are not read by any function. *)

Module Gov.
Import Sol.

Record Proposal := {
  id : Z;
  proposer : address;
  description : String.string;
  forVotes : Z;
  againstVotes : Z;
  abstainVotes : Z;
  startTime : Z;
  endTime : Z;
  executed : bool;
  hasVoted : address -> bool;
  voteChoice : address -> Z (* 0=against, 1=for, 2=abstain *)
}.

(** [Dispute]; its [id] and [description] are [dispute_id] and
    [dispute_description] here, the names of [Proposal]'s fields being taken. *)
Record Dispute := {
  dispute_id : Z;
  agentId : bytes32;
  complainant : address;
  dispute_description : String.string;
  deposit : Z;
  resolved : bool;
  upheld : bool;
  createdAt : Z
}.

Record GovState := {
  proposals : Z -> Proposal;
  disputes : Z -> Dispute;
  nextProposalId : Z;
  nextDisputeId : Z;
  votingPeriod : Z;
  minimumQuorum : Z;
  disputeDeposit : Z;
  (** [Ownable]'s owner and [address(this)] *)
  gov_owner : address;
  gov_this : address;
  governanceToken : Token
}.

Definition with_proposals (s : GovState) (ps : Z -> Proposal) : GovState :=
  {| proposals := ps; disputes := s.(disputes); nextProposalId := s.(nextProposalId);
     nextDisputeId := s.(nextDisputeId); votingPeriod := s.(votingPeriod);
     minimumQuorum := s.(minimumQuorum); disputeDeposit := s.(disputeDeposit);
     gov_owner := s.(gov_owner); gov_this := s.(gov_this);
     governanceToken := s.(governanceToken) |}.

Definition with_disputes (s : GovState) (ds : Z -> Dispute) (token : Token) : GovState :=
  {| proposals := s.(proposals); disputes := ds; nextProposalId := s.(nextProposalId);
     nextDisputeId := s.(nextDisputeId); votingPeriod := s.(votingPeriod);
     minimumQuorum := s.(minimumQuorum); disputeDeposit := s.(disputeDeposit);
     gov_owner := s.(gov_owner); gov_this := s.(gov_this); governanceToken := token |}.

(** [createProposal(description)]: only the listed fields are written; the
    tallies, [executed] and the vote maps of the slot stay as stored. *)
Definition createProposal (m : Msg) (s : GovState) (description' : String.string)
    : option GovState :=
  _ <- require (100 * 10 ^ 18 <=? s.(governanceToken).(balances) m.(msg_sender)) ;;
  let proposalId := s.(nextProposalId) in
  next <- checked_add proposalId 1 ;;
  let p := s.(proposals) proposalId in
  endTime' <- checked_add m.(block_timestamp) s.(votingPeriod) ;;
  let p' := {| id := proposalId; proposer := m.(msg_sender); description := description';
               forVotes := p.(forVotes); againstVotes := p.(againstVotes);
               abstainVotes := p.(abstainVotes); startTime := m.(block_timestamp);
               endTime := endTime'; executed := p.(executed);
               hasVoted := p.(hasVoted); voteChoice := p.(voteChoice) |} in
  Some {| proposals := upd s.(proposals) proposalId p'; disputes := s.(disputes);
          nextProposalId := next; nextDisputeId := s.(nextDisputeId);
          votingPeriod := s.(votingPeriod); minimumQuorum := s.(minimumQuorum);
          disputeDeposit := s.(disputeDeposit); gov_owner := s.(gov_owner);
          gov_this := s.(gov_this); governanceToken := s.(governanceToken) |}.

(** [vote(proposalId, choice)]; the voting power is the voter's token
    balance at the time of the vote. *)
Definition vote (m : Msg) (s : GovState) (proposalId choice : Z) : option GovState :=
  let p := s.(proposals) proposalId in
  _ <- require (p.(startTime) <=? m.(block_timestamp)) ;;
  _ <- require (m.(block_timestamp) <=? p.(endTime)) ;;
  _ <- require (negb (p.(hasVoted) m.(msg_sender))) ;;
  _ <- require (choice <=? 2) ;;
  let power := s.(governanceToken).(balances) m.(msg_sender) in
  _ <- require (0 <? power) ;;
  let hv := upd p.(hasVoted) m.(msg_sender) true in
  let vc := upd p.(voteChoice) m.(msg_sender) choice in
  tallies <- (if choice =? 0 then
                a <- checked_add p.(againstVotes) power ;; Some (p.(forVotes), a, p.(abstainVotes))
              else if choice =? 1 then
                f <- checked_add p.(forVotes) power ;; Some (f, p.(againstVotes), p.(abstainVotes))
              else
                b <- checked_add p.(abstainVotes) power ;; Some (p.(forVotes), p.(againstVotes), b)) ;;
  let '(f, a, b) := tallies in
  let p' := {| id := p.(id); proposer := p.(proposer); description := p.(description);
               forVotes := f; againstVotes := a; abstainVotes := b;
               startTime := p.(startTime); endTime := p.(endTime); executed := p.(executed);
               hasVoted := hv; voteChoice := vc |} in
  Some (with_proposals s (upd s.(proposals) proposalId p')).

(** [executeProposal(proposalId)]: [passed] is only emitted. *)
Definition executeProposal (m : Msg) (s : GovState) (proposalId : Z) : option GovState :=
  let p := s.(proposals) proposalId in
  _ <- require (p.(endTime) <? m.(block_timestamp)) ;;
  _ <- require (negb p.(executed)) ;;
  t1 <- checked_add p.(forVotes) p.(againstVotes) ;;
  totalVotes <- checked_add t1 p.(abstainVotes) ;;
  _ <- require (s.(minimumQuorum) <=? totalVotes) ;;
  let p' := {| id := p.(id); proposer := p.(proposer); description := p.(description);
               forVotes := p.(forVotes); againstVotes := p.(againstVotes);
               abstainVotes := p.(abstainVotes); startTime := p.(startTime);
               endTime := p.(endTime); executed := true;
               hasVoted := p.(hasVoted); voteChoice := p.(voteChoice) |} in
  Some (with_proposals s (upd s.(proposals) proposalId p')).

(** [createDispute(agentId, description)]. *)
Definition createDispute (m : Msg) (s : GovState) (agentId' : bytes32)
    (description' : String.string) : option GovState :=
  token' <- erc20_transferFrom s.(governanceToken) s.(gov_this) m.(msg_sender) s.(gov_this)
                               s.(disputeDeposit) ;;
  let disputeId := s.(nextDisputeId) in
  next <- checked_add disputeId 1 ;;
  let d := {| dispute_id := disputeId; agentId := agentId'; complainant := m.(msg_sender);
              dispute_description := description'; deposit := s.(disputeDeposit);
              resolved := false; upheld := false; createdAt := m.(block_timestamp) |} in
  Some {| proposals := s.(proposals); disputes := upd s.(disputes) disputeId d;
          nextProposalId := s.(nextProposalId); nextDisputeId := next;
          votingPeriod := s.(votingPeriod); minimumQuorum := s.(minimumQuorum);
          disputeDeposit := s.(disputeDeposit); gov_owner := s.(gov_owner);
          gov_this := s.(gov_this); governanceToken := token' |}.

(** [resolveDispute(disputeId, upheld)] (onlyOwner): an upheld dispute
    returns the recorded deposit to the complainant; a rejected one keeps it. *)
Definition resolveDispute (m : Msg) (s : GovState) (disputeId : Z) (upheld' : bool)
    : option GovState :=
  _ <- require (m.(msg_sender) =? s.(gov_owner)) ;;
  let d := s.(disputes) disputeId in
  _ <- require (negb d.(resolved)) ;;
  let d' := {| dispute_id := d.(dispute_id); agentId := d.(agentId);
               complainant := d.(complainant); dispute_description := d.(dispute_description);
               deposit := d.(deposit); resolved := true; upheld := upheld';
               createdAt := d.(createdAt) |} in
  token' <- (if upheld' then
               erc20_transfer s.(governanceToken) s.(gov_this) d.(complainant) d.(deposit)
             else Some s.(governanceToken)) ;;
  Some (with_disputes s (upd s.(disputes) disputeId d') token').

(** [setVotingPeriod], [setMinimumQuorum], [setDisputeDeposit] (onlyOwner). *)
Definition setVotingPeriod (m : Msg) (s : GovState) (v : Z) : option GovState :=
  _ <- require (m.(msg_sender) =? s.(gov_owner)) ;;
  Some {| proposals := s.(proposals); disputes := s.(disputes);
          nextProposalId := s.(nextProposalId); nextDisputeId := s.(nextDisputeId);
          votingPeriod := v; minimumQuorum := s.(minimumQuorum);
          disputeDeposit := s.(disputeDeposit); gov_owner := s.(gov_owner);
          gov_this := s.(gov_this); governanceToken := s.(governanceToken) |}.

Definition setMinimumQuorum (m : Msg) (s : GovState) (q : Z) : option GovState :=
  _ <- require (m.(msg_sender) =? s.(gov_owner)) ;;
  Some {| proposals := s.(proposals); disputes := s.(disputes);
          nextProposalId := s.(nextProposalId); nextDisputeId := s.(nextDisputeId);
          votingPeriod := s.(votingPeriod); minimumQuorum := q;
          disputeDeposit := s.(disputeDeposit); gov_owner := s.(gov_owner);
          gov_this := s.(gov_this); governanceToken := s.(governanceToken) |}.

Definition setDisputeDeposit (m : Msg) (s : GovState) (d : Z) : option GovState :=
  _ <- require (m.(msg_sender) =? s.(gov_owner)) ;;
  Some {| proposals := s.(proposals); disputes := s.(disputes);
          nextProposalId := s.(nextProposalId); nextDisputeId := s.(nextDisputeId);
          votingPeriod := s.(votingPeriod); minimumQuorum := s.(minimumQuorum);
          disputeDeposit := d; gov_owner := s.(gov_owner);
          gov_this := s.(gov_this); governanceToken := s.(governanceToken) |}.

(** An empty storage slot. *)
Definition default_proposal : Proposal :=
  {| id := 0; proposer := 0; description := String.EmptyString; forVotes := 0;
     againstVotes := 0; abstainVotes := 0; startTime := 0; endTime := 0;
     executed := false; hasVoted := fun _ => false; voteChoice := fun _ => 0 |}.

Definition default_dispute : Dispute :=
  {| dispute_id := 0; agentId := 0; complainant := 0;
     dispute_description := String.EmptyString; deposit := 0; resolved := false;
     upheld := false; createdAt := 0 |}.

(** Example state: proposal 1 by address 5, open from time 0 to 1000 with
    no votes; quorum 1000, deposit 100, owner 9, the contract at address
    2000; address 5 holds 1000 tokens of 18 decimals (10^21 units), address
    7 holds 200 units and lets the contract spend 100 of them. *)
Definition ex_gov : GovState :=
  {| proposals := upd (fun _ => default_proposal) 1
       {| id := 1; proposer := 5; description := String.EmptyString; forVotes := 0;
          againstVotes := 0; abstainVotes := 0; startTime := 0; endTime := 1000;
          executed := false; hasVoted := fun _ => false; voteChoice := fun _ => 0 |};
     disputes := fun _ => default_dispute;
     nextProposalId := 2; nextDisputeId := 1; votingPeriod := 604800;
     minimumQuorum := 1000; disputeDeposit := 100; gov_owner := 9; gov_this := 2000;
     governanceToken := {| balances := upd (upd (fun _ => 0) 5 1000000000000000000000) 7 200;
                           allowances := fun owner spender =>
                             if (owner =? 7) && (spender =? 2000) then 100 else 0 |} |}.

Definition ex_gmsg (sender ts : Z) : Msg :=
  {| msg_sender := sender; msg_value := 0; block_timestamp := ts |}.

(** The calls of a transaction on the contract, and [TokenTransfer]: the
    sender moving governance tokens with the token's [transfer]. *)
Inductive GovCall :=
| CreateProposal (description' : String.string)
| Vote (proposalId choice : Z)
| ExecuteProposal (proposalId : Z)
| CreateDispute (agentId' : bytes32) (description' : String.string)
| ResolveDispute (disputeId : Z) (upheld' : bool)
| SetVotingPeriod (v : Z)
| SetMinimumQuorum (q : Z)
| SetDisputeDeposit (d : Z)
| TokenTransfer (to value : Z).

Definition gov_call (m : Msg) (s : GovState) (c : GovCall) : option GovState :=
  match c with
  | CreateProposal d => createProposal m s d
  | Vote pid ch => vote m s pid ch
  | ExecuteProposal pid => executeProposal m s pid
  | CreateDispute a d => createDispute m s a d
  | ResolveDispute did up => resolveDispute m s did up
  | SetVotingPeriod v => setVotingPeriod m s v
  | SetMinimumQuorum q => setMinimumQuorum m s q
  | SetDisputeDeposit d => setDisputeDeposit m s d
  | TokenTransfer to v =>
      t <- erc20_transfer s.(governanceToken) m.(msg_sender) to v ;;
      Some (with_disputes s s.(disputes) t)
  end.

Fixpoint gov_run (s : GovState) (txs : list (Msg * GovCall)) : GovState :=
  match txs with
  | [] => s
  | (m, c) :: rest => gov_run (snd (exec (gov_call m s c) s)) rest
  end.

End Gov.

(** ** The other verifiers of src/circuits/QueryProcessor.circom *)

Module Ethics.
Import Circom.

(** circomlib's [LessEqThan(n)]:
    [lt.in[0] <== in[0]; lt.in[1] <== in[1]+1; lt.out ==> out]. *)
Definition LessEqThan (n : nat) (in0 in1 : Z) : option Z :=
  LessThan n in0 (fadd in1 1).

(** [HarmfulContentCounter(n)]:
<<
    partialSum[0] <== 0;
    for (var i = 0; i < n; i++) { partialSum[i + 1] <== partialSum[i] + flags[i]; }
    total_harmful <== partialSum[n];
>> *)
Definition HarmfulContentCounter (flags : list Z) : Z := fold_left fadd flags 0.

Record ECInput := {
  bias_test_results : list Z;
  fairness_scores : list Z;
  harmful_content_flags : list Z;
  ethics_training_data_hash : Z;
  red_team_results : list Z;
  max_bias_threshold : Z;
  min_fairness_score : Z;
  max_harmful_rate : Z;
  ethics_commitment_hash : Z;
  agent_id : Z
}.

Record ECOutput := {
  ethics_verified : Z;
  bias_compliance : Z;
  fairness_compliance : Z;
  safety_compliance : Z;
  ethics_proof_hash : Z
}.

(** [EthicsComplianceVerifier(n_ethics_tests, n_bias_checks)]; its
    [bias_products] and [fairness_products] chains are the product chain of
    [TrainingQualityVerifier] ([ProductReducer]). *)
Definition EthicsComplianceVerifier (poseidon : list Z -> Z) (i : ECInput) : option ECOutput :=
  (* bias_checker[i] = LessEqThan(10)(bias_test_results[i], max_bias_threshold) *)
  bias_results <- forM (fun b => LessEqThan 10 b i.(max_bias_threshold)) i.(bias_test_results) ;;
  let bias_compliance := ProductReducer bias_results in
  (* fairness_checker[i] = GreaterEqThan(10)(fairness_scores[i], min_fairness_score) *)
  fairness_results <- forM (fun f => GreaterEqThan 10 f i.(min_fairness_score)) i.(fairness_scores) ;;
  let fairness_compliance := ProductReducer fairness_results in
  let total_harmful := HarmfulContentCounter i.(harmful_content_flags) in
  (* harmful_rate_check = LessEqThan(10)(total_harmful, max_harmful_rate) *)
  safety_compliance <- LessEqThan 10 total_harmful i.(max_harmful_rate) ;;
  let intermediate_compliance := fmul bias_compliance fairness_compliance in
  Some {| ethics_verified := fmul intermediate_compliance safety_compliance;
          bias_compliance := bias_compliance;
          fairness_compliance := fairness_compliance;
          safety_compliance := safety_compliance;
          ethics_proof_hash := poseidon [i.(agent_id); bias_compliance; safety_compliance;
                                         i.(ethics_commitment_hash);
                                         i.(ethics_training_data_hash)] |}.

(** An ethics input: bias results 100 and 200 (threshold 300), fairness
    scores 750 (minimum 700), harmful-content rate at most 1. *)
Definition ex_ethics_input (flags : list Z) : ECInput :=
  {| bias_test_results := [100; 200]; fairness_scores := [750; 750];
     harmful_content_flags := flags; ethics_training_data_hash := 13;
     red_team_results := [0; 0]; max_bias_threshold := 300; min_fairness_score := 700;
     max_harmful_rate := 1; ethics_commitment_hash := 19; agent_id := 1 |}.

(** The same input with other harmful-content flags. *)
Definition with_harmful_content_flags (i : ECInput) (flags : list Z) : ECInput :=
  {| bias_test_results := i.(bias_test_results); fairness_scores := i.(fairness_scores);
     harmful_content_flags := flags;
     ethics_training_data_hash := i.(ethics_training_data_hash);
     red_team_results := i.(red_team_results); max_bias_threshold := i.(max_bias_threshold);
     min_fairness_score := i.(min_fairness_score); max_harmful_rate := i.(max_harmful_rate);
     ethics_commitment_hash := i.(ethics_commitment_hash); agent_id := i.(agent_id) |}.

End Ethics.

Module Compliance.
Import Circom.

(** [DataTypeEncoder(n)]:
<<
    accumulator[0] <== permissions[0];
    for (var i = 1; i < n; i++) {
        accumulator[i] <== accumulator[i-1] + permissions[i] * (2 ** i);
    }
    bitmask <== accumulator[n-1];
>>
    from index [i] on; [2 ** i] is computed in the field. For [n = 0] the
    access [permissions[0]] is out of bounds and there is no witness. *)
Fixpoint DataTypeEncoder_loop (acc i : Z) (permissions : list Z) : Z :=
  match permissions with
  | [] => acc
  | pm :: rest => DataTypeEncoder_loop (fadd acc (fmul pm ((2 ^ i) mod p))) (i + 1) rest
  end.

Definition DataTypeEncoder (permissions : list Z) : option Z :=
  match permissions with
  | [] => None
  | p0 :: rest => Some (DataTypeEncoder_loop p0 1 rest)
  end.


Record CVInput := {
  data_handling_scores : list Z;
  privacy_protection_scores : list Z;
  data_category_permissions : list Z;
  retention_policies : list Z;
  encryption_standards : list Z;
  required_compliance_standard : Z;
  min_privacy_score : Z;
  min_data_handling_score : Z;
  agent_id : Z;
  compliance_commitment_hash : Z
}.

Record CVOutput := {
  compliance_verified : Z;
  privacy_level : Z;
  data_handling_level : Z;
  compliance_proof_hash : Z;
  supported_data_types : Z
}.

(** [ComplianceVerifier(n_compliance_tests, n_data_categories)] (the same
    template in src/circuits/ComplianceVerifier.circom). *)
Definition ComplianceVerifier (poseidon : list Z -> Z) (i : CVInput) : option CVOutput :=
  privacy_results <- forM (fun s => GreaterEqThan 10 s i.(min_privacy_score))
                          i.(privacy_protection_scores) ;;
  privacy_level <- AverageCalculator i.(privacy_protection_scores) ;;
  data_handling_results <- forM (fun s => GreaterEqThan 10 s i.(min_data_handling_score))
                                i.(data_handling_scores) ;;
  data_handling_level <- AverageCalculator i.(data_handling_scores) ;;
  encryption_results <- forM (fun s => GreaterEqThan 10 s 800) i.(encryption_standards) ;;
  let privacy_product := ProductReducer privacy_results in
  let data_product := ProductReducer data_handling_results in
  let encryption_product := ProductReducer encryption_results in
  let intermediate_compliance := fmul privacy_product data_product in
  let compliance_verified := fmul intermediate_compliance encryption_product in
  supported_data_types <- DataTypeEncoder i.(data_category_permissions) ;;
  Some {| compliance_verified := compliance_verified;
          privacy_level := privacy_level;
          data_handling_level := data_handling_level;
          compliance_proof_hash := poseidon [i.(agent_id); compliance_verified; privacy_level;
                                             data_handling_level; supported_data_types;
                                             i.(compliance_commitment_hash)];
          supported_data_types := supported_data_types |}.

(** A compliance input: privacy and data-handling scores of 850 (minimum
    800), permissions of data types 0 and 2, the given encryption standards. *)
Definition ex_compliance_input (encryption : list Z) : CVInput :=
  {| data_handling_scores := [850; 850]; privacy_protection_scores := [850; 850];
     data_category_permissions := [1; 0; 1]; retention_policies := [365; 365; 365];
     encryption_standards := encryption; required_compliance_standard := 1;
     min_privacy_score := 800; min_data_handling_score := 800; agent_id := 1;
     compliance_commitment_hash := 23 |}.

End Compliance.

(** ** src/circuits/ZKAgentVerificationOrchestrator.circom *)

Module Orchestrator.
Import Circom.

Record OInput := {
  training_samples : list Z;
  model_responses : list Z;
  quality_scores : list Z;
  training_seed : Z;
  model_weights_hash : Z;
  bias_test_results : list Z;
  fairness_scores : list Z;
  harmful_content_flags : list Z;
  ethics_training_data_hash : Z;
  privacy_protection_scores : list Z;
  data_handling_scores : list Z;
  encryption_standards : list Z;
  capability_scores : list Z;
  performance_benchmarks : list Z;
  agent_id : Z;
  creator_address : Z;
  min_quality_threshold : Z;
  max_bias_threshold : Z;
  min_privacy_score : Z;
  required_compliance_standard : Z;
  training_commitment_hash : Z;
  ethics_commitment_hash : Z;
  compliance_commitment_hash : Z
}.

Record OOutput := {
  agent_fully_verified : Z;
  quality_verification_result : Z;
  ethics_verification_result : Z;
  compliance_verification_result : Z;
  master_proof_hash : Z;
  verification_timestamp : Z
}.

(** The inputs the orchestrator wires into its three sub-verifiers. *)
Definition quality_input (i : OInput) : TQInput :=
  {| Circom.training_samples := i.(training_samples);
     Circom.model_responses := i.(model_responses);
     Circom.quality_scores := i.(quality_scores);
     Circom.training_seed := i.(training_seed);
     Circom.model_weights_hash := i.(model_weights_hash);
     Circom.agent_id := i.(agent_id);
     Circom.min_quality_threshold := i.(min_quality_threshold);
     Circom.training_commitment_hash := i.(training_commitment_hash);
     Circom.creator_address := i.(creator_address) |}.

Definition ethics_input (i : OInput) : Ethics.ECInput :=
  {| Ethics.bias_test_results := i.(bias_test_results);
     Ethics.fairness_scores := i.(fairness_scores);
     Ethics.harmful_content_flags := i.(harmful_content_flags);
     Ethics.ethics_training_data_hash := i.(ethics_training_data_hash);
     Ethics.red_team_results := map (fun _ => 0) i.(fairness_scores); (* Placeholder *)
     Ethics.max_bias_threshold := i.(max_bias_threshold);
     Ethics.min_fairness_score := 700;
     Ethics.max_harmful_rate := 50;
     Ethics.ethics_commitment_hash := i.(ethics_commitment_hash);
     Ethics.agent_id := i.(agent_id) |}.

Definition compliance_input (i : OInput) : Compliance.CVInput :=
  {| Compliance.data_handling_scores := i.(data_handling_scores);
     Compliance.privacy_protection_scores := i.(privacy_protection_scores);
     Compliance.data_category_permissions := repeat 1 8;
     Compliance.retention_policies := repeat 365 8;
     Compliance.encryption_standards := i.(encryption_standards);
     Compliance.required_compliance_standard := i.(required_compliance_standard);
     Compliance.min_privacy_score := i.(min_privacy_score);
     Compliance.min_data_handling_score := 800;
     Compliance.agent_id := i.(agent_id);
     Compliance.compliance_commitment_hash := i.(compliance_commitment_hash) |}.

(** [ZKAgentVerificationOrchestrator(n_training_samples, n_ethics_tests,
    n_compliance_tests, n_capability_tests)]. *)
Definition ZKAgentVerificationOrchestrator (poseidon : list Z -> Z) (i : OInput) : option OOutput :=
  q <- TrainingQualityVerifier poseidon (quality_input i) ;;
  e <- Ethics.EthicsComplianceVerifier poseidon (ethics_input i) ;;
  c <- Compliance.ComplianceVerifier poseidon (compliance_input i) ;;
  let quality_verification_result := q.(quality_verified) in
  let ethics_verification_result := e.(Ethics.ethics_verified) in
  let compliance_verification_result := c.(Compliance.compliance_verified) in
  let intermediate_verification := fmul quality_verification_result ethics_verification_result in
  Some {| agent_fully_verified := fmul intermediate_verification compliance_verification_result;
          quality_verification_result := quality_verification_result;
          ethics_verification_result := ethics_verification_result;
          compliance_verification_result := compliance_verification_result;
          master_proof_hash := poseidon [i.(agent_id); q.(training_proof_hash);
                                         e.(Ethics.ethics_proof_hash);
                                         c.(Compliance.compliance_proof_hash);
                                         quality_verification_result;
                                         ethics_verification_result;
                                         compliance_verification_result;
                                         i.(creator_address)];
          verification_timestamp := 1719360000 |}.

(** An orchestrator input: three quality scores of 900 (threshold 800), two
    bias results under 300, two fairness scores of 750, flags [1; 0; 0],
    privacy, data-handling and encryption scores of 850 (privacy threshold
    800). *)
Definition ex_orchestrator_input : OInput :=
  {| training_samples := []; model_responses := []; quality_scores := [900; 900; 900];
     training_seed := 7; model_weights_hash := 11; bias_test_results := [100; 200];
     fairness_scores := [750; 750]; harmful_content_flags := [1; 0; 0];
     ethics_training_data_hash := 13; privacy_protection_scores := [850; 850];
     data_handling_scores := [850; 850]; encryption_standards := [850];
     capability_scores := []; performance_benchmarks := []; agent_id := 1;
     creator_address := 42; min_quality_threshold := 800; max_bias_threshold := 300;
     min_privacy_score := 800; required_compliance_standard := 1;
     training_commitment_hash := 17; ethics_commitment_hash := 19;
     compliance_commitment_hash := 23 |}.

End Orchestrator.

(** ** Example configuration for the query processor's properties *)

Module QPExamples.
Import Sol QP.

(** The example configuration with nothing escrowed yet: requester 5 holds
    1000 tokens and lets the contract (address 1000) spend them. *)
Definition ex_qp_open : QPState :=
  with_token (ex_qp 0)
    {| balances := upd (fun _ => 0) 5 1000;
       allowances := fun o sp => if (o =? 5) && (sp =? 1000) then 1000 else 0 |}.

(** A query id that depends on the query hash only. *)
Definition ex_query_id (_ : bytes32) (_ : address) (_ : Z) (qh : bytes32) (_ : Z) : bytes32 :=
  qh.

End QPExamples.

(** ** Lemmas on the circuit embedding *)

Module CircomFacts.
Import Circom.

(** The plain integer sum of a vector of scores. *)
Definition zsum (xs : list Z) : Z := fold_right Z.add 0 xs.

Lemma p_big : 2 ^ 253 < p.
Proof. vm_compute. reflexivity. Qed.

Lemma p_pos : 0 < p.
Proof. pose proof p_big. pose proof (Z.pow_pos_nonneg 2 253). lia. Qed.

Lemma mod_p_small (a : Z) : 0 <= a < p -> a mod p = a.
Proof. apply Z.mod_small. Qed.

Lemma pow2_le_p (k : Z) : 0 <= k <= 253 -> 2 ^ k < p.
Proof.
  intros Hk. pose proof p_big.
  assert (2 ^ k <= 2 ^ 253) by (apply Z.pow_le_mono_r; lia). lia.
Qed.

Lemma shiftr_land_one (x i : Z) :
  0 <= i -> Z.land (Z.shiftr x i) 1 = Z.b2z (Z.testbit x i).
Proof.
  intros Hi.
  change 1 with (Z.ones 1).
  rewrite Z.land_ones by lia.
  rewrite Z.shiftr_div_pow2 by lia.
  rewrite Z.testbit_spec' by lia.
  reflexivity.
Qed.

Lemma bit_constraint (b : bool) :
  constrain (fmul (Z.b2z b) (fsub (Z.b2z b) 1)) 0 = Some tt.
Proof. destruct b; reflexivity. Qed.

Lemma mod_pow2_succ (x i : Z) : 0 <= i ->
  x mod 2 ^ (i + 1) = x mod 2 ^ i + Z.b2z (Z.testbit x i) * 2 ^ i.
Proof.
  intros Hi.
  rewrite Z.pow_add_r by lia.
  rewrite Z.rem_mul_r by (try apply Z.pow_nonzero; lia).
  rewrite Z.testbit_spec' by lia.
  change (2 ^ 1) with 2. lia.
Qed.

(** The loop of [Num2Bits] on an in-range input reads off the binary digits
    and accumulates [x mod 2^(i+k)]. *)
Lemma Num2Bits_loop_spec (x : Z) (k : nat) : forall (i lc1 : Z),
  0 <= x -> 0 <= i -> i + Z.of_nat k <= 253 -> lc1 = x mod 2 ^ i ->
  exists bits,
    Num2Bits_loop x i k lc1 (2 ^ i) = Some (bits, x mod 2 ^ (i + Z.of_nat k)) /\
    length bits = k /\
    forall j, (j < k)%nat -> nth j bits 0 = Z.b2z (Z.testbit x (i + Z.of_nat j)).
Proof.
  induction k as [|k IH]; intros i lc1 Hx Hi Hk Hlc.
  - exists []. simpl. rewrite Z.add_0_r, Hlc. repeat split. intros j Hj; lia.
  - simpl Num2Bits_loop. rewrite shiftr_land_one by lia.
    rewrite bit_constraint. cbn [bind].
    assert (Hp : 2 ^ (i + 1) < p) by (apply pow2_le_p; lia).
    assert (Hpi : 0 < 2 ^ i) by (apply Z.pow_pos_nonneg; lia).
    assert (Hpi1 : 2 ^ (i + 1) = 2 ^ i + 2 ^ i)
      by (rewrite Z.pow_add_r by lia; change (2 ^ 1) with 2; lia).
    assert (He2 : fadd (2 ^ i) (2 ^ i) = 2 ^ (i + 1)).
    { unfold fadd. rewrite <- Hpi1. apply mod_p_small. lia. }
    assert (Hb : 0 <= Z.b2z (Z.testbit x i) <= 1) by (destruct (Z.testbit x i); simpl; lia).
    assert (Hm : 0 <= x mod 2 ^ (i + 1) < 2 ^ (i + 1)) by (apply Z.mod_pos_bound; lia).
    assert (Hlc' : fadd lc1 (fmul (Z.b2z (Z.testbit x i)) (2 ^ i)) = x mod 2 ^ (i + 1)).
    { unfold fadd, fmul. rewrite Hlc.
      rewrite (mod_p_small (Z.b2z (Z.testbit x i) * 2 ^ i)) by nia.
      rewrite <- mod_pow2_succ by lia. apply mod_p_small. lia. }
    rewrite He2, Hlc'.
    destruct (IH (i + 1) (x mod 2 ^ (i + 1)) Hx ltac:(lia) ltac:(lia) eq_refl)
      as [bits [Hrun [Hlen Hnth]]].
    rewrite Hrun. cbn [bind fst snd].
    exists (Z.b2z (Z.testbit x i) :: bits).
    replace (i + 1 + Z.of_nat k) with (i + Z.of_nat (S k)) by lia.
    repeat split.
    + simpl. rewrite Hlen. reflexivity.
    + intros [|j] Hj; simpl.
      * rewrite Z.add_0_r. reflexivity.
      * rewrite Hnth by lia. f_equal. f_equal. lia.
Qed.

Lemma Num2Bits_spec (n : nat) (x : Z) :
  0 <= x < 2 ^ Z.of_nat n -> Z.of_nat n <= 253 ->
  exists bits, Num2Bits n x = Some bits /\
    forall j, (j < n)%nat -> nth j bits 0 = Z.b2z (Z.testbit x (Z.of_nat j)).
Proof.
  intros Hx Hn.
  destruct (Num2Bits_loop_spec x n 0 0 ltac:(lia) ltac:(lia) ltac:(lia)
              ltac:(rewrite Z.pow_0_r, Z.mod_1_r; reflexivity))
    as [bits [Hrun [_ Hnth]]].
  exists bits. unfold Num2Bits. change (Num2Bits_loop x 0 n 0 1) with (Num2Bits_loop x 0 n 0 (2 ^ 0)). rewrite Hrun. cbn [bind fst snd].
  rewrite Z.add_0_l, (Z.mod_small x) by lia.
  unfold constrain. rewrite Z.eqb_refl. split; [reflexivity|].
  intros j Hj. rewrite Hnth by lia. reflexivity.
Qed.

(** circomlib's [GreaterEqThan(n)] decides [in[0] >= in[1]] on inputs of
    [n] bits. *)
Lemma GreaterEqThan_spec (n : nat) (a b : Z) :
  (n <= 252)%nat -> 0 <= a < 2 ^ Z.of_nat n -> 0 <= b < 2 ^ Z.of_nat n ->
  GreaterEqThan n a b = Some (if b <=? a then 1 else 0).
Proof.
  intros Hn Ha Hb.
  unfold GreaterEqThan, LessThan.
  replace (Nat.leb n 252) with true by (symmetry; apply Nat.leb_le; lia).
  cbn [assert bind].
  set (N := 2 ^ Z.of_nat n) in *.
  assert (HN1 : 2 ^ Z.of_nat (S n) = N + N)
    by (unfold N; rewrite Nat2Z.inj_succ, Z.pow_succ_r by lia; lia).
  assert (HNp : N + N < p) by (rewrite <- HN1; apply pow2_le_p; lia).
  assert (Hx : fsub (fadd b N) (fadd a 1) = b + N - a - 1).
  { unfold fsub, fadd.
    rewrite (mod_p_small (b + N)) by lia.
    rewrite (mod_p_small (a + 1)) by lia.
    replace (b + N - (a + 1)) with (b + N - a - 1) by lia.
    apply mod_p_small. lia. }
  rewrite Hx.
  destruct (Num2Bits_spec (S n) (b + N - a - 1) ltac:(lia) ltac:(lia))
    as [bits [Hrun Hnth]].
  rewrite Hrun. cbn [bind].
  rewrite Hnth by lia.
  rewrite Z.testbit_spec' by lia. fold N.
  destruct (Z.leb_spec b a) as [Hle|Hlt].
  - rewrite (Z.div_small (b + N - a - 1) N) by lia. reflexivity.
  - rewrite <- (Z.div_unique (b + N - a - 1) N 1 (b - a - 1)) by lia. reflexivity.
Qed.

Lemma quality_products_zero (flags : list Z) : quality_products 0 flags = 0.
Proof. induction flags as [|f fs IH]; simpl; [reflexivity|]. exact IH. Qed.

(** On 0/1 flags the product chain from [acc] is [acc] when every flag is 1
    and 0 otherwise. *)
Lemma quality_products_01 (flags : list Z) : forall acc,
  Forall (fun f => f = 0 \/ f = 1) flags -> 0 <= acc < p ->
  quality_products acc flags = if forallb (fun f => f =? 1) flags then acc else 0.
Proof.
  induction flags as [|f fs IH]; intros acc Hf Hacc; [reflexivity|].
  inversion Hf as [|? ? Hf0 Hfs]; subst.
  simpl. destruct Hf0 as [-> | ->].
  - change (fmul acc 0) with ((acc * 0) mod p). rewrite Z.mul_0_r.
    apply quality_products_zero.
  - unfold fmul. rewrite Z.mul_1_r, mod_p_small by exact Hacc.
    simpl. apply IH; assumption.
Qed.

Lemma fold_fadd (vs : list Z) : forall acc,
  0 <= acc -> Forall (fun v => 0 <= v) vs -> acc + zsum vs < p ->
  fold_left fadd vs acc = acc + zsum vs.
Proof.
  induction vs as [|v vs IH]; intros acc Hacc Hvs Hlt.
  - cbn in *. lia.
  - change (zsum (v :: vs)) with (v + zsum vs) in *. cbn [fold_left].
    inversion Hvs as [|? ? Hv Hvs']; subst.
    assert (0 <= zsum vs).
    { clear - Hvs'. induction Hvs' as [|x xs Hx _ IHx]; cbn; [lia|].
      change (fold_right Z.add 0 xs) with (zsum xs). lia. }
    assert (Hav : fadd acc v = acc + v) by (apply mod_p_small; lia).
    rewrite Hav, IH by (assumption || lia). lia.
Qed.

Lemma zsum_bounds (lo hi : Z) (xs : list Z) :
  Forall (fun s => lo <= s <= hi) xs ->
  lo * Z.of_nat (length xs) <= zsum xs <= hi * Z.of_nat (length xs).
Proof.
  induction 1 as [|x xs Hx _ IH]; [cbn; lia|].
  change (zsum (x :: xs)) with (x + zsum xs).
  change (length (x :: xs)) with (S (length xs)). rewrite Nat2Z.inj_succ. nia.
Qed.

(** The witness generator of [AverageCalculator(n)] on a vector whose sum
    does not wrap: it succeeds exactly when [n] divides the sum, with the
    quotient as its output. *)
Lemma AverageCalculator_spec (values : list Z) :
  values <> [] -> Forall (fun v => 0 <= v) values -> zsum values < p ->
  AverageCalculator values =
    if zsum values mod Z.of_nat (length values) =? 0
    then Some (zsum values / Z.of_nat (length values)) else None.
Proof.
  intros Hne Hnn Hlt.
  assert (Hn : 0 < Z.of_nat (length values))
    by (destruct values; [congruence | simpl; lia]).
  assert (H0 : 0 <= zsum values).
  { clear - Hnn. induction Hnn as [|x xs Hx _ IHx]; cbn; [lia|].
    change (fold_right Z.add 0 xs) with (zsum xs). lia. }
  unfold AverageCalculator.
  rewrite fold_fadd by (auto; lia). rewrite Z.add_0_l.
  set (n := Z.of_nat (length values)) in *. set (S := zsum values) in *.
  unfold fidiv. replace (n =? 0) with false by (symmetry; apply Z.eqb_neq; lia).
  cbn [bind]. unfold constrain, fmul.
  pose proof (Z.mul_div_le S n Hn) as Hle.
  assert (0 <= S / n) by (apply Z.div_pos; lia).
  rewrite (mod_p_small (S / n * n)) by nia.
  rewrite (mod_p_small (S / n * n)) by nia.
  rewrite (mod_p_small S) by lia.
  pose proof (Z.div_mod S n ltac:(lia)) as Hdm.
  destruct (Z.eqb_spec (S mod n) 0) as [Hz|Hz].
  - replace (S / n * n =? S) with true by (symmetry; apply Z.eqb_eq; lia). reflexivity.
  - replace (S / n * n =? S) with false by (symmetry; apply Z.eqb_neq; lia). reflexivity.
Qed.

Lemma sample_checks_spec (thr : Z) (scores : list Z) :
  0 <= thr <= 1023 -> Forall (fun s => 0 <= s <= 1023) scores ->
  forM (fun s => GreaterEqThan 10 s thr) scores =
    Some (map (fun s => if thr <=? s then 1 else 0) scores).
Proof.
  intros Ht. induction 1 as [|s ss Hs _ IH]; [reflexivity|].
  simpl. rewrite GreaterEqThan_spec by (simpl; lia). cbn [bind].
  rewrite IH. reflexivity.
Qed.

Lemma forallb_flags (thr : Z) (scores : list Z) :
  forallb (fun f => f =? 1) (map (fun s => if thr <=? s then 1 else 0) scores)
  = forallb (fun s => thr <=? s) scores.
Proof. induction scores as [|s ss IH]; simpl; [reflexivity|]. rewrite IH. destruct (thr <=? s); reflexivity. Qed.

Lemma flags_01 (thr : Z) (scores : list Z) :
  Forall (fun f => f = 0 \/ f = 1) (map (fun s => if thr <=? s then 1 else 0) scores).
Proof. induction scores as [|s ss IH]; simpl; constructor; auto. destruct (thr <=? s); auto. Qed.

Lemma fold_fadd_range (vs : list Z) : forall acc,
  0 <= acc < p -> 0 <= fold_left fadd vs acc < p.
Proof.
  induction vs as [|v vs IH]; intros acc Hacc; cbn [fold_left]; [exact Hacc|].
  apply IH. apply Z.mod_pos_bound, p_pos.
Qed.

Lemma partial_sums_last (vs : list Z) : forall prev ss,
  partial_sums_ok prev vs ss = true -> last (prev :: ss) 0 = fold_left fadd vs prev.
Proof.
  induction vs as [|v vs IH]; intros prev [|s ss] H; cbn in H; try discriminate.
  - reflexivity.
  - apply andb_prop in H as [Hs Hrest]. apply Z.eqb_eq in Hs. subst s.
    cbn [fold_left]. rewrite <- (IH _ _ Hrest). reflexivity.
Qed.

Lemma forallb_range' (xs : list Z) :
  forallb (fun s => 0 <=? s) xs = true -> Forall (fun s => 0 <= s) xs.
Proof.
  intros H. apply Forall_forall. intros x Hx.
  rewrite forallb_forall in H. apply Z.leb_le. exact (H x Hx).
Qed.

Lemma forallb_range (lo hi : Z) (xs : list Z) :
  forallb (fun s => (lo <=? s) && (s <=? hi)) xs = true -> Forall (fun s => lo <= s <= hi) xs.
Proof.
  intros H. apply Forall_forall. intros x Hx.
  rewrite forallb_forall in H. specialize (H x Hx).
  apply andb_prop in H as [H1 H2]. apply Z.leb_le in H1. apply Z.leb_le in H2. lia.
Qed.

End CircomFacts.

(** ** Facts about the contracts *)

Module QPFacts.
Import Sol QP.

Lemma bind_Some {A B} (m : option A) (k : A -> option B) (b : B) :
  bind m k = Some b -> exists a, m = Some a /\ k a = Some b.
Proof. destruct m as [a|]; cbn; [eauto | discriminate]. Qed.

Lemma require_Some (b : bool) (u : unit) : require b = Some u -> b = true.
Proof. destruct b; cbn; congruence. Qed.

Lemma checked_mul_Some a b c : checked_mul a b = Some c -> c = a * b.
Proof. unfold checked_mul. destruct (_ <=? _); congruence. Qed.

Lemma checked_sub_Some a b c : checked_sub a b = Some c -> c = a - b /\ b <= a.
Proof.
  unfold checked_sub. destruct (b <=? a) eqn:E; [|discriminate].
  intro H; injection H as <-. apply Z.leb_le in E. lia.
Qed.

(** Peel the binds of a successful run off the hypothesis [H]. *)
Ltac inv_bind H :=
  repeat (cbv beta zeta in H;
          match type of H with
          | bind ?m _ = Some _ =>
              let a := fresh "a" in
              let Hm := fresh "Hm" in
              apply bind_Some in H; destruct H as [a [Hm H]]
          end);
  repeat match goal with
         | Hr : require _ = Some _ |- _ => apply require_Some in Hr
         end.

Lemma erc20_transfer_Some t from to v t' :
  erc20_transfer t from to v = Some t' -> from <> to ->
  from <> 0 /\ to <> 0 /\ v <= balances t from /\
  balances t' to = balances t to + v /\
  balances t' from = balances t from - v /\
  (forall a, a <> from -> a <> to -> balances t' a = balances t a).
Proof.
  intros H Hne. unfold erc20_transfer in H. inv_bind H.
  injection H as <-. cbn. unfold upd.
  apply negb_true_iff, Z.eqb_neq in Hm, Hm0. apply Z.leb_le in Hm1.
  rewrite (Z.eqb_refl to). replace (to =? from) with false by (symmetry; apply Z.eqb_neq; lia).
  rewrite (Z.eqb_refl from). replace (from =? to) with false by (symmetry; apply Z.eqb_neq; lia).
  repeat split; try lia.
  intros x Ha1 Ha2.
  replace (x =? to) with false by (symmetry; apply Z.eqb_neq; lia).
  replace (x =? from) with false by (symmetry; apply Z.eqb_neq; lia).
  reflexivity.
Qed.

(** What a committed [submitQueryProcessingProof] did. *)
Lemma submitQueryProcessingProof_Some vp m s qid pr pis s' :
  submitQueryProcessingProof vp m s qid pr pis = Some s' ->
  let q := s.(queries) qid in
  q.(processed) = false /\ q.(requester) <> 0 /\
  vp (Core.verifyingKeys s.(verificationContract) Core.PRIVACY_QUERY_PROCESSING) pr pis = true /\
  platform_fee s qid <= q.(paymentAmount) /\
  exists rc tok,
    nth_error pis 1 = Some rc /\
    erc20_transfer s.(paymentToken) s.(this) (agent_creator s qid)
      (q.(paymentAmount) - platform_fee s qid) = Some tok /\
    s' = with_token (with_queries s (upd s.(queries) qid
           {| agentId := q.(agentId); requester := q.(requester);
              queryType := q.(queryType); paymentAmount := q.(paymentAmount);
              timestamp := q.(timestamp); processed := true;
              responseCommitment := rc |})) tok.
Proof.
  intro H. unfold submitQueryProcessingProof in H. inv_bind H.
  apply checked_mul_Some in Hm3. apply checked_sub_Some in Hm4 as [Hm4 Hle].
  subst. injection H as <-. cbn zeta.
  apply negb_true_iff in Hm, Hm0. apply Z.eqb_neq in Hm0.
  repeat split; try assumption.
  exists a2, a5. unfold platform_fee, agent_creator. repeat split; assumption.
Qed.

Lemma upd_same {V} (f : Z -> V) k v : upd f k v k = v.
Proof. unfold upd. now rewrite Z.eqb_refl. Qed.

Lemma upd_other {V} (f : Z -> V) k v k' : k' <> k -> upd f k v k' = f k'.
Proof. intro H. unfold upd. now replace (k' =? k) with false by (symmetry; apply Z.eqb_neq; lia). Qed.

Lemma pending_le_1 s qid : (pending s qid <= 1)%nat.
Proof. unfold pending. destruct (_ && _); lia. Qed.

Lemma setAgentCapabilities_queries m s a ts bp mu s' :
  setAgentCapabilities m s a ts bp mu = Some s' -> s'.(queries) = s.(queries).
Proof. intro H. unfold setAgentCapabilities in H. inv_bind H. now injection H as <-. Qed.

Lemma setPlatformFee_queries m s fee s' :
  setPlatformFee m s fee = Some s' -> s'.(queries) = s.(queries).
Proof. intro H. unfold setPlatformFee in H. inv_bind H. now injection H as <-. Qed.

Lemma withdrawPlatformFees_queries m s s' :
  withdrawPlatformFees m s = Some s' -> s'.(queries) = s.(queries).
Proof. intro H. unfold withdrawPlatformFees in H. inv_bind H. now injection H as <-. Qed.

Lemma submitQuery_queries qi m s a qt pay qh s' :
  submitQuery qi m s a qt pay qh = Some s' ->
  forall q, q <> qi a m.(msg_sender) qt qh m.(block_timestamp) ->
  s'.(queries) q = s.(queries) q.
Proof.
  intros H q Hq. unfold submitQuery in H. inv_bind H. injection H as <-.
  cbn. now apply upd_other.
Qed.

Lemma submitQueryProcessingProof_pending vp m s qid pr pis s' :
  submitQueryProcessingProof vp m s qid pr pis = Some s' ->
  pending s qid = 1%nat /\ pending s' qid = 0%nat /\
  (forall q, q <> qid -> s'.(queries) q = s.(queries) q).
Proof.
  intro H. apply submitQueryProcessingProof_Some in H.
  cbn zeta in H. destruct H as (Hp & Hr & _ & _ & rc & tok & _ & _ & ->).
  unfold pending. cbn. rewrite upd_same. cbn.
  rewrite Hp. apply Z.eqb_neq in Hr. rewrite Hr. cbn.
  repeat split. intros q Hq. now apply upd_other.
Qed.

(** One transaction: a release of [qid] consumes its pending escrow, and only
    a [submitQuery] creating [qid] can make it pending again. *)
Lemma step_pending vp qi m s c qid ok s' :
  exec (call vp qi m s c) s = (ok, s') ->
  ((if ok && settles qid c then 1 else 0) + pending s' qid <=
   pending s qid + match created_id qi m c with
                   | Some q => if ok && Z.eqb q qid then 1 else 0
                   | None => 0
                   end)%nat.
Proof.
  intro E. destruct (call vp qi m s c) as [s1|] eqn:Hc; cbn in E; injection E as <- <-.
  2:{ destruct c; cbn; lia. }
  assert (Hsame : s1.(queries) qid = s.(queries) qid ->
                  (pending s1 qid <= pending s qid)%nat)
    by (intro Heq; unfold pending; rewrite Heq; lia).
  destruct c; cbn in Hc |- *.
  - rewrite (setAgentCapabilities_queries _ _ _ _ _ _ _ Hc) in Hsame. specialize (Hsame eq_refl); lia.
  - destruct (Z.eqb_spec (qi agentId' (msg_sender m) queryType' queryHash (block_timestamp m)) qid) as [Heq|Hne].
    + pose proof (pending_le_1 s1 qid). lia.
    + rewrite (submitQuery_queries _ _ _ _ _ _ _ _ Hc qid (not_eq_sym Hne)) in Hsame. specialize (Hsame eq_refl); lia.
  - destruct (Z.eqb_spec queryId qid) as [->|Hne].
    + apply submitQueryProcessingProof_pending in Hc as (H1 & H2 & _). lia.
    + apply submitQueryProcessingProof_pending in Hc as (_ & _ & H3).
      rewrite (H3 qid (not_eq_sym Hne)) in Hsame. specialize (Hsame eq_refl); lia.
  - rewrite (setPlatformFee_queries _ _ _ _ Hc) in Hsame. specialize (Hsame eq_refl); lia.
  - rewrite (withdrawPlatformFees_queries _ _ _ Hc) in Hsame. specialize (Hsame eq_refl); lia.
  - injection Hc as <-. specialize (Hsame eq_refl); lia.
Qed.

(** Over any sequence of transactions, releases of [qid] plus its final
    pending escrow are bounded by its initial escrow plus its creations. *)
Lemma releases_bound vp qi qid txs : forall s,
  (releases vp qi qid s txs + pending (run vp qi s txs) qid <=
   pending s qid + creations vp qi qid s txs)%nat.
Proof.
  induction txs as [|[m c] rest IH]; intro s; cbn; [lia|].
  destruct (exec (call vp qi m s c) s) as [ok s'] eqn:E. cbn.
  pose proof (step_pending vp qi m s c qid ok s' E) as Hstep.
  specialize (IH s'). lia.
Qed.

(** The clearing loop resets exactly the indices [i .. i + k - 1]. *)
Lemma clear_loop_spec i k f q :
  clear_loop i k f q = if (i <=? q) && (q <? i + Z.of_nat k) then false else f q.
Proof.
  revert i f. induction k as [|k IH]; intros i f; cbn [clear_loop].
  - replace ((i <=? q) && (q <? i + Z.of_nat 0)) with false; [reflexivity|].
    symmetry. apply andb_false_iff. destruct (Z.leb_spec i q); [right; apply Z.ltb_ge|left]; lia.
  - rewrite IH. unfold upd.
    destruct (Z.eqb_spec q i) as [->|Hne].
    + replace ((i + 1 <=? i) && _) with false by (symmetry; apply andb_false_iff; left; apply Z.leb_gt; lia).
      replace ((i <=? i) && (i <? i + Z.of_nat (S k))) with true; [reflexivity|].
      symmetry. apply andb_true_iff. split; [apply Z.leb_le | apply Z.ltb_lt]; lia.
    + replace ((i + 1 <=? q) && (q <? i + 1 + Z.of_nat k))
        with ((i <=? q) && (q <? i + Z.of_nat (S k))); [reflexivity|].
      destruct (Z.leb_spec (i + 1) q), (Z.leb_spec i q), (Z.ltb_spec q (i + 1 + Z.of_nat k)),
               (Z.ltb_spec q (i + Z.of_nat (S k))); cbn; lia.
Qed.

Lemma fold_upd_true ts f q :
  fold_left (fun f t => upd f t true) ts f q = existsb (Z.eqb q) ts || f q.
Proof.
  revert f. induction ts as [|t ts IH]; intro f; cbn; [reflexivity|].
  rewrite IH. unfold upd. destruct (q =? t), (existsb _ _); reflexivity.
Qed.

(** The token movements of a committed [submitQueryProcessingProof]. *)
Lemma submitQueryProcessingProof_balances vp m s qid pr pis s' :
  submitQueryProcessingProof vp m s qid pr pis = Some s' ->
  agent_creator s qid <> s.(this) ->
  let pay := (s.(queries) qid).(paymentAmount) - platform_fee s qid in
  s'.(paymentToken).(balances) (agent_creator s qid) =
    s.(paymentToken).(balances) (agent_creator s qid) + pay /\
  s'.(paymentToken).(balances) s.(this) = s.(paymentToken).(balances) s.(this) - pay /\
  (forall a, a <> agent_creator s qid -> a <> s.(this) ->
             s'.(paymentToken).(balances) a = s.(paymentToken).(balances) a) /\
  (s'.(queries) qid).(processed) = true.
Proof.
  intros H Hne. apply submitQueryProcessingProof_Some in H.
  cbn zeta in H |- *. destruct H as (_ & _ & _ & _ & rc & tok & _ & Ht & ->).
  apply erc20_transfer_Some in Ht as (_ & _ & _ & H1 & H2 & H3); [|congruence].
  cbn. rewrite upd_same. cbn. split; [exact H1|]. split; [exact H2|].
  split; [|reflexivity]. intros a Ha1 Ha2. apply H3; assumption.
Qed.

End QPFacts.

(** ** Lemmas on the other verifiers *)

Module VerifierFacts.
Import Circom CircomFacts QPFacts.

(** circomlib's [LessThan(n)] decides [in[0] < in[1]] when [in[0]] has [n]
    bits and [0 <= in[1] <= 2^n]. *)
Lemma LessThan_spec (n : nat) (a b : Z) :
  (n <= 252)%nat -> 0 <= a < 2 ^ Z.of_nat n -> 0 <= b <= 2 ^ Z.of_nat n ->
  LessThan n a b = Some (if a <? b then 1 else 0).
Proof.
  intros Hn Ha Hb.
  unfold LessThan.
  replace (Nat.leb n 252) with true by (symmetry; apply Nat.leb_le; lia).
  cbn [assert bind].
  set (N := 2 ^ Z.of_nat n) in *.
  assert (HN1 : 2 ^ Z.of_nat (S n) = N + N)
    by (unfold N; rewrite Nat2Z.inj_succ, Z.pow_succ_r by lia; lia).
  assert (HNp : N + N < p) by (rewrite <- HN1; apply pow2_le_p; lia).
  assert (Hx : fsub (fadd a N) b = a + N - b).
  { unfold fsub, fadd. rewrite (mod_p_small (a + N)) by lia. apply mod_p_small. lia. }
  rewrite Hx.
  destruct (Num2Bits_spec (S n) (a + N - b) ltac:(lia) ltac:(lia)) as [bits [Hrun Hnth]].
  rewrite Hrun. cbn [bind].
  rewrite Hnth by lia.
  rewrite Z.testbit_spec' by lia. fold N.
  destruct (Z.ltb_spec a b) as [Hlt|Hge].
  - rewrite (Z.div_small (a + N - b) N) by lia. reflexivity.
  - rewrite <- (Z.div_unique (a + N - b) N 1 (a - b)) by lia. reflexivity.
Qed.

Lemma LessEqThan_spec (n : nat) (a b : Z) :
  (n <= 252)%nat -> 0 <= a < 2 ^ Z.of_nat n -> 0 <= b < 2 ^ Z.of_nat n ->
  Ethics.LessEqThan n a b = Some (if a <=? b then 1 else 0).
Proof.
  intros Hn Ha Hb. unfold Ethics.LessEqThan.
  assert (Hp : 2 ^ Z.of_nat n < p) by (apply pow2_le_p; lia).
  assert (Hb1 : fadd b 1 = b + 1) by (apply mod_p_small; lia).
  rewrite Hb1, LessThan_spec by (assumption || lia).
  destruct (Z.ltb_spec a (b + 1)), (Z.leb_spec a b); try reflexivity; lia.
Qed.

Lemma forM_map {A B} (f : A -> option B) (g : A -> B) (xs : list A) :
  (forall x, In x xs -> f x = Some (g x)) -> forM f xs = Some (map g xs).
Proof.
  induction xs as [|x xs IH]; intro H; [reflexivity|].
  cbn. rewrite (H x (or_introl eq_refl)). cbn [bind].
  rewrite IH by (intros y Hy; apply H; right; exact Hy). reflexivity.
Qed.

Lemma forallb_map_flag {A} (P : A -> bool) (xs : list A) :
  forallb (fun f => f =? 1) (map (fun x => if P x then 1 else 0) xs) = forallb P xs.
Proof. induction xs as [|x xs IH]; cbn; [reflexivity|]. rewrite IH. destruct (P x); reflexivity. Qed.

(** The product chain of 0/1 checks is their conjunction. *)
Lemma ProductReducer_map_flag {A} (P : A -> bool) (xs : list A) :
  ProductReducer (map (fun x => if P x then 1 else 0) xs) = if forallb P xs then 1 else 0.
Proof.
  unfold ProductReducer. pose proof p_big as Hp.
  rewrite quality_products_01.
  - rewrite forallb_map_flag. reflexivity.
  - apply Forall_forall. intros f Hf. apply in_map_iff in Hf as [x [<- _]].
    destruct (P x); auto.
  - split; [lia|]. eapply Z.lt_trans; [|exact Hp]. reflexivity.
Qed.

Lemma fmul_flags (a b : bool) :
  fmul (if a then 1 else 0) (if b then 1 else 0) = if a && b then 1 else 0.
Proof. destruct a, b; reflexivity. Qed.

Lemma zsum_01 (flags : list Z) :
  forallb (fun f => (f =? 0) || (f =? 1)) flags = true ->
  zsum flags = Z.of_nat (count_occ Z.eq_dec flags 1) /\
  Forall (fun f => 0 <= f) flags.
Proof.
  induction flags as [|f fs IH]; intro H; [split; [reflexivity | constructor]|].
  cbn [forallb] in H. apply andb_prop in H as [Hf Hfs].
  destruct (IH Hfs) as [Hsum Hnn].
  change (zsum (f :: fs)) with (f + zsum fs). rewrite Hsum.
  apply orb_prop in Hf as [Hf|Hf]; apply Z.eqb_eq in Hf; subst f.
  - rewrite count_occ_cons_neq by discriminate.
    split; [lia | constructor; [lia | exact Hnn]].
  - rewrite count_occ_cons_eq by reflexivity. rewrite Nat2Z.inj_succ.
    split; [lia | constructor; [lia | exact Hnn]].
Qed.

(** On 0/1 flags, [HarmfulContentCounter] counts the flags set to 1. *)
Lemma HarmfulContentCounter_count (flags : list Z) :
  forallb (fun f => (f =? 0) || (f =? 1)) flags = true ->
  Z.of_nat (length flags) < p ->
  Ethics.HarmfulContentCounter flags = Z.of_nat (count_occ Z.eq_dec flags 1).
Proof.
  intros H Hlen. destruct (zsum_01 flags H) as [Hsum Hnn].
  pose proof (count_occ_bound Z.eq_dec 1 flags) as Hc.
  unfold Ethics.HarmfulContentCounter. rewrite fold_fadd by (lia || assumption).
  lia.
Qed.

Lemma sample_checks_forallb (thr : Z) (scores : list Z) :
  0 <= thr <= 1023 ->
  forallb (fun s => (0 <=? s) && (s <=? 1023)) scores = true ->
  forM (fun s => GreaterEqThan 10 s thr) scores =
    Some (map (fun s => if thr <=? s then 1 else 0) scores).
Proof. intros Ht Hr. apply sample_checks_spec; [exact Ht | exact (forallb_range _ _ _ Hr)]. Qed.

(** The whole output of [EthicsComplianceVerifier] on in-range inputs. *)
Lemma EthicsComplianceVerifier_spec (poseidon : list Z -> Z) (i : Ethics.ECInput) :
  forallb (fun s => (0 <=? s) && (s <=? 1023)) i.(Ethics.bias_test_results) = true ->
  0 <= i.(Ethics.max_bias_threshold) <= 1023 ->
  forallb (fun s => (0 <=? s) && (s <=? 1023)) i.(Ethics.fairness_scores) = true ->
  0 <= i.(Ethics.min_fairness_score) <= 1023 ->
  forallb (fun f => (f =? 0) || (f =? 1)) i.(Ethics.harmful_content_flags) = true ->
  (length i.(Ethics.harmful_content_flags) <= 1023)%nat ->
  0 <= i.(Ethics.max_harmful_rate) <= 1023 ->
  let bias_ok := forallb (fun b => b <=? i.(Ethics.max_bias_threshold)) i.(Ethics.bias_test_results) in
  let fair_ok := forallb (fun f => i.(Ethics.min_fairness_score) <=? f) i.(Ethics.fairness_scores) in
  let safe_ok := Z.of_nat (count_occ Z.eq_dec i.(Ethics.harmful_content_flags) 1)
                 <=? i.(Ethics.max_harmful_rate) in
  Ethics.EthicsComplianceVerifier poseidon i =
    Some {| Ethics.ethics_verified := if bias_ok && fair_ok && safe_ok then 1 else 0;
            Ethics.bias_compliance := if bias_ok then 1 else 0;
            Ethics.fairness_compliance := if fair_ok then 1 else 0;
            Ethics.safety_compliance := if safe_ok then 1 else 0;
            Ethics.ethics_proof_hash :=
              poseidon [i.(Ethics.agent_id); if bias_ok then 1 else 0; if safe_ok then 1 else 0;
                        i.(Ethics.ethics_commitment_hash); i.(Ethics.ethics_training_data_hash)] |}.
Proof.
  intros Hb Hmb Hf Hmf Hh Hlen Hmr. cbv zeta.
  apply forallb_range in Hb. apply forallb_range in Hf.
  unfold Ethics.EthicsComplianceVerifier.
  rewrite (forM_map _ (fun b => if b <=? Ethics.max_bias_threshold i then 1 else 0)).
  2:{ intros x Hx. rewrite Forall_forall in Hb. specialize (Hb x Hx).
      apply LessEqThan_spec; cbn; lia. }
  cbn [bind].
  rewrite (forM_map _ (fun f => if Ethics.min_fairness_score i <=? f then 1 else 0)).
  2:{ intros x Hx. rewrite Forall_forall in Hf. specialize (Hf x Hx).
      apply GreaterEqThan_spec; cbn; lia. }
  cbn [bind].
  assert (Hp : 1023 < p) by (pose proof p_big; lia).
  pose proof (count_occ_bound Z.eq_dec 1 (Ethics.harmful_content_flags i)) as Hc.
  rewrite HarmfulContentCounter_count by (assumption || lia).
  rewrite LessEqThan_spec by (cbn; lia). cbn [bind].
  rewrite !ProductReducer_map_flag, !fmul_flags. reflexivity.
Qed.




Lemma range_sum (xs : list Z) :
  forallb (fun s => (0 <=? s) && (s <=? 1023)) xs = true ->
  Z.of_nat (length xs) * 1023 < p ->
  Forall (fun v => 0 <= v) xs /\ 0 <= zsum xs < p.
Proof.
  intros Hr Hn. apply forallb_range in Hr.
  pose proof (zsum_bounds 0 1023 xs Hr).
  split; [|lia]. eapply Forall_impl; [|exact Hr]. cbv beta. lia.
Qed.

(** The output of [TrainingQualityVerifier] on in-range scores. *)
Lemma TrainingQualityVerifier_spec (poseidon : list Z -> Z) (i : TQInput) :
  i.(quality_scores) <> [] ->
  forallb (fun s => (0 <=? s) && (s <=? 1023)) i.(quality_scores) = true ->
  0 <= i.(min_quality_threshold) <= 1023 ->
  Z.of_nat (length i.(quality_scores)) * 1023 < p ->
  TrainingQualityVerifier poseidon i =
    let scores := i.(quality_scores) in
    let thr := i.(min_quality_threshold) in
    let n := Z.of_nat (length scores) in
    if zsum scores mod n =? 0 then
      Some {| quality_verified :=
                if forallb (fun s => thr <=? s) scores && (thr <=? zsum scores / n)
                then 1 else 0;
              average_quality := zsum scores / n;
              training_proof_hash :=
                poseidon [i.(agent_id); i.(training_seed); zsum scores / n; i.(creator_address)];
              model_integrity_proof :=
                poseidon [i.(model_weights_hash); i.(training_seed); i.(agent_id)] |}
    else None.
Proof.
  intros Hne Hrange Hthr Hn. cbv zeta.
  destruct (range_sum _ Hrange Hn) as [Hnn Hlt].
  apply forallb_range in Hrange.
  set (scores := quality_scores i) in *. set (thr := min_quality_threshold i) in *.
  assert (Hb := zsum_bounds 0 1023 scores Hrange).
  assert (Hlen : 0 < Z.of_nat (length scores))
    by (destruct scores; [congruence | cbn [length]; lia]).
  unfold TrainingQualityVerifier. fold scores thr.
  rewrite sample_checks_spec by assumption. cbn [bind].
  rewrite AverageCalculator_spec by (assumption || lia).
  destruct (zsum scores mod Z.of_nat (length scores) =? 0); [|reflexivity].
  cbn [bind].
  assert (0 <= zsum scores / Z.of_nat (length scores) <= 1023).
  { split; [apply Z.div_pos; lia|]. apply Z.div_le_upper_bound; lia. }
  rewrite GreaterEqThan_spec by (cbn; lia). cbn [bind].
  change (quality_products 1) with ProductReducer.
  rewrite ProductReducer_map_flag, fmul_flags, andb_comm. reflexivity.
Qed.

(** The output of [ComplianceVerifier] on in-range scores: it exists
    exactly when both averages divide and [DataTypeEncoder] succeeds. *)
Lemma ComplianceVerifier_spec (poseidon : list Z -> Z) (i : Compliance.CVInput) :
  i.(Compliance.privacy_protection_scores) <> [] ->
  i.(Compliance.data_handling_scores) <> [] ->
  forallb (fun s => (0 <=? s) && (s <=? 1023)) i.(Compliance.privacy_protection_scores) = true ->
  forallb (fun s => (0 <=? s) && (s <=? 1023)) i.(Compliance.data_handling_scores) = true ->
  forallb (fun s => (0 <=? s) && (s <=? 1023)) i.(Compliance.encryption_standards) = true ->
  0 <= i.(Compliance.min_privacy_score) <= 1023 ->
  0 <= i.(Compliance.min_data_handling_score) <= 1023 ->
  Z.of_nat (length i.(Compliance.privacy_protection_scores)) * 1023 < p ->
  Z.of_nat (length i.(Compliance.data_handling_scores)) * 1023 < p ->
  Compliance.ComplianceVerifier poseidon i =
    let ps := i.(Compliance.privacy_protection_scores) in
    let ds := i.(Compliance.data_handling_scores) in
    let np := Z.of_nat (length ps) in
    let nd := Z.of_nat (length ds) in
    let cv := if forallb (fun s => i.(Compliance.min_privacy_score) <=? s) ps
                 && forallb (fun s => i.(Compliance.min_data_handling_score) <=? s) ds
                 && forallb (fun s => 800 <=? s) i.(Compliance.encryption_standards)
              then 1 else 0 in
    if (zsum ps mod np =? 0) && (zsum ds mod nd =? 0) then
      m <- Compliance.DataTypeEncoder i.(Compliance.data_category_permissions) ;;
      Some {| Compliance.compliance_verified := cv;
              Compliance.privacy_level := zsum ps / np;
              Compliance.data_handling_level := zsum ds / nd;
              Compliance.compliance_proof_hash :=
                poseidon [i.(Compliance.agent_id); cv; zsum ps / np; zsum ds / nd; m;
                          i.(Compliance.compliance_commitment_hash)];
              Compliance.supported_data_types := m |}
    else None.
Proof.
  intros Hpne Hdne Hpr Hdr Her Hmp Hmd Hnp Hnd. cbv zeta.
  destruct (range_sum _ Hpr Hnp) as [Hpnn Hplt].
  destruct (range_sum _ Hdr Hnd) as [Hdnn Hdlt].
  unfold Compliance.ComplianceVerifier.
  rewrite sample_checks_forallb by assumption. cbn [bind].
  rewrite AverageCalculator_spec by (assumption || lia).
  destruct (_ mod _ =? 0); [|reflexivity]. cbn [bind andb].
  rewrite sample_checks_forallb by assumption. cbn [bind].
  rewrite AverageCalculator_spec by (assumption || lia).
  destruct (_ mod _ =? 0); [|reflexivity]. cbn [bind].
  rewrite sample_checks_forallb by (assumption || lia). cbn [bind].
  rewrite !ProductReducer_map_flag, !fmul_flags. reflexivity.
Qed.

(** The permissions the orchestrator passes, all eight set. *)
Lemma DataTypeEncoder_all_types : Compliance.DataTypeEncoder (repeat 1 8) = Some 255.
Proof. vm_compute. reflexivity. Qed.

Import Orchestrator.

(** The orchestrator on in-range inputs: it has an output exactly when the
    three averages divide, and then [agent_fully_verified] is 1 exactly when
    every check of the three verifiers passes. *)
Lemma ZKAgentVerificationOrchestrator_spec (poseidon : list Z -> Z) (i : OInput) :
  let rng := fun s => (0 <=? s) && (s <=? 1023) in
  i.(quality_scores) <> [] -> forallb rng i.(quality_scores) = true ->
  0 <= i.(min_quality_threshold) <= 1023 ->
  Z.of_nat (length i.(quality_scores)) * 1023 < p ->
  forallb rng i.(bias_test_results) = true -> 0 <= i.(max_bias_threshold) <= 1023 ->
  forallb rng i.(fairness_scores) = true ->
  forallb (fun f => (f =? 0) || (f =? 1)) i.(harmful_content_flags) = true ->
  (length i.(harmful_content_flags) <= 1023)%nat ->
  i.(privacy_protection_scores) <> [] -> i.(data_handling_scores) <> [] ->
  forallb rng i.(privacy_protection_scores) = true ->
  forallb rng i.(data_handling_scores) = true ->
  forallb rng i.(encryption_standards) = true ->
  0 <= i.(min_privacy_score) <= 1023 ->
  Z.of_nat (length i.(privacy_protection_scores)) * 1023 < p ->
  Z.of_nat (length i.(data_handling_scores)) * 1023 < p ->
  let qs := i.(quality_scores) in let ps := i.(privacy_protection_scores) in
  let ds := i.(data_handling_scores) in
  let nq := Z.of_nat (length qs) in let np := Z.of_nat (length ps) in
  let nd := Z.of_nat (length ds) in
  let thr := i.(min_quality_threshold) in
  let quality_ok := forallb (fun s => thr <=? s) qs && (thr <=? zsum qs / nq) in
  let ethics_ok := forallb (fun b => b <=? i.(max_bias_threshold)) i.(bias_test_results)
                   && forallb (fun f => 700 <=? f) i.(fairness_scores)
                   && (Z.of_nat (count_occ Z.eq_dec i.(harmful_content_flags) 1) <=? 50) in
  let compliance_ok := forallb (fun s => i.(min_privacy_score) <=? s) ps
                       && forallb (fun s => 800 <=? s) ds
                       && forallb (fun s => 800 <=? s) i.(encryption_standards) in
  let divisible := (zsum qs mod nq =? 0) && (zsum ps mod np =? 0) && (zsum ds mod nd =? 0) in
  match ZKAgentVerificationOrchestrator poseidon i with
  | Some o => divisible = true /\
              o.(agent_fully_verified) = if quality_ok && ethics_ok && compliance_ok then 1 else 0
  | None => divisible = false
  end.
Proof.
  intros rng Hqne Hqr Hthr Hqn Hbr Hmb Hfr Hh Hhl Hpne Hdne Hpr Hdr Her Hmp Hnp Hnd.
  cbv zeta. unfold ZKAgentVerificationOrchestrator.
  rewrite (TrainingQualityVerifier_spec poseidon (quality_input i) Hqne Hqr Hthr Hqn).
  rewrite (EthicsComplianceVerifier_spec poseidon (ethics_input i) Hbr Hmb Hfr
             ltac:(cbn; lia) Hh Hhl ltac:(cbn; lia)).
  rewrite (ComplianceVerifier_spec poseidon (compliance_input i) Hpne Hdne Hpr Hdr Her Hmp
             ltac:(cbn; lia) Hnp Hnd).
  cbv zeta. cbn [quality_input ethics_input compliance_input
                 Circom.quality_scores Circom.min_quality_threshold
                 Ethics.bias_test_results Ethics.fairness_scores Ethics.harmful_content_flags
                 Ethics.max_bias_threshold Ethics.min_fairness_score Ethics.max_harmful_rate
                 Compliance.privacy_protection_scores Compliance.data_handling_scores
                 Compliance.encryption_standards Compliance.min_privacy_score
                 Compliance.min_data_handling_score Compliance.data_category_permissions].
  destruct (zsum (quality_scores i) mod _ =? 0); [|reflexivity]. cbn [bind andb].
  destruct (zsum (privacy_protection_scores i) mod _ =? 0); [|reflexivity]. cbn [andb].
  destruct (zsum (data_handling_scores i) mod _ =? 0); [|reflexivity]. cbn [andb].
  cbn [bind Circom.quality_verified Ethics.ethics_verified].
  rewrite DataTypeEncoder_all_types. cbn [bind Compliance.compliance_verified agent_fully_verified].
  split; [reflexivity|]. rewrite !fmul_flags. reflexivity.
Qed.

End VerifierFacts.

(** ** Lemmas on the token and checked arithmetic *)

Module SolFacts.
Import Sol QPFacts.

Lemma checked_add_Some a b c : checked_add a b = Some c -> c = a + b.
Proof. unfold checked_add. destruct (_ <=? _); congruence. Qed.

Lemma erc20_transferFrom_Some t sp from to v t' :
  erc20_transferFrom t sp from to v = Some t' -> from <> to ->
  from <> 0 /\ to <> 0 /\ v <= balances t from /\
  balances t' to = balances t to + v /\
  balances t' from = balances t from - v /\
  (forall a, a <> from -> a <> to -> balances t' a = balances t a).
Proof.
  intros H Hne. unfold erc20_transferFrom in H. inv_bind H.
  assert (Hb : balances a = balances t).
  { destruct (allowances t from sp =? UINT256_MAX); [congruence|].
    inv_bind Hm. injection Hm as <-. reflexivity. }
  rewrite <- Hb. exact (erc20_transfer_Some _ _ _ _ _ H Hne).
Qed.

End SolFacts.

(** ** Lemmas on the verification core, the governance and the query processor *)

Module CoreFacts.
Import Sol Core CoreOps QPFacts SolFacts.

Lemma flags_grow_refl r : flags_grow r r.
Proof. unfold flags_grow. tauto. Qed.

Lemma flags_grow_trans r1 r2 r3 : flags_grow r1 r2 -> flags_grow r2 r3 -> flags_grow r1 r3.
Proof. unfold flags_grow. intuition. Qed.

Lemma set_verified_grow t r : flags_grow r (set_verified t r).
Proof. unfold flags_grow. destruct t; cbn; intuition. Qed.

Lemma core_call_flags vp ph mh acc m sys c sys' a :
  core_call vp ph mh acc m sys c = Some sys' ->
  flags_grow (verificationResults (core sys) a) (verificationResults (core sys') a).
Proof.
  intros H. destruct c; cbn in H.
  - inv_bind H. unfold registerAgent in Hm. inv_bind Hm.
    injection Hm as <-. injection H as <-. apply flags_grow_refl.
  - unfold submitVerificationProof in H. inv_bind H. injection H as <-. cbn.
    unfold upd. destruct (a =? agentId) eqn:E; [|apply flags_grow_refl].
    apply Z.eqb_eq in E. subst a.
    unfold flags_grow, _updateFullVerificationStatus, with_timestamp, set_verified.
    destruct (verificationResults (core sys) agentId) as [q e c k rs ts mp].
    destruct t; cbn;
      repeat match goal with |- context [if ?b then _ else _] => destruct b end;
      cbn; intuition.
  - unfold setVerifyingKey in H. inv_bind H. injection H as <-. apply flags_grow_refl.
  - unfold setFees in H. inv_bind H. injection H as <-. apply flags_grow_refl.
  - unfold withdrawFees in H. inv_bind H. injection H as <-. apply flags_grow_refl.
  - unfold transferOwnership in H. inv_bind H. injection H as <-. apply flags_grow_refl.
  - unfold renounceOwnership in H. inv_bind H. injection H as <-. apply flags_grow_refl.
Qed.

Lemma core_run_flags vp ph mh acc txs : forall sys a,
  flags_grow (verificationResults (core sys) a)
             (verificationResults (core (core_run vp ph mh acc sys txs)) a).
Proof.
  induction txs as [|[m c] txs IH]; intros sys a; cbn; [apply flags_grow_refl|].
  destruct (core_call vp ph mh acc m sys c) as [sys'|] eqn:E; cbn; [|apply IH].
  eapply flags_grow_trans; [eapply core_call_flags; exact E | apply IH].
Qed.

Lemma isAgentFullyVerified_grow r r' :
  flags_grow r r' ->
  (qualityVerified r && ethicsVerified r && complianceVerified r && capabilityVerified r)%bool = true ->
  (qualityVerified r' && ethicsVerified r' && complianceVerified r' && capabilityVerified r')%bool = true.
Proof.
  unfold flags_grow. intros (H1 & H2 & H3 & H4) H.
  repeat rewrite andb_true_iff in *. intuition.
Qed.

End CoreFacts.

Module CoreFacts2.
Import Sol Core CoreOps QPFacts CoreFacts SolFacts.

Lemma core_call_registry vp ph mh acc m sys c sys' :
  msg_sender m <> 0 -> registry_ok (core sys) ->
  core_call vp ph mh acc m sys c = Some sys' -> registry_ok (core sys').
Proof.
  unfold registry_ok. intros Hs [Ht [Hnd Hin]] H. destruct c; cbn in H.
  - inv_bind H. rename a into s1. unfold registerAgent in Hm. inv_bind Hm.
    apply checked_add_Some in Hm2. injection Hm as <-. injection H as <-.
    cbn -[upd].
    apply Z.eqb_eq in Hm1.
    assert (Hnot : ~ In agentId (registeredAgents (core sys))) by (rewrite Hin; lia).
    split; [|split].
    + rewrite length_app, Nat2Z.inj_add. cbn. lia.
    + apply NoDup_app; [exact Hnd | constructor; [intros []|constructor] |].
      intros x Hx [<-|[]]. contradiction.
    + intros b. rewrite in_app_iff. cbn. unfold upd.
      destruct (Z.eqb_spec b agentId) as [->|Hb]; cbn.
      * split; [intros _; exact Hs | intros _; right; left; reflexivity].
      * rewrite Hin. split; [intros [H|[H|[]]]; [exact H | congruence] | intros H; left; exact H].
  - unfold submitVerificationProof in H. inv_bind H. injection H as <-. cbn.
    split; [exact Ht|]. split; [exact Hnd|].
    intros b. rewrite Hin. unfold upd. destruct (b =? agentId) eqn:E; [|reflexivity].
    apply Z.eqb_eq in E. subst b. reflexivity.
  - unfold setVerifyingKey in H. inv_bind H. injection H as <-. cbn. auto.
  - unfold setFees in H. inv_bind H. injection H as <-. cbn. auto.
  - unfold withdrawFees in H. inv_bind H. injection H as <-. cbn. auto.
  - unfold transferOwnership in H. inv_bind H. injection H as <-. cbn. auto.
  - unfold renounceOwnership in H. inv_bind H. injection H as <-. cbn. auto.
Qed.

Lemma core_run_registry vp ph mh acc txs : forall sys,
  Forall (fun mc => msg_sender (fst mc) <> 0) txs -> registry_ok (core sys) ->
  registry_ok (core (core_run vp ph mh acc sys txs)).
Proof.
  induction txs as [|[m c] txs IH]; intros sys Hs Hok; cbn; [exact Hok|].
  inversion Hs as [|? ? Hm Hrest]; subst.
  destruct (core_call vp ph mh acc m sys c) as [sys'|] eqn:E; cbn; apply IH; auto.
  eapply core_call_registry; eauto.
Qed.

End CoreFacts2.

Module CoreFacts3.
Import Sol Core CoreOps QPFacts CoreFacts SolFacts.

(** A call not sent by the owner keeps the owner, the fees and the
    verifying keys. *)
Lemma core_call_non_owner vp ph mh acc m sys c sys' :
  core_call vp ph mh acc m sys c = Some sys' -> msg_sender m <> core_owner sys ->
  core_owner sys' = core_owner sys /\
  verificationFee (core sys') = verificationFee (core sys) /\
  registrationFee (core sys') = registrationFee (core sys) /\
  verifyingKeys (core sys') = verifyingKeys (core sys).
Proof.
  intros H Hne. destruct c; cbn in H.
  - inv_bind H. unfold registerAgent in Hm. inv_bind Hm.
    injection Hm as <-. injection H as <-. cbn. auto.
  - unfold submitVerificationProof in H. inv_bind H. injection H as <-. cbn. auto.
  - unfold setVerifyingKey, onlyOwner in H. inv_bind H. apply Z.eqb_eq in Hm. contradiction.
  - unfold setFees, onlyOwner in H. inv_bind H. apply Z.eqb_eq in Hm. contradiction.
  - unfold withdrawFees, onlyOwner in H. inv_bind H. apply Z.eqb_eq in Hm. contradiction.
  - unfold transferOwnership, onlyOwner in H. inv_bind H. apply Z.eqb_eq in Hm. contradiction.
  - unfold renounceOwnership, onlyOwner in H. inv_bind H. apply Z.eqb_eq in Hm. contradiction.
Qed.

End CoreFacts3.

Module GovFacts.
Import Sol Gov QPFacts SolFacts.

(** No call clears a [hasVoted] entry. *)
Lemma gov_call_hasVoted m s c s' pid a :
  gov_call m s c = Some s' -> hasVoted (proposals s pid) a = true ->
  hasVoted (proposals s' pid) a = true.
Proof.
  intros H Hv. destruct c; cbn in H.
  - unfold createProposal in H. inv_bind H. injection H as <-. cbn -[upd].
    unfold upd. destruct (pid =? nextProposalId s) eqn:E; [|exact Hv].
    apply Z.eqb_eq in E. subst pid. exact Hv.
  - unfold vote in H. inv_bind H. match goal with t : (Z * Z * Z)%type |- _ => destruct t as [[f ag] ab] end. injection H as <-. cbn -[upd].
    unfold upd at 1. destruct (pid =? proposalId) eqn:E; [|exact Hv].
    apply Z.eqb_eq in E. subst pid. cbn. unfold upd.
    destruct (a =? msg_sender m); [reflexivity | exact Hv].
  - unfold executeProposal in H. inv_bind H. injection H as <-. cbn -[upd].
    unfold upd. destruct (pid =? proposalId) eqn:E; [|exact Hv].
    apply Z.eqb_eq in E. subst pid. exact Hv.
  - unfold createDispute in H. inv_bind H. injection H as <-. exact Hv.
  - unfold resolveDispute in H. inv_bind H. injection H as <-. exact Hv.
  - unfold setVotingPeriod in H. inv_bind H. injection H as <-. exact Hv.
  - unfold setMinimumQuorum in H. inv_bind H. injection H as <-. exact Hv.
  - unfold setDisputeDeposit in H. inv_bind H. injection H as <-. exact Hv.
  - inv_bind H. injection H as <-. exact Hv.
Qed.

Lemma gov_run_hasVoted txs : forall s pid a,
  hasVoted (proposals s pid) a = true ->
  hasVoted (proposals (gov_run s txs) pid) a = true.
Proof.
  induction txs as [|[m c] txs IH]; intros s pid a Hv; cbn; [exact Hv|].
  apply IH. destruct (gov_call m s c) as [s'|] eqn:E; cbn; [|exact Hv].
  eapply gov_call_hasVoted; eauto.
Qed.

(** A committed vote: the checks it passed and the tallies it leaves. *)
Lemma vote_Some m s pid choice s' :
  vote m s pid choice = Some s' ->
  let p := proposals s pid in
  let p' := proposals s' pid in
  let power := balances (governanceToken s) (msg_sender m) in
  startTime p <= block_timestamp m <= endTime p /\
  hasVoted p (msg_sender m) = false /\ choice <= 2 /\ 0 < power /\
  hasVoted p' (msg_sender m) = true /\
  forVotes p' = forVotes p + (if choice =? 1 then power else 0) /\
  againstVotes p' = againstVotes p + (if choice =? 0 then power else 0) /\
  abstainVotes p' = abstainVotes p + (if (choice =? 0) || (choice =? 1) then 0 else power) /\
  governanceToken s' = governanceToken s /\
  (forall pid', pid' <> pid -> proposals s' pid' = proposals s pid').
Proof.
  intros H. unfold vote in H. inv_bind H. match goal with t : (Z * Z * Z)%type |- _ => destruct t as [[f ag] ab] end.
  injection H as <-. cbv zeta. cbn -[upd]. rewrite upd_same. cbn -[upd].
  apply Z.leb_le in Hm, Hm0, Hm2. apply negb_true_iff in Hm1. apply Z.ltb_lt in Hm3.
  rewrite upd_same.
  do 4 (split; [assumption || lia|]). split; [reflexivity|].
  split; [|split; [|split; [|split; [reflexivity|]]]].
  4:{ intros pid' Hne. apply upd_other. exact Hne. }
  all: destruct (Z.eqb_spec choice 0) as [->|H0];
       [|destruct (Z.eqb_spec choice 1) as [->|H1]]; cbn in Hm4 |- *;
       try (rewrite (proj2 (Z.eqb_neq _ _) H0), (proj2 (Z.eqb_neq _ _) H1); cbn);
       inv_bind Hm4;
       match goal with Hc : checked_add _ _ = Some _ |- _ => apply checked_add_Some in Hc end;
       injection Hm4 as <- <- <-; cbn; lia.
Qed.

End GovFacts.

Module QPFacts2.
Import Sol QP QPFacts GovFacts SolFacts.

Lemma erc20_transfer_le t from to v t' :
  erc20_transfer t from to v = Some t' -> v <= balances t from.
Proof. intro H. unfold erc20_transfer in H. inv_bind H. apply Z.leb_le. assumption. Qed.

Lemma call_fee vp qi m s c s' :
  call vp qi m s c = Some s' -> platformFeePercent s <= 1000 -> platformFeePercent s' <= 1000.
Proof.
  intros H Hf. destruct c; cbn in H.
  - unfold setAgentCapabilities in H. inv_bind H. injection H as <-. exact Hf.
  - unfold submitQuery in H. inv_bind H. injection H as <-. exact Hf.
  - unfold submitQueryProcessingProof in H. inv_bind H. injection H as <-. exact Hf.
  - unfold setPlatformFee in H. inv_bind H. injection H as <-. cbn. apply Z.leb_le. assumption.
  - unfold withdrawPlatformFees in H. inv_bind H. injection H as <-. exact Hf.
  - injection H as <-. exact Hf.
Qed.

Lemma run_fee vp qi txs : forall s,
  platformFeePercent s <= 1000 -> platformFeePercent (run vp qi s txs) <= 1000.
Proof.
  induction txs as [|[m c] txs IH]; intros s Hf; [exact Hf|].
  cbn. apply IH. destruct (call vp qi m s c) as [s'|] eqn:E; cbn; [|exact Hf].
  exact (call_fee _ _ _ _ _ _ E Hf).
Qed.

(** What a committed [submitQuery] did, for a requester other than the
    contract. *)
Lemma submitQuery_Some qi m s a qt pay qh s' :
  submitQuery qi m s a qt pay qh = Some s' -> msg_sender m <> this s ->
  let qid := qi a (msg_sender m) qt qh (block_timestamp m) in
  Core.isAgentFullyVerified (verificationContract s) a = true /\
  supportedQueryTypes (agentCapabilities s a) qt = true /\
  acceptingQueries (agentCapabilities s a) = true /\
  basePrice (agentCapabilities s a) + 500 * complexityMultiplier (agentCapabilities s a) / 1000
    <= pay /\
  msg_sender m <> 0 /\
  balances (paymentToken s') (msg_sender m) = balances (paymentToken s) (msg_sender m) - pay /\
  balances (paymentToken s') (this s) = balances (paymentToken s) (this s) + pay /\
  (forall x, x <> msg_sender m -> x <> this s ->
     balances (paymentToken s') x = balances (paymentToken s) x) /\
  queries s' = upd (queries s) qid
    {| agentId := a; requester := msg_sender m; queryType := qt; paymentAmount := pay;
       timestamp := block_timestamp m; processed := false; responseCommitment := 0 |} /\
  this s' = this s /\ platformFeePercent s' = platformFeePercent s /\
  verificationContract s' = verificationContract s.
Proof.
  intros H Hne. unfold submitQuery in H. inv_bind H. injection H as <-.
  match goal with Hc : calculateQueryPayment _ _ _ _ = Some _ |- _ =>
    unfold calculateQueryPayment in Hc; inv_bind Hc end.
  match goal with Hc : checked_mul _ _ = Some _ |- _ => apply checked_mul_Some in Hc end.
  match goal with Hc : checked_add _ _ = Some _ |- _ => apply checked_add_Some in Hc end.
  match goal with Hc : (_ <=? pay) = true |- _ => apply Z.leb_le in Hc end.
  match goal with Hc : erc20_transferFrom _ _ _ _ _ = Some _ |- _ =>
    destruct (erc20_transferFrom_Some _ _ _ _ _ _ Hc Hne) as (Hs & _ & _ & T1 & T2 & T3) end.
  subst. cbn.
  repeat split; try assumption; try lia.
Qed.

End QPFacts2.

(** * Claims about the circuits *)

Import Circom CircomFacts.

(** C1 (as amended). Training-Quality verifier, on scores and threshold in
    the 10-bit range of its comparators: witness generation succeeds exactly
    when the number of samples divides the sum of the scores (the
    [AverageCalculator] constraint [tempAverage * n === sum]); it then outputs
    [quality_verified = 1] iff every sample score is [>= min_quality_threshold]
    and the average [sum / n] is [>= min_quality_threshold], and 0 otherwise. *)
Theorem TrainingQualityVerifier_gating (poseidon : list Z -> Z) (i : TQInput) :
  i.(quality_scores) <> [] ->
  forallb (fun s => (0 <=? s) && (s <=? 1023)) i.(quality_scores) = true ->
  0 <= i.(min_quality_threshold) <= 1023 ->
  Z.of_nat (length i.(quality_scores)) * 1023 < p ->
  TrainingQualityVerifier poseidon i =
    let scores := i.(quality_scores) in
    let thr := i.(min_quality_threshold) in
    let n := Z.of_nat (length scores) in
    if zsum scores mod n =? 0 then
      Some {| quality_verified :=
                if forallb (fun s => thr <=? s) scores && (thr <=? zsum scores / n)
                then 1 else 0;
              average_quality := zsum scores / n;
              training_proof_hash :=
                poseidon [i.(agent_id); i.(training_seed); zsum scores / n; i.(creator_address)];
              model_integrity_proof :=
                poseidon [i.(model_weights_hash); i.(training_seed); i.(agent_id)] |}
    else None.
Proof.
  intros Hne Hrange Hthr Hn. cbv zeta.
  apply forallb_range in Hrange.
  set (scores := quality_scores i) in *. set (thr := min_quality_threshold i) in *.
  assert (Hb := zsum_bounds 0 1023 scores Hrange).
  assert (Hlen : 0 < Z.of_nat (length scores))
    by (destruct scores; [congruence | cbn [length]; lia]).
  unfold TrainingQualityVerifier. fold scores thr.
  rewrite sample_checks_spec by assumption. cbn [bind].
  rewrite AverageCalculator_spec.
  2: exact Hne.
  2: { eapply Forall_impl; [|exact Hrange]. cbv beta. lia. }
  2: lia.
  destruct (zsum scores mod Z.of_nat (length scores) =? 0); [|reflexivity].
  cbn [bind].
  assert (0 <= zsum scores / Z.of_nat (length scores) <= 1023).
  { split; [apply Z.div_pos; lia|]. apply Z.div_le_upper_bound; lia. }
  rewrite GreaterEqThan_spec by (cbn; lia). cbn [bind].
  rewrite quality_products_01 by (apply flags_01 || (cbn; lia)).
  rewrite forallb_flags.
  destruct (forallb (fun s => thr <=? s) scores), (thr <=? zsum scores / Z.of_nat (length scores));
    reflexivity.
Qed.

(** C1 witness: the spec's example, scores [900; 950; 700] with threshold 800. *)
Lemma TrainingQualityVerifier_gating_witness :
  TrainingQualityVerifier example_hash (tq_example [900; 950; 700] 800 5) =
    Some {| quality_verified := 0; average_quality := 850;
            training_proof_hash := example_hash [1; 7; 850; 42];
            model_integrity_proof := example_hash [11; 7; 1] |}.
Proof.
  rewrite (TrainingQualityVerifier_gating example_hash (tq_example [900; 950; 700] 800 5));
    [ reflexivity | discriminate | reflexivity | cbn; lia | vm_compute; reflexivity ].
Defined.

(** C1 counterexample: scores [900; 950; 951] all pass the threshold 800 and
    so does their average, yet no hash function lets the verifier produce
    any output: 2801 is not a multiple of 3. *)
Lemma TrainingQualityVerifier_no_output_on_indivisible_sum :
  forallb (fun s => 800 <=? s) [900; 950; 951] = true /\
  800 <= zsum [900; 950; 951] / 3 /\
  ~ (exists (poseidon : list Z -> Z) (out : TQOutput),
        TrainingQualityVerifier poseidon (tq_example [900; 950; 951] 800 5) = Some out).
Proof.
  split; [reflexivity|]. split; [vm_compute; discriminate|].
  intros [h [out Hrun]]. vm_compute in Hrun. discriminate.
Qed.

(** C2. [AverageCalculator]: every output of its witness generator satisfies
    [average * N == sum] in the field (and over the integers when the sum of
    the scores does not wrap), and so does every assignment of its signals
    that satisfies its constraints, whatever value the prover put in the
    unconstrained [tempAverage]. *)
Theorem AverageCalculator_division_invariant (values : list Z) :
  (forall average, AverageCalculator values = Some average ->
     fmul average (Z.of_nat (length values)) = fold_left fadd values 0 /\
     (forallb (fun v => 0 <=? v) values = true -> zsum values < p ->
      average * Z.of_nat (length values) = zsum values)) /\
  (forall partialSum sum tempAverage average,
     AverageCalculator_sat values partialSum sum tempAverage average = true ->
     sum = fold_left fadd values 0 /\
     fmul average (Z.of_nat (length values)) = sum).
Proof.
  assert (Hr := fold_fadd_range values 0 ltac:(pose proof p_pos; lia)).
  split.
  - intros average Hrun. unfold AverageCalculator, fidiv in Hrun.
    set (n := Z.of_nat (length values)) in *.
    set (S := fold_left fadd values 0) in *.
    destruct (Z.eqb_spec n 0) as [Hn0|Hn0]; [discriminate|].
    cbn [bind] in Hrun. unfold constrain in Hrun.
    destruct (Z.eqb_spec (fmul (S / n) n mod p) (S mod p)) as [Heq|]; [|discriminate].
    cbn [bind] in Hrun. injection Hrun as <-.
    assert (Hf : fmul (S / n) n = S).
    { unfold fmul in *. rewrite Z.mod_mod in Heq by (pose proof p_pos; lia).
      rewrite Heq. apply mod_p_small. exact Hr. }
    split; [exact Hf|].
    intros Hnn Hlt.
    apply forallb_range' in Hnn.
    assert (HS : S = zsum values)
      by (unfold S; rewrite fold_fadd; [lia | lia | exact Hnn | lia]).
    assert (Hn : 0 < n) by (unfold n; lia).
    rewrite HS in *.
    pose proof (Z.mul_div_le (zsum values) n Hn).
    assert (0 <= zsum values / n) by (apply Z.div_pos; lia).
    unfold fmul in Hf. rewrite mod_p_small in Hf by nia. lia.
  - intros partialSum sum tempAverage average H.
    unfold AverageCalculator_sat in H. destruct partialSum as [|ps0 rest]; [discriminate|].
    apply andb_prop in H as [H Havg]. apply andb_prop in H as [H Hmul].
    apply andb_prop in H as [H Hsum]. apply andb_prop in H as [Hps0 Hok].
    apply Z.eqb_eq in Hps0, Havg, Hmul, Hsum. subst ps0 average.
    rewrite (partial_sums_last _ _ _ Hok) in Hsum. subst sum.
    split; [reflexivity|]. rewrite Hmul. apply mod_p_small. exact Hr.
Qed.

(** C2 witness: the average of [900; 950; 700] is 850, and [850 * 3 = 2550]. *)
Lemma AverageCalculator_division_invariant_witness :
  fmul 850 3 = fold_left fadd [900; 950; 700] 0 /\ 850 * 3 = zsum [900; 950; 700].
Proof.
  destruct (proj1 (AverageCalculator_division_invariant [900; 950; 700]) 850
              ltac:(vm_compute; reflexivity)) as [H1 H2].
  split; [exact H1 | apply H2; vm_compute; reflexivity].
Defined.

(** C6 (code_bug). The Training-Quality verifier hashes
    [agent_id, training_seed, average_quality, creator_address] into
    [training_proof_hash]: neither the [quality_verified] flag nor the external
    [training_commitment_hash] is an input. Its whole output is the same for
    every value of [training_commitment_hash], whatever the hash function; and
    on the spec's scores [900; 950; 700] the thresholds 800 and 700 give
    different flags (0 and 1) under the same proof hash. *)
Theorem TrainingQualityVerifier_proof_hash_unbound :
  (forall (poseidon : list Z -> Z) (i : TQInput) (c : Z),
     TrainingQualityVerifier poseidon i =
     TrainingQualityVerifier poseidon
       {| training_samples := i.(training_samples);
          model_responses := i.(model_responses);
          quality_scores := i.(quality_scores);
          training_seed := i.(training_seed);
          model_weights_hash := i.(model_weights_hash);
          agent_id := i.(agent_id);
          min_quality_threshold := i.(min_quality_threshold);
          training_commitment_hash := c;
          creator_address := i.(creator_address) |}) /\
  (forall (poseidon : list Z -> Z),
     exists out800 out700,
       TrainingQualityVerifier poseidon (tq_example [900; 950; 700] 800 5) = Some out800 /\
       TrainingQualityVerifier poseidon (tq_example [900; 950; 700] 700 5) = Some out700 /\
       out800.(quality_verified) = 0 /\ out700.(quality_verified) = 1 /\
       out800.(training_proof_hash) = out700.(training_proof_hash) /\
       out800.(training_proof_hash) = poseidon [1; 7; 850; 42]).
Proof.
  split.
  - intros poseidon i c. reflexivity.
  - intros poseidon. do 2 eexists.
    split; [vm_compute; reflexivity|]. split; [vm_compute; reflexivity|].
    repeat split; reflexivity.
Qed.

(** C7 (code_bug). [IndexSelector(n)] assigns the signal [sum] [n + 1]
    times, so for every [n >= 1] circom rejects the instance and it has no
    output on any input: on [values = [5; 7]] and [index = 0] (in range),
    where the spec expects 5, and on an out-of-range index, where the spec
    expects 0, there is no result at all. Only the empty instance
    ([n = 0]) is accepted, and it outputs 0. *)
Theorem IndexSelector_rejected_when_nonempty :
  (forall (values : list Z) (index : Z), values <> [] ->
     IndexSelector_instantiates (length values) = false /\ IndexSelector values index = None) /\
  (forall index : Z, IndexSelector [] index = Some 0).
Proof.
  split.
  - intros values index Hne.
    assert (Hi : IndexSelector_instantiates (length values) = false).
    { destruct values as [|v vs]; [congruence|]. reflexivity. }
    split; [exact Hi|]. unfold IndexSelector. rewrite Hi. reflexivity.
  - intros index. reflexivity.
Qed.

(** C7 witness: [values = [5; 7]] with the in-range index 0 (the spec
    expects 5) and with the out-of-range index 3 (the spec expects 0). *)
Lemma IndexSelector_rejected_when_nonempty_witness :
  IndexSelector [5; 7] 0 = None /\ IndexSelector [5; 7] 3 = None.
Proof.
  split.
  - exact (proj2 (proj1 IndexSelector_rejected_when_nonempty [5; 7] 0 ltac:(discriminate))).
  - exact (proj2 (proj1 IndexSelector_rejected_when_nonempty [5; 7] 3 ltac:(discriminate))).
Defined.

(** C8. The product chain ([ProductReducer], accumulator 1) on 0/1 flags is
    1 iff every flag is 1, is 0 as soon as one flag is 0, and is 1 on the
    empty vector. *)
Theorem ProductReducer_is_and (flags : list Z) :
  forallb (fun f => (f =? 0) || (f =? 1)) flags = true ->
  (ProductReducer flags = 1 <-> forallb (fun f => f =? 1) flags = true) /\
  (In 0 flags -> ProductReducer flags = 0) /\
  ProductReducer [] = 1.
Proof.
  intros H01.
  assert (Hf : Forall (fun f => f = 0 \/ f = 1) flags).
  { apply Forall_forall. intros x Hx. rewrite forallb_forall in H01.
    specialize (H01 x Hx). apply orb_prop in H01 as [E|E]; apply Z.eqb_eq in E; auto. }
  unfold ProductReducer.
  rewrite quality_products_01 by (assumption || (pose proof p_big; pose proof (Z.pow_pos_nonneg 2 253); lia)).
  repeat split.
  - destruct (forallb (fun f => f =? 1) flags); [reflexivity | discriminate].
  - intros ->. reflexivity.
  - intros Hin. destruct (forallb (fun f => f =? 1) flags) eqn:E; [|reflexivity].
    rewrite forallb_forall in E. specialize (E 0 Hin). discriminate.
Qed.

(** C8 witness: [1; 1; 1] gives 1, [1; 0; 1] gives 0. *)
Lemma ProductReducer_is_and_witness :
  ProductReducer [1; 1; 1] = 1 /\ ProductReducer [1; 0; 1] = 0.
Proof.
  split.
  - apply (proj2 (proj1 (ProductReducer_is_and [1; 1; 1] eq_refl))). reflexivity.
  - apply (proj1 (proj2 (ProductReducer_is_and [1; 0; 1] eq_refl))). simpl; auto.
Defined.

(** * Claims about the contracts *)

Import Sol QP QPFacts.

(** C3. Once a query is processed, every later [submitQueryProcessingProof]
    for it reverts (so the transaction leaves the state, and the escrow, as
    they were); and over any sequence of transactions, the committed
    settlements of a query id, which each pay out its escrow, number at most
    its pending escrow at the start plus the [submitQuery] calls that
    (re)create it: an escrow is released at most once. *)
Theorem submitQueryProcessingProof_at_most_once vp qi (s : QPState) (qid : bytes32) :
  (s.(queries) qid).(processed) = true ->
  (forall m pr pis, submitQueryProcessingProof vp m s qid pr pis = None /\
                    exec (call vp qi m s (SubmitQueryProcessingProof qid pr pis)) s = (false, s)) /\
  (forall txs, (releases vp qi qid s txs <= pending s qid + creations vp qi qid s txs)%nat).
Proof.
  intro Hp. split.
  - intros m pr pis.
    assert (Hn : submitQueryProcessingProof vp m s qid pr pis = None).
    { unfold submitQueryProcessingProof. rewrite Hp. reflexivity. }
    split; [exact Hn|]. cbn. rewrite Hn. reflexivity.
  - intro txs. pose proof (releases_bound vp qi qid txs s). lia.
Qed.

(** C3 witness: query 77, settled once with an accepting verifier, cannot
    be settled again; with no re-creation it is released at most once. *)
Lemma submitQueryProcessingProof_at_most_once_witness :
  exists s1,
    submitQueryProcessingProof accept_all (ex_msg 5) (ex_qp 100) 77 ex_proof [0; 3] = Some s1 /\
    submitQueryProcessingProof accept_all (ex_msg 42) s1 77 ex_proof [0; 3] = None /\
    releases accept_all (fun _ _ _ _ _ => 0) 77 s1
       [(ex_msg 42, SubmitQueryProcessingProof 77 ex_proof [0; 3])] = O.
Proof.
  destruct (submitQueryProcessingProof accept_all (ex_msg 5) (ex_qp 100) 77 ex_proof [0; 3])
    as [s1|] eqn:E; [| vm_compute in E; discriminate].
  exists s1. split; [reflexivity|].
  assert (Hp : (s1.(queries) 77).(processed) = true)
    by (injection E as <-; reflexivity).
  destruct (submitQueryProcessingProof_at_most_once accept_all (fun _ _ _ _ _ => 0) s1 77 Hp)
    as [H1 H2].
  split; [apply (H1 (ex_msg 42))|].
  specialize (H2 [(ex_msg 42, SubmitQueryProcessingProof 77 ex_proof [0; 3])]).
  injection E as <-. vm_compute in H2 |- *. lia.
Defined.

(** C4. [registerAgent] reverts when [msg.value] is below the registration
    fee (so no record is created and the state is unchanged), and after a
    successful registration of [agentId], any second registration of the
    same id reverts (the existing record stays as it is). The sender of a
    transaction is never the zero address. *)
Theorem registerAgent_rejects_underpayment_and_duplicates (m : Msg) (s : Core.CoreState)
    (agentId : bytes32) (uri : String.string) :
  (m.(msg_value) < s.(Core.registrationFee) ->
   Core.registerAgent m s agentId uri = None /\
   exec (Core.registerAgent m s agentId uri) s = (false, s)) /\
  (m.(msg_sender) <> 0 ->
   forall s1 m2 uri2, Core.registerAgent m s agentId uri = Some s1 ->
   Core.registerAgent m2 s1 agentId uri2 = None /\
   exec (Core.registerAgent m2 s1 agentId uri2) s1 = (false, s1)).
Proof.
  split.
  - intro Hv.
    assert (Hn : Core.registerAgent m s agentId uri = None).
    { unfold Core.registerAgent. replace (Core.registrationFee s <=? msg_value m) with false
        by (symmetry; apply Z.leb_gt; lia). reflexivity. }
    rewrite Hn. split; reflexivity.
  - intros Hs s1 m2 uri2 H.
    assert (Hn : Core.registerAgent m2 s1 agentId uri2 = None).
    { unfold Core.registerAgent in H. inv_bind H. injection H as <-.
      unfold Core.registerAgent. cbn. rewrite upd_same. cbn.
      replace (msg_sender m =? 0) with false by (symmetry; apply Z.eqb_neq; exact Hs).
      destruct (Core.registrationFee s <=? msg_value m2); reflexivity. }
    rewrite Hn. split; reflexivity.
Qed.

(** C4 witness: agent 2 on the example core (registration fee 5): paying 3
    reverts; after address 42 registers it for 5, address 43 cannot. *)
Lemma registerAgent_rejects_underpayment_and_duplicates_witness :
  Core.registerAgent {| msg_sender := 42; msg_value := 3; block_timestamp := 0 |}
    ex_core 2 String.EmptyString = None /\
  exists s1,
    Core.registerAgent {| msg_sender := 42; msg_value := 5; block_timestamp := 0 |}
      ex_core 2 String.EmptyString = Some s1 /\
    Core.registerAgent {| msg_sender := 43; msg_value := 5; block_timestamp := 1 |}
      s1 2 String.EmptyString = None.
Proof.
  destruct (registerAgent_rejects_underpayment_and_duplicates
              {| msg_sender := 42; msg_value := 3; block_timestamp := 0 |}
              ex_core 2 String.EmptyString) as [H1 _].
  split; [apply H1; cbn; lia|].
  destruct (registerAgent_rejects_underpayment_and_duplicates
              {| msg_sender := 42; msg_value := 5; block_timestamp := 0 |}
              ex_core 2 String.EmptyString) as [_ H2].
  destruct (Core.registerAgent {| msg_sender := 42; msg_value := 5; block_timestamp := 0 |}
              ex_core 2 String.EmptyString) as [s1|] eqn:E; [| vm_compute in E; discriminate].
  exists s1. split; [reflexivity|].
  apply (proj1 (H2 ltac:(cbn; lia) s1 _ _ eq_refl)).
Defined.

(** C5 (as amended). On a committed [submitQueryProcessingProof] (the agent's
    creator being another address than the contract), the platform fee is
    [payment * platformFeePercent / 10000] rounded down (integer division);
    the creator's token balance grows by [payment - fee], the contract's
    shrinks by the same amount (the fee stays in the contract), no other
    balance moves, and the query is marked processed. *)
Theorem submitQueryProcessingProof_fee_split vp m s qid pr pis s' :
  submitQueryProcessingProof vp m s qid pr pis = Some s' ->
  agent_creator s qid <> s.(this) ->
  platform_fee s qid = (s.(queries) qid).(paymentAmount) * s.(platformFeePercent) / 10000 /\
  s'.(paymentToken).(balances) (agent_creator s qid) =
    s.(paymentToken).(balances) (agent_creator s qid) +
    ((s.(queries) qid).(paymentAmount) - platform_fee s qid) /\
  s'.(paymentToken).(balances) s.(this) =
    s.(paymentToken).(balances) s.(this) -
    ((s.(queries) qid).(paymentAmount) - platform_fee s qid) /\
  (forall a, a <> agent_creator s qid -> a <> s.(this) ->
             s'.(paymentToken).(balances) a = s.(paymentToken).(balances) a) /\
  (s'.(queries) qid).(processed) = true.
Proof.
  intros H Hne. split; [reflexivity|].
  exact (submitQueryProcessingProof_balances vp m s qid pr pis s' H Hne).
Qed.

(** C5 witness: a payment of 100 tokens of 18 decimals at 250 basis points
    pays 97.5 tokens to the creator (address 42) and keeps 2.5 tokens. *)
Lemma submitQueryProcessingProof_fee_split_witness :
  exists s',
    submitQueryProcessingProof accept_all (ex_msg 5) (ex_qp (100 * 10 ^ 18)) 77 ex_proof [0; 3]
      = Some s' /\
    s'.(paymentToken).(balances) 42 = 975 * 10 ^ 17 /\
    s'.(paymentToken).(balances) 1000 = 25 * 10 ^ 17.
Proof.
  destruct (submitQueryProcessingProof accept_all (ex_msg 5) (ex_qp (100 * 10 ^ 18)) 77
              ex_proof [0; 3]) as [s'|] eqn:E; [| vm_compute in E; discriminate].
  exists s'. split; [reflexivity|].
  destruct (submitQueryProcessingProof_fee_split accept_all (ex_msg 5) (ex_qp (100 * 10 ^ 18))
              77 ex_proof [0; 3] s' E ltac:(vm_compute; discriminate))
    as (_ & H1 & H2 & _).
  vm_compute in H1, H2. split; [exact H1 | exact H2].
Defined.

(** C5 counterexample: a processed query of payment 100 at 250 basis points
    commits, and pays the creator 98 and keeps a fee of 2, not 97.5 and 2.5:
    under every verifier, no committed settlement pays 97.5. *)
Lemma submitQueryProcessingProof_pays_98_of_100 :
  (exists s',
     submitQueryProcessingProof accept_all (ex_msg 5) (ex_qp 100) 77 ex_proof [0; 3] = Some s' /\
     s'.(paymentToken).(balances) 42 = 98 /\
     s'.(paymentToken).(balances) 1000 = 2) /\
  ~ (exists vp m pr pis s',
       submitQueryProcessingProof vp m (ex_qp 100) 77 pr pis = Some s' /\
       2 * (s'.(paymentToken).(balances) 42 - (ex_qp 100).(paymentToken).(balances) 42) = 195).
Proof.
  split.
  - eexists. split; [reflexivity|]. split; vm_compute; reflexivity.
  - intros (vp & m & pr & pis & s' & E & H).
    apply submitQueryProcessingProof_balances in E; [|vm_compute; discriminate].
    destruct E as (E & _). cbv zeta in E.
    change (agent_creator (ex_qp 100) 77) with 42 in E.
    rewrite E in H. vm_compute in H. discriminate.
Qed.

(** C9 (code_bug). [setAgentCapabilities] reverts unless the agent is
    fully verified; when it is, the call commits, and afterwards a query
    type [q] is supported iff it is in the supplied list or it lies outside
    the range [0 .. 99] that the loop under "Clear existing capabilities"
    clears and was supported before. The setter itself stores any listed
    type, [q >= 100] included, and such a type is never cleared: the set is
    not replaced wholesale. *)
Theorem setAgentCapabilities_replaces_first_100 (m : Msg) (s : QPState) (agentId' : bytes32)
    (types : list Z) (bp mu : Z) :
  (Core.isAgentFullyVerified s.(verificationContract) agentId' = false ->
   setAgentCapabilities m s agentId' types bp mu = None) /\
  (Core.isAgentFullyVerified s.(verificationContract) agentId' = true ->
   exists s', setAgentCapabilities m s agentId' types bp mu = Some s' /\
   forall q, (s'.(agentCapabilities) agentId').(supportedQueryTypes) q =
             existsb (Z.eqb q) types ||
             negb ((0 <=? q) && (q <? 100)) &&
             (s.(agentCapabilities) agentId').(supportedQueryTypes) q).
Proof.
  split; intro Hv; unfold setAgentCapabilities; rewrite Hv; [reflexivity|].
  eexists. split; [reflexivity|]. intro q. cbv beta zeta. cbn [agentCapabilities].
  rewrite upd_same. cbn [supportedQueryTypes].
  rewrite fold_upd_true, clear_loop_spec. change (0 + Z.of_nat 100) with 100.
  destruct (existsb _ _), ((0 <=? q) && (q <? 100)); reflexivity.
Qed.

(** C9 witness: agent 1 of the example (fully verified) is given the
    types [[200]], which the setter stores; a second call with [[1]]
    commits, yet type 200, not listed, stays supported. *)
Lemma setAgentCapabilities_replaces_first_100_witness :
  exists s1 s2,
    setAgentCapabilities (ex_msg 42) (ex_qp 0) 1 [200] 10 5 = Some s1 /\
    (s1.(agentCapabilities) 1).(supportedQueryTypes) 200 = true /\
    setAgentCapabilities (ex_msg 42) s1 1 [1] 10 5 = Some s2 /\
    (s2.(agentCapabilities) 1).(supportedQueryTypes) 1 = true /\
    (s2.(agentCapabilities) 1).(supportedQueryTypes) 200 = true.
Proof.
  destruct (proj2 (setAgentCapabilities_replaces_first_100 (ex_msg 42) (ex_qp 0) 1 [200] 10 5)
              ltac:(vm_compute; reflexivity)) as (s1 & E1 & Hq1).
  assert (Hv : Core.isAgentFullyVerified s1.(verificationContract) 1 = true).
  { unfold setAgentCapabilities in E1. vm_compute in E1. injection E1 as <-.
    vm_compute. reflexivity. }
  destruct (proj2 (setAgentCapabilities_replaces_first_100 (ex_msg 42) s1 1 [1] 10 5) Hv)
    as (s2 & E2 & Hq2).
  exists s1, s2. split; [exact E1|].
  assert (H200 : (s1.(agentCapabilities) 1).(supportedQueryTypes) 200 = true)
    by (rewrite Hq1; reflexivity).
  split; [exact H200|]. split; [exact E2|].
  split; rewrite Hq2; [reflexivity|]. rewrite H200. reflexivity.
Defined.

(** C9 counterexample: agent 1 supports type 150; after
    [setAgentCapabilities] with the list [1], which commits, type 150,
    not listed, is still supported. *)
Lemma setAgentCapabilities_keeps_type_150 :
  exists s',
    setAgentCapabilities (ex_msg 42) (ex_qp 0) 1 [1] 10 5 = Some s' /\
    ~ In 150 [1] /\
    (s'.(agentCapabilities) 1).(supportedQueryTypes) 150 = true.
Proof.
  eexists. split; [reflexivity|]. split.
  - cbn. intros [H|[]]. discriminate.
  - vm_compute. reflexivity.
Qed.

(** C10. [submitQueryProcessingProof] does not read its caller: every two
    callers get the same result from the same state, query id, proof and
    public inputs. On commit, the payment goes to the agent's creator (taken
    distinct from the contract), and the caller's token balance does not
    move unless the caller is that creator (or the contract): any party with
    a valid processing proof can settle any pending query, for the creator. *)
Theorem submitQueryProcessingProof_caller_independent vp (s : QPState) (qid : bytes32)
    (pr : Proof) (pis : list Z) :
  (forall m1 m2, submitQueryProcessingProof vp m1 s qid pr pis =
                 submitQueryProcessingProof vp m2 s qid pr pis) /\
  (forall m s', submitQueryProcessingProof vp m s qid pr pis = Some s' ->
   agent_creator s qid <> s.(this) ->
   s'.(paymentToken).(balances) (agent_creator s qid) =
     s.(paymentToken).(balances) (agent_creator s qid) +
     ((s.(queries) qid).(paymentAmount) - platform_fee s qid) /\
   (m.(msg_sender) <> agent_creator s qid -> m.(msg_sender) <> s.(this) ->
    s'.(paymentToken).(balances) m.(msg_sender) = s.(paymentToken).(balances) m.(msg_sender))).
Proof.
  split; [reflexivity|].
  intros m s' H Hne.
  destruct (submitQueryProcessingProof_balances vp m s qid pr pis s' H Hne) as (H1 & _ & H3 & _).
  split; [exact H1|]. intros Hc Ht. apply H3; assumption.
Qed.

(** C10 witness: query 77 settled by address 5 (not the creator 42) or by
    address 6 gives the same result; the creator gets 98, address 5 nothing. *)
Lemma submitQueryProcessingProof_caller_independent_witness :
  exists s',
    submitQueryProcessingProof accept_all (ex_msg 5) (ex_qp 100) 77 ex_proof [0; 3] = Some s' /\
    submitQueryProcessingProof accept_all (ex_msg 6) (ex_qp 100) 77 ex_proof [0; 3] = Some s' /\
    s'.(paymentToken).(balances) 42 = 98 /\
    s'.(paymentToken).(balances) 5 = 0.
Proof.
  destruct (submitQueryProcessingProof_caller_independent accept_all (ex_qp 100) 77 ex_proof [0; 3])
    as [Hsame Hpay].
  destruct (submitQueryProcessingProof accept_all (ex_msg 5) (ex_qp 100) 77 ex_proof [0; 3])
    as [s'|] eqn:E; [| vm_compute in E; discriminate].
  exists s'. split; [reflexivity|]. split; [rewrite <- E; apply Hsame|].
  destruct (Hpay (ex_msg 5) s' E ltac:(vm_compute; discriminate)) as [H1 H2].
  split.
  - change 42 with (agent_creator (ex_qp 100) 77). rewrite H1. vm_compute. reflexivity.
  - change 5 with (msg_sender (ex_msg 5)). rewrite H2 by (vm_compute; discriminate).
    vm_compute. reflexivity.
Defined.

(** * Further properties of the circuits *)

Import VerifierFacts.

(** [HarmfulContentCounter] (QueryProcessor.circom): on flags that are 0 or
    1, fewer than [p] of them, the total is the number of flags set. *)
Theorem HarmfulContentCounter_counts_set_flags (flags : list Z) :
  forallb (fun f => (f =? 0) || (f =? 1)) flags = true ->
  Z.of_nat (length flags) < p ->
  Ethics.HarmfulContentCounter flags = Z.of_nat (count_occ Z.eq_dec flags 1).
Proof. apply HarmfulContentCounter_count. Qed.

Lemma HarmfulContentCounter_counts_set_flags_witness :
  Ethics.HarmfulContentCounter [1; 0; 1; 1] = 3.
Proof.
  rewrite (HarmfulContentCounter_counts_set_flags [1; 0; 1; 1]) by (vm_compute; reflexivity).
  reflexivity.
Defined.

(** [EthicsComplianceVerifier]: on 10-bit scores and thresholds and at most
    1023 flags of value 0 or 1, witness generation always succeeds; bias
    compliance is 1 exactly when every bias result is at most the threshold,
    fairness compliance exactly when every fairness score reaches the
    minimum, safety compliance exactly when the number of set flags is at
    most the maximal rate, and [ethics_verified] is their conjunction. *)
Theorem EthicsComplianceVerifier_decides (poseidon : list Z -> Z) (i : Ethics.ECInput) :
  forallb (fun s => (0 <=? s) && (s <=? 1023)) i.(Ethics.bias_test_results) = true ->
  0 <= i.(Ethics.max_bias_threshold) <= 1023 ->
  forallb (fun s => (0 <=? s) && (s <=? 1023)) i.(Ethics.fairness_scores) = true ->
  0 <= i.(Ethics.min_fairness_score) <= 1023 ->
  forallb (fun f => (f =? 0) || (f =? 1)) i.(Ethics.harmful_content_flags) = true ->
  (length i.(Ethics.harmful_content_flags) <= 1023)%nat ->
  0 <= i.(Ethics.max_harmful_rate) <= 1023 ->
  let bias_ok := forallb (fun b => b <=? i.(Ethics.max_bias_threshold)) i.(Ethics.bias_test_results) in
  let fair_ok := forallb (fun f => i.(Ethics.min_fairness_score) <=? f) i.(Ethics.fairness_scores) in
  let safe_ok := Z.of_nat (count_occ Z.eq_dec i.(Ethics.harmful_content_flags) 1)
                 <=? i.(Ethics.max_harmful_rate) in
  Ethics.EthicsComplianceVerifier poseidon i =
    Some {| Ethics.ethics_verified := if bias_ok && fair_ok && safe_ok then 1 else 0;
            Ethics.bias_compliance := if bias_ok then 1 else 0;
            Ethics.fairness_compliance := if fair_ok then 1 else 0;
            Ethics.safety_compliance := if safe_ok then 1 else 0;
            Ethics.ethics_proof_hash :=
              poseidon [i.(Ethics.agent_id); if bias_ok then 1 else 0; if safe_ok then 1 else 0;
                        i.(Ethics.ethics_commitment_hash); i.(Ethics.ethics_training_data_hash)] |}.
Proof. apply EthicsComplianceVerifier_spec. Qed.

(** Two flags set, one over the maximal rate of 1: [ethics_verified] is 0
    while bias compliance is 1. *)
Lemma EthicsComplianceVerifier_decides_witness :
  exists o, Ethics.EthicsComplianceVerifier example_hash (Ethics.ex_ethics_input [1; 1; 0])
            = Some o /\ o.(Ethics.ethics_verified) = 0 /\ o.(Ethics.bias_compliance) = 1.
Proof.
  eexists. split.
  - apply EthicsComplianceVerifier_decides; first [(cbn; lia) | (vm_compute; reflexivity)].
  - split; reflexivity.
Defined.


(** [HarmfulContentCounter] sums the flags in the field and nothing
    constrains them to be bits: in any input, replacing two flags 0 and 0
    by [x] and [p - x] (the number of flags stays the same) leaves the
    output of [EthicsComplianceVerifier] as it is, whatever [x] is. *)
Theorem EthicsComplianceVerifier_flags_cancel (poseidon : list Z -> Z) (i : Ethics.ECInput)
    (flags : list Z) (x : Z) :
  Ethics.EthicsComplianceVerifier poseidon
    (Ethics.with_harmful_content_flags i (flags ++ [x; p - x]))
  = Ethics.EthicsComplianceVerifier poseidon
      (Ethics.with_harmful_content_flags i (flags ++ [0; 0])).
Proof.
  pose proof p_pos as Hp.
  pose proof (fold_fadd_range flags 0 ltac:(lia)) as Hr.
  assert (H : Ethics.HarmfulContentCounter (flags ++ [x; p - x])
              = Ethics.HarmfulContentCounter (flags ++ [0; 0])).
  { unfold Ethics.HarmfulContentCounter. rewrite !fold_left_app. cbn [fold_left].
    set (a := fold_left fadd flags 0) in *.
    assert (E1 : fadd (fadd a x) (p - x) = a).
    { unfold fadd. rewrite Z.add_mod_idemp_l by lia.
      replace (a + x + (p - x)) with (a + 1 * p) by ring.
      rewrite Z.mod_add by lia. apply mod_p_small. exact Hr. }
    assert (E2 : fadd (fadd a 0) 0 = a).
    { unfold fadd. rewrite !Z.add_0_r, Z.mod_mod by lia. apply mod_p_small. exact Hr. }
    rewrite E1, E2. reflexivity. }
  unfold Ethics.EthicsComplianceVerifier.
  cbn [Ethics.with_harmful_content_flags Ethics.bias_test_results Ethics.fairness_scores
       Ethics.harmful_content_flags Ethics.max_bias_threshold Ethics.min_fairness_score
       Ethics.max_harmful_rate Ethics.agent_id Ethics.ethics_commitment_hash
       Ethics.ethics_training_data_hash].
  rewrite H. reflexivity.
Qed.




(** [ComplianceVerifier]: on 10-bit scores and thresholds, with non-empty
    score vectors whose sums stay below [p], there is an output exactly
    when the privacy and the data-handling sums are divisible by their
    lengths and [DataTypeEncoder] has an output; then the levels are the
    averages and [compliance_verified] is 1 exactly when every privacy
    score, every data-handling score and every encryption standard reaches
    its minimum (800 for encryption). *)
Theorem ComplianceVerifier_decides (poseidon : list Z -> Z) (i : Compliance.CVInput) :
  i.(Compliance.privacy_protection_scores) <> [] ->
  i.(Compliance.data_handling_scores) <> [] ->
  forallb (fun s => (0 <=? s) && (s <=? 1023)) i.(Compliance.privacy_protection_scores) = true ->
  forallb (fun s => (0 <=? s) && (s <=? 1023)) i.(Compliance.data_handling_scores) = true ->
  forallb (fun s => (0 <=? s) && (s <=? 1023)) i.(Compliance.encryption_standards) = true ->
  0 <= i.(Compliance.min_privacy_score) <= 1023 ->
  0 <= i.(Compliance.min_data_handling_score) <= 1023 ->
  Z.of_nat (length i.(Compliance.privacy_protection_scores)) * 1023 < p ->
  Z.of_nat (length i.(Compliance.data_handling_scores)) * 1023 < p ->
  Compliance.ComplianceVerifier poseidon i =
    let ps := i.(Compliance.privacy_protection_scores) in
    let ds := i.(Compliance.data_handling_scores) in
    let np := Z.of_nat (length ps) in
    let nd := Z.of_nat (length ds) in
    let cv := if forallb (fun s => i.(Compliance.min_privacy_score) <=? s) ps
                 && forallb (fun s => i.(Compliance.min_data_handling_score) <=? s) ds
                 && forallb (fun s => 800 <=? s) i.(Compliance.encryption_standards)
              then 1 else 0 in
    if (zsum ps mod np =? 0) && (zsum ds mod nd =? 0) then
      m <- Compliance.DataTypeEncoder i.(Compliance.data_category_permissions) ;;
      Some {| Compliance.compliance_verified := cv;
              Compliance.privacy_level := zsum ps / np;
              Compliance.data_handling_level := zsum ds / nd;
              Compliance.compliance_proof_hash :=
                poseidon [i.(Compliance.agent_id); cv; zsum ps / np; zsum ds / nd; m;
                          i.(Compliance.compliance_commitment_hash)];
              Compliance.supported_data_types := m |}
    else None.
Proof. apply ComplianceVerifier_spec. Qed.

(** One encryption standard under 800: [compliance_verified] is 0, the
    privacy level is 850 and the bitmask of data types 0 and 2 is 5. *)
Lemma ComplianceVerifier_decides_witness :
  exists o, Compliance.ComplianceVerifier example_hash
              (Compliance.ex_compliance_input [850; 700])
            = Some o /\ o.(Compliance.compliance_verified) = 0 /\
              o.(Compliance.privacy_level) = 850 /\ o.(Compliance.supported_data_types) = 5.
Proof.
  eexists. split.
  - rewrite ComplianceVerifier_decides by first [(cbn; lia) | (vm_compute; reflexivity)
                                                  | (vm_compute; discriminate)].
    vm_compute. reflexivity.
  - repeat split; reflexivity.
Defined.

(** [ZKAgentVerificationOrchestrator]: on in-range inputs (10-bit scores
    and thresholds, non-empty score vectors whose sums stay below [p], at
    most 1023 harmful-content flags of value 0 or 1) it has an output
    exactly when the quality, privacy and data-handling sums are divisible
    by their lengths, and then [agent_fully_verified] is 1 exactly when all
    checks pass: every quality score and their average reach the threshold,
    every bias result is at most its threshold, every fairness score
    reaches 700, at most 50 flags are set, every privacy score reaches its
    minimum, and every data-handling score and encryption standard reaches
    800. *)
Theorem ZKAgentVerificationOrchestrator_decides (poseidon : list Z -> Z) (i : Orchestrator.OInput) :
  let rng := fun s => (0 <=? s) && (s <=? 1023) in
  i.(Orchestrator.quality_scores) <> [] ->
  forallb rng i.(Orchestrator.quality_scores) = true ->
  0 <= i.(Orchestrator.min_quality_threshold) <= 1023 ->
  Z.of_nat (length i.(Orchestrator.quality_scores)) * 1023 < p ->
  forallb rng i.(Orchestrator.bias_test_results) = true ->
  0 <= i.(Orchestrator.max_bias_threshold) <= 1023 ->
  forallb rng i.(Orchestrator.fairness_scores) = true ->
  forallb (fun f => (f =? 0) || (f =? 1)) i.(Orchestrator.harmful_content_flags) = true ->
  (length i.(Orchestrator.harmful_content_flags) <= 1023)%nat ->
  i.(Orchestrator.privacy_protection_scores) <> [] ->
  i.(Orchestrator.data_handling_scores) <> [] ->
  forallb rng i.(Orchestrator.privacy_protection_scores) = true ->
  forallb rng i.(Orchestrator.data_handling_scores) = true ->
  forallb rng i.(Orchestrator.encryption_standards) = true ->
  0 <= i.(Orchestrator.min_privacy_score) <= 1023 ->
  Z.of_nat (length i.(Orchestrator.privacy_protection_scores)) * 1023 < p ->
  Z.of_nat (length i.(Orchestrator.data_handling_scores)) * 1023 < p ->
  let qs := i.(Orchestrator.quality_scores) in
  let ps := i.(Orchestrator.privacy_protection_scores) in
  let ds := i.(Orchestrator.data_handling_scores) in
  let nq := Z.of_nat (length qs) in let np := Z.of_nat (length ps) in
  let nd := Z.of_nat (length ds) in
  let thr := i.(Orchestrator.min_quality_threshold) in
  let quality_ok := forallb (fun s => thr <=? s) qs && (thr <=? zsum qs / nq) in
  let ethics_ok :=
    forallb (fun b => b <=? i.(Orchestrator.max_bias_threshold)) i.(Orchestrator.bias_test_results)
    && forallb (fun f => 700 <=? f) i.(Orchestrator.fairness_scores)
    && (Z.of_nat (count_occ Z.eq_dec i.(Orchestrator.harmful_content_flags) 1) <=? 50) in
  let compliance_ok := forallb (fun s => i.(Orchestrator.min_privacy_score) <=? s) ps
                       && forallb (fun s => 800 <=? s) ds
                       && forallb (fun s => 800 <=? s) i.(Orchestrator.encryption_standards) in
  let divisible := (zsum qs mod nq =? 0) && (zsum ps mod np =? 0) && (zsum ds mod nd =? 0) in
  match Orchestrator.ZKAgentVerificationOrchestrator poseidon i with
  | Some o => divisible = true /\
              o.(Orchestrator.agent_fully_verified) =
                if quality_ok && ethics_ok && compliance_ok then 1 else 0
  | None => divisible = false
  end.
Proof. apply ZKAgentVerificationOrchestrator_spec. Qed.

Lemma ZKAgentVerificationOrchestrator_decides_witness :
  match Orchestrator.ZKAgentVerificationOrchestrator example_hash
          Orchestrator.ex_orchestrator_input with
  | Some o => o.(Orchestrator.agent_fully_verified) = 1
  | None => False
  end.
Proof.
  pose proof (ZKAgentVerificationOrchestrator_decides example_hash
                Orchestrator.ex_orchestrator_input) as H.
  cbv zeta in H.
  specialize (H ltac:(discriminate) eq_refl ltac:(cbn; lia) ltac:(vm_compute; reflexivity)
                eq_refl ltac:(cbn; lia) eq_refl eq_refl ltac:(cbn; lia)
                ltac:(discriminate) ltac:(discriminate) eq_refl eq_refl eq_refl
                ltac:(cbn; lia) ltac:(vm_compute; reflexivity) ltac:(vm_compute; reflexivity)).
  destruct (Orchestrator.ZKAgentVerificationOrchestrator example_hash
              Orchestrator.ex_orchestrator_input) as [o|].
  - destruct H as [_ H]. rewrite H. vm_compute. reflexivity.
  - vm_compute in H. discriminate.
Defined.

(** * Further properties of the contracts *)

Module CoreProperties.
Import Sol Core CoreOps QPFacts CoreFacts CoreFacts2 CoreFacts3 SolFacts.

(** [submitVerificationProof] commits only for an existing agent, called by
    its creator, paying at least the verification fee, with a proof the
    verifier accepts under the key of the verification type; it then counts
    one more verification, records the proof hash, keeps the payment, stamps
    the result with the block time and sets the flag of the type (training
    quality, ethics, regulatory compliance, capability), other types setting
    no flag. *)
Theorem submitVerificationProof_checks_and_effects vp ph mh m sys agentId t proof pis sys' :
  submitVerificationProof vp ph mh m sys agentId t proof pis = Some sys' ->
  let ag := agents (core sys) agentId in
  let r := verificationResults (core sys) agentId in
  let r' := verificationResults (core sys') agentId in
  creator ag <> 0 /\ creator ag = msg_sender m /\ verificationFee (core sys) <= msg_value m /\
  vp (verifyingKeys (core sys) t) proof pis = true /\
  totalVerifications (agents (core sys') agentId) = totalVerifications ag + 1 /\
  verificationProofs (agents (core sys') agentId) (ph proof) = true /\
  eth_balance (core sys') = eth_balance (core sys) + msg_value m /\
  timestamp r' = block_timestamp m /\
  match t with
  | TRAINING_QUALITY => qualityVerified r' = true
  | ETHICS_COMPLIANCE => ethicsVerified r' = true
  | REGULATORY_COMPLIANCE => complianceVerified r' = true
  | CAPABILITY_VERIFICATION => capabilityVerified r' = true
  | _ => qualityVerified r' = qualityVerified r /\ ethicsVerified r' = ethicsVerified r /\
         complianceVerified r' = complianceVerified r /\
         capabilityVerified r' = capabilityVerified r
  end.
Proof.
  intros H. unfold submitVerificationProof in H. inv_bind H.
  apply checked_add_Some in Hm3. injection H as <-. cbv zeta. cbn -[upd].
  rewrite !upd_same. cbn.
  apply negb_true_iff, Z.eqb_neq in Hm. apply Z.eqb_eq in Hm0. apply Z.leb_le in Hm1.
  rewrite upd_same.
  do 7 (split; [assumption || lia || reflexivity|]).
  unfold _updateFullVerificationStatus, with_timestamp, set_verified.
  destruct (verificationResults (core sys) agentId) as [q e c k rs ts mp].
  destruct t; cbn;
    repeat match goal with |- context [if ?b then _ else _] => destruct b end;
    cbn; auto.
Qed.

(** Agent 1's creator 42 submits a training-quality proof with the fee of
    10 to [ex_system]: the agent has 5 verifications and the balance is 15. *)
Lemma submitVerificationProof_checks_and_effects_witness :
  exists sys',
    submitVerificationProof QP.accept_all (fun _ => 0) (fun _ _ _ _ _ _ _ => 0)
      {| msg_sender := 42; msg_value := 10; block_timestamp := 100 |} ex_system 1
      TRAINING_QUALITY QP.ex_proof [] = Some sys' /\
    totalVerifications (agents (core sys') 1) = 5 /\ eth_balance (core sys') = 15.
Proof.
  eexists. split; [reflexivity|].
  match goal with
  | |- context [totalVerifications (agents (core ?s) 1)] =>
      destruct (submitVerificationProof_checks_and_effects QP.accept_all (fun _ => 0)
                  (fun _ _ _ _ _ _ _ => 0)
                  {| msg_sender := 42; msg_value := 10; block_timestamp := 100 |} ex_system 1
                  TRAINING_QUALITY QP.ex_proof [] s eq_refl)
        as (_ & _ & _ & _ & H1 & _ & H2 & _)
  end.
  split; [rewrite H1 | rewrite H2]; reflexivity.
Defined.

(** Once an agent is fully verified, it stays fully verified whatever
    transactions follow: no call of the contract clears a verification
    flag. *)
Theorem isAgentFullyVerified_persists vp ph mh acc sys txs agentId :
  isAgentFullyVerified (core sys) agentId = true ->
  isAgentFullyVerified (core (core_run vp ph mh acc sys txs)) agentId = true.
Proof.
  unfold isAgentFullyVerified. apply isAgentFullyVerified_grow, core_run_flags.
Qed.

Lemma isAgentFullyVerified_persists_witness :
  isAgentFullyVerified
    (core (core_run QP.accept_all (fun _ => 0) (fun _ _ _ _ _ _ _ => 0) (fun _ _ => true)
             ex_system [({| msg_sender := 9; msg_value := 0; block_timestamp := 100 |},
                         SetFees 0 0)])) 1 = true.
Proof. apply isAgentFullyVerified_persists. reflexivity. Defined.

(** The registry's bookkeeping ([registry_ok]: [totalRegisteredAgents] is
    the length of [registeredAgents], no agent is listed twice, and the
    listed agents are those with a creator) holds after any sequence of
    transactions from non-zero senders if it held before. *)
Theorem registry_ok_preserved vp ph mh acc sys txs :
  Forall (fun mc => msg_sender (fst mc) <> 0) txs ->
  registry_ok (core sys) -> registry_ok (core (core_run vp ph mh acc sys txs)).
Proof. intros Hs Hok. apply core_run_registry; assumption. Qed.

(** [ex_system] satisfies it, and so does the state after agent 2 registers. *)
Lemma registry_ok_preserved_witness :
  registry_ok (core (core_run QP.accept_all (fun _ => 0) (fun _ _ _ _ _ _ _ => 0)
                       (fun _ _ => true) ex_system
                       [({| msg_sender := 43; msg_value := 5; block_timestamp := 100 |},
                         RegisterAgent 2 String.EmptyString)])).
Proof.
  apply registry_ok_preserved.
  - repeat constructor; cbn; lia.
  - unfold registry_ok. cbn. split; [reflexivity|]. split; [repeat constructor; intros []|].
    intros a. unfold upd. destruct (Z.eqb_spec a 1) as [->|Ha]; cbn.
    + split; [lia | auto].
    + split; [intros [H|[]]; congruence | intros H; exfalso; apply H; reflexivity].
Defined.

(** Transactions none of which is sent by the owner change neither the
    owner, nor the fees, nor the verifying keys; in particular after
    [renounceOwnership] (owner 0) they are frozen for good. *)
Theorem non_owner_cannot_administer vp ph mh acc sys txs :
  Forall (fun mc => msg_sender (fst mc) <> core_owner sys) txs ->
  let sys' := core_run vp ph mh acc sys txs in
  core_owner sys' = core_owner sys /\
  verificationFee (core sys') = verificationFee (core sys) /\
  registrationFee (core sys') = registrationFee (core sys) /\
  verifyingKeys (core sys') = verifyingKeys (core sys).
Proof.
  revert sys. induction txs as [|[m c] txs IH]; intros sys Hs; cbn; [auto|].
  inversion Hs as [|? ? Hm Hrest]; subst. cbn in Hm.
  destruct (core_call vp ph mh acc m sys c) as [sys1|] eqn:E; cbn; [|apply IH; exact Hrest].
  destruct (core_call_non_owner vp ph mh acc m sys c sys1 E Hm) as (H1 & H2 & H3 & H4).
  rewrite <- H1 in Hrest. destruct (IH sys1 Hrest) as (H5 & H6 & H7 & H8).
  cbv zeta in *. rewrite H5, H6, H7, H8, H1, H2, H3, H4. auto.
Qed.

Lemma non_owner_cannot_administer_witness :
  verificationFee (core (core_run QP.accept_all (fun _ => 0) (fun _ _ _ _ _ _ _ => 0)
                           (fun _ _ => true) ex_system
                           [({| msg_sender := 42; msg_value := 0; block_timestamp := 100 |},
                             SetFees 0 0)])) = 10.
Proof.
  destruct (non_owner_cannot_administer QP.accept_all (fun _ => 0) (fun _ _ _ _ _ _ _ => 0)
              (fun _ _ => true) ex_system
              [({| msg_sender := 42; msg_value := 0; block_timestamp := 100 |}, SetFees 0 0)]
              ltac:(repeat constructor; cbn; lia)) as (_ & H & _).
  rewrite H. reflexivity.
Defined.

(** Every committed proof of a fully verified agent, whatever its type,
    rewrites its reputation score with the proof's fifth public input (the
    score stays when there are at most four) and its master proof hash. *)
Theorem submitVerificationProof_sets_reputation vp ph mh m sys agentId t proof pis sys' :
  isAgentFullyVerified (core sys) agentId = true ->
  submitVerificationProof vp ph mh m sys agentId t proof pis = Some sys' ->
  let score := if Nat.ltb 4 (length pis) then nth 4 pis 0
               else reputationScore (verificationResults (core sys) agentId) in
  reputationScore (verificationResults (core sys') agentId) = score /\
  masterProofHash (verificationResults (core sys') agentId) =
    mh agentId true true true true score (block_timestamp m).
Proof.
  intros Hv H. unfold submitVerificationProof in H. inv_bind H.
  injection H as <-. cbv zeta. cbn -[upd]. rewrite upd_same.
  unfold isAgentFullyVerified in Hv.
  unfold _updateFullVerificationStatus, with_timestamp, set_verified.
  destruct (verificationResults (core sys) agentId) as [q e c k rs ts mp]. cbn in Hv.
  apply andb_prop in Hv as [Hv Hk]. apply andb_prop in Hv as [Hv Hc].
  apply andb_prop in Hv as [Hq He]. subst q e c k.
  destruct t; cbn; split; reflexivity.
Qed.

Lemma submitVerificationProof_sets_reputation_witness :
  exists sys',
    submitVerificationProof QP.accept_all (fun _ => 0) (fun _ _ _ _ _ score _ => score)
      {| msg_sender := 42; msg_value := 10; block_timestamp := 100 |} ex_system 1
      REPUTATION_SCORING QP.ex_proof [0; 0; 0; 0; 999] = Some sys' /\
    reputationScore (verificationResults (core sys') 1) = 999.
Proof.
  eexists. split; [reflexivity|].
  match goal with
  | |- reputationScore (verificationResults (core ?s) 1) = _ =>
      destruct (submitVerificationProof_sets_reputation QP.accept_all (fun _ => 0)
                  (fun _ _ _ _ _ score _ => score)
                  {| msg_sender := 42; msg_value := 10; block_timestamp := 100 |} ex_system 1
                  REPUTATION_SCORING QP.ex_proof [0; 0; 0; 0; 999] s eq_refl eq_refl) as [H _]
  end.
  rewrite H. reflexivity.
Defined.

(** [withdrawFees] commits only for the owner and only if the owner accepts
    the payment; it empties the contract's balance and changes nothing
    else: every other field of the storage, and the owner, stay as they
    were. *)
Theorem withdrawFees_empties_balance acc m sys sys' :
  withdrawFees acc m sys = Some sys' ->
  msg_sender m = core_owner sys /\ acc (core_owner sys) (eth_balance (core sys)) = true /\
  eth_balance (core sys') = 0 /\ core_owner sys' = core_owner sys /\
  agents (core sys') = agents (core sys) /\
  verificationResults (core sys') = verificationResults (core sys) /\
  verifyingKeys (core sys') = verifyingKeys (core sys) /\
  registeredAgents (core sys') = registeredAgents (core sys) /\
  totalRegisteredAgents (core sys') = totalRegisteredAgents (core sys) /\
  verificationFee (core sys') = verificationFee (core sys) /\
  registrationFee (core sys') = registrationFee (core sys).
Proof.
  intros H. unfold withdrawFees, onlyOwner in H. inv_bind H. injection H as <-.
  apply Z.eqb_eq in Hm. cbn. repeat split; assumption.
Qed.

Lemma withdrawFees_empties_balance_witness :
  exists sys', withdrawFees (fun _ _ => true)
                 {| msg_sender := 9; msg_value := 0; block_timestamp := 100 |} ex_system
               = Some sys' /\ eth_balance (core sys') = 0.
Proof.
  eexists. split; [reflexivity|].
  match goal with
  | |- eth_balance (core ?s) = _ =>
      destruct (withdrawFees_empties_balance (fun _ _ => true)
                  {| msg_sender := 9; msg_value := 0; block_timestamp := 100 |} ex_system s eq_refl)
        as (_ & _ & H & _)
  end.
  exact H.
Defined.

End CoreProperties.

Module GovProperties.
Import Sol Gov QPFacts GovFacts SolFacts.

(** An address votes at most once on a proposal: after its vote commits,
    every later vote of the same address on that proposal reverts, whatever
    transactions come in between. *)
Theorem vote_at_most_once m s pid choice s' txs m' choice' :
  vote m s pid choice = Some s' -> msg_sender m' = msg_sender m ->
  vote m' (gov_run s' txs) pid choice' = None.
Proof.
  intros H Hs. destruct (vote_Some m s pid choice s' H) as (_ & _ & _ & _ & Hv & _).
  pose proof (gov_run_hasVoted txs s' pid (msg_sender m) Hv) as Hv'.
  unfold vote. rewrite Hs, Hv'. cbn.
  destruct (_ <=? _); cbn; [|reflexivity]. destruct (_ <=? _); reflexivity.
Qed.

Lemma vote_at_most_once_witness :
  exists s', vote (ex_gmsg 5 10) ex_gov 1 1 = Some s' /\
    vote (ex_gmsg 5 20) (gov_run s' [(ex_gmsg 5 15, TokenTransfer 6 100)]) 1 0 = None.
Proof.
  eexists. split; [reflexivity|].
  apply (vote_at_most_once (ex_gmsg 5 10) ex_gov 1 1); reflexivity.
Defined.

(** A committed vote passed the checks (voting open, first vote of the
    sender, choice at most 2, a positive token balance) and added the
    sender's current token balance to exactly one tally of the proposal:
    against for 0, for for 1, abstain otherwise; it records the sender's
    vote and choice, and nothing else changes: the other fields of the
    proposal, the other proposals and the rest of the storage stay. *)
Theorem vote_adds_balance_to_one_tally m s pid choice s' :
  vote m s pid choice = Some s' ->
  let p := proposals s pid in
  let voter := msg_sender m in
  let power := balances (governanceToken s) voter in
  startTime p <= block_timestamp m <= endTime p /\
  hasVoted p voter = false /\ choice <= 2 /\ 0 < power /\
  s' = with_proposals s (upd (proposals s) pid
         {| id := id p; proposer := proposer p; description := description p;
            forVotes := forVotes p + (if choice =? 1 then power else 0);
            againstVotes := againstVotes p + (if choice =? 0 then power else 0);
            abstainVotes := abstainVotes p + (if (choice =? 0) || (choice =? 1) then 0 else power);
            startTime := startTime p; endTime := endTime p; executed := executed p;
            hasVoted := upd (hasVoted p) voter true;
            voteChoice := upd (voteChoice p) voter choice |}).
Proof.
  intros H. unfold vote in H. inv_bind H.
  match goal with t : (Z * Z * Z)%type |- _ => destruct t as [[f ag] ab] end.
  injection H as <-. cbv zeta.
  apply Z.leb_le in Hm, Hm0, Hm2. apply negb_true_iff in Hm1. apply Z.ltb_lt in Hm3.
  do 4 (split; [assumption || lia|]).
  set (p := proposals s pid) in *. set (power := balances (governanceToken s) (msg_sender m)) in *.
  assert (Ht : f = forVotes p + (if choice =? 1 then power else 0) /\
               ag = againstVotes p + (if choice =? 0 then power else 0) /\
               ab = abstainVotes p + (if (choice =? 0) || (choice =? 1) then 0 else power)).
  { destruct (Z.eqb_spec choice 0) as [->|H0];
      [|destruct (Z.eqb_spec choice 1) as [->|H1]]; cbn in Hm4 |- *;
      try (rewrite (proj2 (Z.eqb_neq _ _) H0), (proj2 (Z.eqb_neq _ _) H1) in Hm4 |- *;
           cbn in Hm4 |- * );
      inv_bind Hm4;
      match goal with Hc : checked_add _ _ = Some _ |- _ => apply checked_add_Some in Hc end;
      injection Hm4 as <- <- <-; subst; lia. }
  destruct Ht as (-> & -> & ->). reflexivity.
Qed.

Lemma vote_adds_balance_to_one_tally_witness :
  exists s', vote (ex_gmsg 5 10) ex_gov 1 2 = Some s' /\
    abstainVotes (proposals s' 1) = 1000000000000000000000 /\
    forVotes (proposals s' 1) = 0.
Proof.
  destruct (vote (ex_gmsg 5 10) ex_gov 1 2) as [s'|] eqn:E; [| vm_compute in E; discriminate].
  exists s'. split; [reflexivity|].
  destruct (vote_adds_balance_to_one_tally (ex_gmsg 5 10) ex_gov 1 2 s' E)
    as (_ & _ & _ & _ & ->).
  split; vm_compute; reflexivity.
Defined.

(** Voting power is the balance at the time of the vote, so tokens count
    again after they move: if [a] votes for, hands its whole balance to
    [b], and [b] votes for, the for tally grows by twice [a]'s balance plus
    [b]'s own. *)
Theorem vote_counts_moved_tokens ma mb mt s pid s1 s2 s3 :
  let a := msg_sender ma in let b := msg_sender mb in
  a <> b -> msg_sender mt = a ->
  vote ma s pid 1 = Some s1 ->
  gov_call mt s1 (TokenTransfer b (balances (governanceToken s) a)) = Some s2 ->
  vote mb s2 pid 1 = Some s3 ->
  forVotes (proposals s3 pid) =
    forVotes (proposals s pid) + 2 * balances (governanceToken s) a
    + balances (governanceToken s) b.
Proof.
  intros a b Hab Hmt H1 H2 H3.
  destruct (vote_Some _ _ _ _ _ H1) as (_ & _ & _ & _ & _ & F1 & _ & _ & T1 & _).
  destruct (vote_Some _ _ _ _ _ H3) as (_ & _ & _ & _ & _ & F3 & _ & _ & _ & _).
  cbn in H2. inv_bind H2. injection H2 as <-.
  rewrite Hmt in Hm. fold a b in Hm.
  destruct (erc20_transfer_Some _ _ _ _ _ Hm Hab) as (_ & _ & _ & Hb & _).
  cbn -[Z.mul] in F1, F3 |- *. rewrite F3. cbn -[Z.mul]. fold b. rewrite Hb, T1, F1. fold a. lia.
Qed.

(** Address 5 votes for with its 10^21 units, sends them to 6, and 6
    votes for: the tally is 2 * 10^21. *)
Lemma vote_counts_moved_tokens_witness :
  exists s1 s2 s3,
    vote (ex_gmsg 5 10) ex_gov 1 1 = Some s1 /\
    gov_call (ex_gmsg 5 11) s1 (TokenTransfer 6 1000000000000000000000) = Some s2 /\
    vote (ex_gmsg 6 12) s2 1 1 = Some s3 /\ forVotes (proposals s3 1) = 2000000000000000000000.
Proof.
  do 3 eexists. split; [reflexivity|]. split; [reflexivity|]. split; [reflexivity|].
  match goal with
  | |- forVotes (proposals ?s3 1) = _ =>
      rewrite (vote_counts_moved_tokens (ex_gmsg 5 10) (ex_gmsg 6 12) (ex_gmsg 5 11) ex_gov 1
                 _ _ s3 ltac:(cbn; lia) eq_refl eq_refl eq_refl eq_refl)
  end.
  reflexivity.
Defined.

(** [executeProposal] commits only after the voting period, for a proposal
    not yet executed whose votes reach the quorum; it sets the proposal's
    [executed] and changes nothing else (whether the proposal passed is not
    recorded), and it cannot commit twice. *)
Theorem executeProposal_once m s pid s' :
  executeProposal m s pid = Some s' ->
  let p := proposals s pid in
  endTime p < block_timestamp m /\ executed p = false /\
  minimumQuorum s <= forVotes p + againstVotes p + abstainVotes p /\
  s' = with_proposals s (upd (proposals s) pid
         {| id := id p; proposer := proposer p; description := description p;
            forVotes := forVotes p; againstVotes := againstVotes p;
            abstainVotes := abstainVotes p; startTime := startTime p; endTime := endTime p;
            executed := true; hasVoted := hasVoted p; voteChoice := voteChoice p |}) /\
  (forall m', executeProposal m' s' pid = None).
Proof.
  intros H. unfold executeProposal in H. inv_bind H. injection H as <-. cbv zeta.
  apply Z.ltb_lt in Hm. apply negb_true_iff in Hm0. apply Z.leb_le in Hm3.
  apply checked_add_Some in Hm1, Hm2. subst.
  do 3 (split; [assumption || lia|]). split; [reflexivity|].
  intros m'. unfold executeProposal. cbn -[upd]. rewrite upd_same. cbn.
  destruct (_ <? _); reflexivity.
Qed.

(** Addresses 5 (10^21 units, for) and 7 (200, against) vote; at time 2000
    the proposal executes, and a second execution reverts. *)
Lemma executeProposal_once_witness :
  exists s',
    executeProposal (ex_gmsg 1 2000)
      (gov_run ex_gov [(ex_gmsg 5 10, Vote 1 1); (ex_gmsg 7 11, Vote 1 0)]) 1 = Some s' /\
    executeProposal (ex_gmsg 1 2001) s' 1 = None.
Proof.
  eexists. split; [reflexivity|].
  match goal with
  | |- executeProposal _ ?s' 1 = None =>
      destruct (executeProposal_once (ex_gmsg 1 2000)
                  (gov_run ex_gov [(ex_gmsg 5 10, Vote 1 1); (ex_gmsg 7 11, Vote 1 0)]) 1 s'
                  eq_refl) as (_ & _ & _ & _ & H)
  end.
  apply H.
Defined.

(** [resolveDispute] commits only for the owner and a dispute not yet
    resolved; it records the decision, moves tokens only when the dispute
    is upheld, and cannot commit twice for the same dispute. *)
Theorem resolveDispute_once m s did up s' :
  resolveDispute m s did up = Some s' ->
  msg_sender m = gov_owner s /\ resolved (disputes s did) = false /\
  resolved (disputes s' did) = true /\ upheld (disputes s' did) = up /\
  deposit (disputes s' did) = deposit (disputes s did) /\
  (up = false -> governanceToken s' = governanceToken s) /\
  (forall m' up', resolveDispute m' s' did up' = None).
Proof.
  intros H. unfold resolveDispute in H. inv_bind H. injection H as <-.
  apply Z.eqb_eq in Hm. apply negb_true_iff in Hm0. cbn -[upd]. rewrite upd_same. cbn.
  do 5 (split; [assumption || reflexivity|]).
  split; [intros ->; cbn in Hm1; congruence|].
  intros m' up'. unfold resolveDispute. cbn -[upd]. rewrite upd_same. cbn.
  destruct (_ =? _); reflexivity.
Qed.

(** Address 7 opens dispute 1 with its deposit of 100; the owner rejects
    it, and resolving it again reverts. *)
Lemma resolveDispute_once_witness :
  exists s1 s2,
    createDispute (ex_gmsg 7 10) ex_gov 3 String.EmptyString = Some s1 /\
    resolveDispute (ex_gmsg 9 20) s1 1 false = Some s2 /\
    resolveDispute (ex_gmsg 9 30) s2 1 true = None.
Proof.
  do 2 eexists. split; [reflexivity|]. split; [reflexivity|].
  match goal with
  | |- resolveDispute _ ?s2 1 true = None =>
      destruct (resolveDispute_once (ex_gmsg 9 20)
                  (gov_run ex_gov [(ex_gmsg 7 10, CreateDispute 3 String.EmptyString)])
                  1 false s2 eq_refl)
        as (_ & _ & _ & _ & _ & _ & H)
  end.
  apply H.
Defined.

(** A dispute opened by an account other than the contract escrows the
    deposit in the contract; resolved as upheld, it gives every token
    balance back as it was before the dispute; rejected, the contract keeps
    the deposit. *)
Theorem dispute_deposit_round_trip m s ag desc s1 m' up s2 :
  createDispute m s ag desc = Some s1 -> msg_sender m <> gov_this s ->
  resolveDispute m' s1 (nextDisputeId s) up = Some s2 ->
  (up = true -> forall a, balances (governanceToken s2) a = balances (governanceToken s) a) /\
  (up = false ->
     balances (governanceToken s2) (gov_this s) =
       balances (governanceToken s) (gov_this s) + disputeDeposit s /\
     balances (governanceToken s2) (msg_sender m) =
       balances (governanceToken s) (msg_sender m) - disputeDeposit s).
Proof.
  intros H1 Hne H2. unfold createDispute in H1. inv_bind H1. injection H1 as <-.
  destruct (erc20_transferFrom_Some _ _ _ _ _ _ Hm Hne) as (_ & _ & _ & T1 & T2 & T3).
  unfold resolveDispute in H2. cbn -[upd] in H2. rewrite upd_same in H2. cbn in H2.
  inv_bind H2. injection H2 as <-. cbn.
  match goal with Ht : (if up then _ else _) = Some _ |- _ => rename Ht into Hu end.
  split; intros ->.
  - cbn in Hu.
    assert (Hne' : gov_this s <> msg_sender m) by congruence.
    destruct (erc20_transfer_Some _ _ _ _ _ Hu Hne') as (_ & _ & _ & U1 & U2 & U3).
    intros x.
    destruct (Z.eq_dec x (msg_sender m)) as [->|Ha1]; [rewrite U1, T2; lia|].
    destruct (Z.eq_dec x (gov_this s)) as [->|Ha2]; [rewrite U2, T1; lia|].
    rewrite U3, T3; auto.
  - cbn in Hu. injection Hu as <-. split; [exact T1 | exact T2].
Qed.

(** Address 7 opens a dispute with its deposit of 100 tokens (200 before);
    upheld, 7 has its 200 tokens again. *)
Lemma dispute_deposit_round_trip_witness :
  exists s1 s2,
    createDispute (ex_gmsg 7 10) ex_gov 3 String.EmptyString = Some s1 /\
    msg_sender (ex_gmsg 7 10) <> gov_this ex_gov /\
    resolveDispute (ex_gmsg 9 20) s1 (nextDisputeId ex_gov) true = Some s2 /\
    balances (governanceToken s2) 7 = 200.
Proof.
  do 2 eexists. split; [reflexivity|]. split; [cbn; lia|]. split; [reflexivity|].
  match goal with
  | |- balances (governanceToken ?s2) 7 = 200 =>
      destruct (dispute_deposit_round_trip (ex_gmsg 7 10) ex_gov 3 String.EmptyString
                  (gov_run ex_gov [(ex_gmsg 7 10, CreateDispute 3 String.EmptyString)])
                  (ex_gmsg 9 20) true s2 eq_refl ltac:(cbn; lia) eq_refl) as [H _]
  end.
  rewrite (H eq_refl 7). reflexivity.
Defined.

(** [createProposal] commits only for a holder of at least 100 tokens (of
    18 decimals); it fills the next slot with the caller as proposer and a
    voting window from now to now plus the voting period, and advances the
    counter; the slot keeps whatever tallies, [executed] flag and vote
    records it held, and nothing else changes. *)
Theorem createProposal_effects m s desc s' :
  createProposal m s desc = Some s' ->
  let pid := nextProposalId s in
  let p := proposals s pid in
  100 * 10 ^ 18 <= balances (governanceToken s) (msg_sender m) /\
  s' = {| proposals := upd (proposals s) pid
            {| id := pid; proposer := msg_sender m; description := desc;
               forVotes := forVotes p; againstVotes := againstVotes p;
               abstainVotes := abstainVotes p; startTime := block_timestamp m;
               endTime := block_timestamp m + votingPeriod s; executed := executed p;
               hasVoted := hasVoted p; voteChoice := voteChoice p |};
          disputes := disputes s; nextProposalId := pid + 1;
          nextDisputeId := nextDisputeId s; votingPeriod := votingPeriod s;
          minimumQuorum := minimumQuorum s; disputeDeposit := disputeDeposit s;
          gov_owner := gov_owner s; gov_this := gov_this s;
          governanceToken := governanceToken s |}.
Proof.
  intros H. unfold createProposal in H. inv_bind H. injection H as <-. cbv zeta.
  apply Z.leb_le in Hm. apply checked_add_Some in Hm0, Hm1. subst.
  split; [assumption | reflexivity].
Qed.

(** Address 5 (10^21 units: 1000 tokens of 18 decimals) opens proposal 2
    at time 50: it is open until 50 + 604800. *)
Lemma createProposal_effects_witness :
  exists s',
    createProposal (ex_gmsg 5 50)
      ex_gov String.EmptyString = Some s' /\
    endTime (proposals s' 2) = 604850.
Proof.
  destruct (createProposal (ex_gmsg 5 50) ex_gov String.EmptyString) as [s'|] eqn:E;
    [| vm_compute in E; discriminate].
  exists s'. split; [reflexivity|].
  destruct (createProposal_effects (ex_gmsg 5 50) ex_gov String.EmptyString s' E)
    as (_ & ->).
  reflexivity.
Defined.

End GovProperties.

Module QPProperties.
Import Sol QP QPFacts GovFacts QPFacts2 QPExamples SolFacts.

(** No sequence of transactions raises the platform fee above 1000 basis
    points ([setPlatformFee] rejects more); so, while it holds, the fee taken
    from a settled query is at most a tenth of its payment. *)
Theorem platform_fee_at_most_tenth vp qi s txs qid :
  platformFeePercent s <= 1000 ->
  let s' := run vp qi s txs in
  platformFeePercent s' <= 1000 /\
  (0 <= paymentAmount (queries s' qid) ->
   platform_fee s' qid <= paymentAmount (queries s' qid) / 10).
Proof.
  intros Hf. cbv zeta. pose proof (run_fee vp qi txs s Hf) as H.
  split; [exact H|]. intros Hp. unfold platform_fee, FEE_DENOMINATOR.
  set (a := paymentAmount _) in *. set (f := platformFeePercent _) in *.
  transitivity (a * 1000 / 10000).
  - apply Z.div_le_mono; [lia|]. apply Z.mul_le_mono_nonneg_l; lia.
  - rewrite (Z.mul_comm a 1000). change 10000 with (1000 * 10).
    rewrite Z.div_mul_cancel_l; lia.
Qed.

(** From the example state (fee 250), the owner's attempt to set 5000
    basis points reverts; the fee on query 77 (payment 100) is 2. *)
Lemma platform_fee_at_most_tenth_witness :
  platformFeePercent (ex_qp 100) <= 1000 /\
  platformFeePercent (run accept_all (fun _ _ _ _ _ => 0) (ex_qp 100)
                        [(ex_msg 9, SetPlatformFee 5000)]) = 250 /\
  platform_fee (run accept_all (fun _ _ _ _ _ => 0) (ex_qp 100)
                  [(ex_msg 9, SetPlatformFee 5000)]) 77 <= 10.
Proof.
  split; [cbn; lia|]. split; [reflexivity|].
  destruct (platform_fee_at_most_tenth accept_all (fun _ _ _ _ _ => 0) (ex_qp 100)
              [(ex_msg 9, SetPlatformFee 5000)] 77 ltac:(cbn; lia)) as [_ H].
  apply H. cbn. lia.
Defined.

(** A committed [submitQuery] (from an account other than the contract)
    checks that the agent is fully verified, supports the query type and
    accepts queries, and that the payment covers the base price plus the
    complexity charge for complexity 500; it moves the payment from the
    requester to the contract and records the request, unprocessed, under
    its query id, where it is pending. *)
Theorem submitQuery_escrows qi m s a qt pay qh s' :
  submitQuery qi m s a qt pay qh = Some s' -> msg_sender m <> this s ->
  let qid := qi a (msg_sender m) qt qh (block_timestamp m) in
  Core.isAgentFullyVerified (verificationContract s) a = true /\
  supportedQueryTypes (agentCapabilities s a) qt = true /\
  acceptingQueries (agentCapabilities s a) = true /\
  basePrice (agentCapabilities s a) + 500 * complexityMultiplier (agentCapabilities s a) / 1000
    <= pay /\
  balances (paymentToken s') (msg_sender m) = balances (paymentToken s) (msg_sender m) - pay /\
  balances (paymentToken s') (this s) = balances (paymentToken s) (this s) + pay /\
  requester (queries s' qid) = msg_sender m /\ paymentAmount (queries s' qid) = pay /\
  pending s' qid = 1%nat.
Proof.
  intros H Hne. cbv zeta.
  destruct (submitQuery_Some _ _ _ _ _ _ _ _ H Hne)
    as (H1 & H2 & H3 & H4 & H5 & H6 & H7 & _ & Hq & _).
  unfold pending. rewrite Hq, !upd_same. cbn.
  replace (msg_sender m =? 0) with false by (symmetry; apply Z.eqb_neq; exact H5).
  repeat split; assumption.
Qed.

(** Requester 5 submits query 33 for agent 1 with a payment of 100 (the
    price is 10 + 500 * 5 / 1000 = 12): the contract now holds 100. *)
Lemma submitQuery_escrows_witness :
  exists s',
    submitQuery ex_query_id (ex_msg 5) ex_qp_open 1 150 100 33 = Some s' /\
    balances (paymentToken s') 1000 = 100 /\ pending s' 33 = 1%nat.
Proof.
  eexists. split; [reflexivity|].
  match goal with
  | |- balances (paymentToken ?s') _ = _ /\ _ =>
      destruct (submitQuery_escrows ex_query_id (ex_msg 5) ex_qp_open 1 150 100 33 s'
                  eq_refl ltac:(cbn; lia))
        as (_ & _ & _ & _ & _ & H & _ & _ & Hp)
  end.
  split; [exact H | exact Hp].
Defined.

(** [submitQuery] does not check that its query id is new: the same query
    submitted twice with the same timestamp (in one block) takes both
    payments into the contract but leaves a single pending request, for one
    payment, in the slot. *)
Theorem submitQuery_repeat_same_block qi m s a qt pay qh s1 s2 :
  submitQuery qi m s a qt pay qh = Some s1 ->
  submitQuery qi m s1 a qt pay qh = Some s2 -> msg_sender m <> this s ->
  let qid := qi a (msg_sender m) qt qh (block_timestamp m) in
  balances (paymentToken s2) (this s) = balances (paymentToken s) (this s) + 2 * pay /\
  balances (paymentToken s2) (msg_sender m) = balances (paymentToken s) (msg_sender m) - 2 * pay /\
  queries s2 qid = queries s1 qid /\ paymentAmount (queries s2 qid) = pay /\
  pending s2 qid = 1%nat.
Proof.
  intros H1 H2 Hne. cbv zeta.
  destruct (submitQuery_Some _ _ _ _ _ _ _ _ H1 Hne)
    as (_ & _ & _ & _ & Hs & A1 & A2 & _ & Q1 & T1 & _).
  rewrite <- T1 in Hne.
  destruct (submitQuery_Some _ _ _ _ _ _ _ _ H2 Hne)
    as (_ & _ & _ & _ & _ & B1 & B2 & _ & Q2 & _).
  rewrite T1 in B2. rewrite B1, B2, A1, A2, Q1, Q2, !upd_same. unfold pending.
  rewrite Q2, upd_same. cbn -[Z.mul].
  replace (msg_sender m =? 0) with false by (symmetry; apply Z.eqb_neq; exact Hs).
  repeat split; (lia || reflexivity).
Qed.

(** Requester 5 submits query 33 twice in one block, paying 100 each
    time: the contract holds 200 for one request of 100. *)
Lemma submitQuery_repeat_same_block_witness :
  exists s1 s2,
    submitQuery ex_query_id (ex_msg 5) ex_qp_open 1 150 100 33 = Some s1 /\
    submitQuery ex_query_id (ex_msg 5) s1 1 150 100 33 = Some s2 /\
    balances (paymentToken s2) 1000 = 200 /\ paymentAmount (queries s2 33) = 100.
Proof.
  do 2 eexists. split; [reflexivity|]. split; [reflexivity|].
  match goal with
  | |- balances (paymentToken ?s2) _ = _ /\ _ =>
      destruct (submitQuery_repeat_same_block ex_query_id (ex_msg 5) ex_qp_open 1 150 100 33
                  (run accept_all ex_query_id ex_qp_open [(ex_msg 5, SubmitQuery 1 150 100 33)])
                  s2 eq_refl eq_refl ltac:(cbn; lia))
        as (H & _ & _ & Hp & _)
  end.
  split; [exact H | exact Hp].
Defined.

(** [withdrawPlatformFees] commits only for the owner and sends the
    contract's whole token balance to the owner (not only the fees taken
    so far: the escrow of pending queries too). Afterwards the settlement
    of any query whose creator share is positive reverts. *)
Theorem withdrawPlatformFees_takes_escrow vp m s s' :
  withdrawPlatformFees m s = Some s' -> this s <> owner s ->
  msg_sender m = owner s /\
  balances (paymentToken s') (this s) = 0 /\
  balances (paymentToken s') (owner s) =
    balances (paymentToken s) (owner s) + balances (paymentToken s) (this s) /\
  queries s' = queries s /\
  (forall m' qid pr pis,
     platform_fee s qid < paymentAmount (queries s qid) ->
     submitQueryProcessingProof vp m' s' qid pr pis = None).
Proof.
  intros H Hne. unfold withdrawPlatformFees in H. inv_bind H. injection H as <-.
  apply Z.eqb_eq in Hm.
  destruct (erc20_transfer_Some _ _ _ _ _ Hm0 Hne) as (_ & _ & _ & T1 & T2 & _).
  cbn. rewrite T1, T2.
  split; [exact Hm|]. split; [lia|]. split; [reflexivity|]. split; [reflexivity|].
  intros m' qid pr pis Hlt.
  destruct (submitQueryProcessingProof vp m' _ qid pr pis) as [s2|] eqn:E; [|reflexivity].
  apply submitQueryProcessingProof_Some in E.
  destruct E as (_ & _ & _ & _ & rc & tok & _ & Ht & _).
  apply erc20_transfer_le in Ht. cbn in Ht. rewrite T2 in Ht.
  unfold platform_fee in Ht, Hlt. cbn in Ht. lia.
Qed.

(** The owner (9) withdraws the 100 tokens escrowed for the pending query
    77; settling query 77 (creator share 98) then reverts. *)
Lemma withdrawPlatformFees_takes_escrow_witness :
  exists s',
    withdrawPlatformFees (ex_msg 9) (ex_qp 100) = Some s' /\
    balances (paymentToken s') 9 = 100 /\
    submitQueryProcessingProof accept_all (ex_msg 5) s' 77 ex_proof [0; 3] = None.
Proof.
  eexists. split; [reflexivity|].
  match goal with
  | |- balances (paymentToken ?s') _ = _ /\ _ =>
      destruct (withdrawPlatformFees_takes_escrow accept_all (ex_msg 9) (ex_qp 100) s'
                  eq_refl ltac:(cbn; lia))
        as (_ & _ & H & _ & Hs)
  end.
  split; [exact H|]. apply Hs. vm_compute. reflexivity.
Defined.

End QPProperties.
